(** * NDM-TCP: entropy-aware congestion control, four kernel-module tiers

    Shallow embedding of the four congestion-control modules
    ([ndm_tcp_lkm.c], [ndm_tcp_lkm_optimized.c],
    [ndm_tcp_lkm_optimized_ultra.c], [ndm_tcp_lkm_hyp.c]) and the
    properties of their callbacks.

    Machine integers are [Z] with the C conversions written out; the
    per-connection private area [struct ndm_tcp] is a record, one per tier
    (each tier lives in its own module, as each is its own kernel module);
    arrays are lists updated by index.  The callbacks take the host socket
    [tcp_sock] and the private area and return the updated copies. *)

From Stdlib Require Import ZArith Lia Bool.
From stdpp Require Import base tactics numbers list.

Local Open Scope Z_scope.

(** ** C integer conversions *)

Definition wrap_unsigned (w x : Z) : Z := x mod 2 ^ w.
Definition wrap_signed (w x : Z) : Z := (x + 2 ^ (w - 1)) mod 2 ^ w - 2 ^ (w - 1).

Definition u8 : Z → Z := wrap_unsigned 8.
Definition u16 : Z → Z := wrap_unsigned 16.
Definition u32 : Z → Z := wrap_unsigned 32.
Definition u64 : Z → Z := wrap_unsigned 64.
Definition s8 : Z → Z := wrap_signed 8.
Definition s16 : Z → Z := wrap_signed 16.
Definition s32 : Z → Z := wrap_signed 32.
Definition s64 : Z → Z := wrap_signed 64.

Definition U32_MAX : Z := 4294967295.

(** [a[i]] for an in-range index; the callers keep their indices below the
    array length, the default stands for the out-of-range read that C leaves
    undefined. *)
Definition at_index (l : list Z) (i : Z) : Z := nth (Z.to_nat i) l 0.

(** Indices [0 .. n-1] of a [for (i = 0; i < n; i++)] loop. *)
Definition indices (n : Z) : list Z := seqZ 0 n.

(** [32 - __builtin_clz(v)], the bit length of [v]; [__builtin_clz(0)] is
    undefined in C and is given the value of an empty bit string here. *)
Definition bit_length (v : Z) : Z := if v =? 0 then 0 else Z.log2 v + 1.

(** ** The host transport stack

    [struct tcp_sock] holds what the callbacks read and write; the window
    helpers of the kernel ([tcp_slow_start], [tcp_cong_avoid_ai],
    [tcp_reno_cong_avoid], [tcp_is_cwnd_limited]) are not part of the
    modules and are taken as an interface. *)

Record tcp_sock := {
  snd_cwnd : Z;
  snd_ssthresh : Z;
  snd_cwnd_cnt : Z;
  snd_cwnd_clamp : Z;
  srtt_us : Z;
  is_cwnd_limited : bool
}.

Definition set_snd_cwnd (v : Z) (tp : tcp_sock) : tcp_sock :=
  {| snd_cwnd := v; snd_ssthresh := snd_ssthresh tp; snd_cwnd_cnt := snd_cwnd_cnt tp;
     snd_cwnd_clamp := snd_cwnd_clamp tp; srtt_us := srtt_us tp;
     is_cwnd_limited := is_cwnd_limited tp |}.

Definition set_snd_ssthresh (v : Z) (tp : tcp_sock) : tcp_sock :=
  {| snd_cwnd := snd_cwnd tp; snd_ssthresh := v; snd_cwnd_cnt := snd_cwnd_cnt tp;
     snd_cwnd_clamp := snd_cwnd_clamp tp; srtt_us := srtt_us tp;
     is_cwnd_limited := is_cwnd_limited tp |}.

Definition set_snd_cwnd_cnt (v : Z) (tp : tcp_sock) : tcp_sock :=
  {| snd_cwnd := snd_cwnd tp; snd_ssthresh := snd_ssthresh tp; snd_cwnd_cnt := v;
     snd_cwnd_clamp := snd_cwnd_clamp tp; srtt_us := srtt_us tp;
     is_cwnd_limited := is_cwnd_limited tp |}.

Definition TCP_INFINITE_SSTHRESH : Z := 2147483647.

Class tcp_host := {
  tcp_slow_start : tcp_sock → Z → tcp_sock;
  tcp_cong_avoid_ai : tcp_sock → Z → Z → tcp_sock;
  tcp_reno_cong_avoid : tcp_sock → Z → Z → tcp_sock;
  tcp_is_cwnd_limited : tcp_sock → bool
}.

(** A reference host, after the helpers of the kernel's [tcp_cong.c]; it
    instantiates the interface where a callback is run on concrete input. *)
Module Host.

Definition slow_start (tp : tcp_sock) (acked : Z) : tcp_sock * Z :=
  let cwnd := Z.min (u32 (snd_cwnd tp + acked)) (snd_ssthresh tp) in
  let acked := u32 (acked - u32 (cwnd - snd_cwnd tp)) in
  (set_snd_cwnd (Z.min cwnd (snd_cwnd_clamp tp)) tp, acked).

Definition cong_avoid_ai (tp : tcp_sock) (w acked : Z) : tcp_sock :=
  let tp := if w <=? snd_cwnd_cnt tp
            then set_snd_cwnd (u32 (snd_cwnd tp + 1)) (set_snd_cwnd_cnt 0 tp)
            else tp in
  let tp := set_snd_cwnd_cnt (u32 (snd_cwnd_cnt tp + acked)) tp in
  let tp := if w <=? snd_cwnd_cnt tp
            then let delta := snd_cwnd_cnt tp / w in
                 set_snd_cwnd (u32 (snd_cwnd tp + delta))
                   (set_snd_cwnd_cnt (u32 (snd_cwnd_cnt tp - u32 (delta * w))) tp)
            else tp in
  set_snd_cwnd (Z.min (snd_cwnd tp) (snd_cwnd_clamp tp)) tp.

Definition reno_cong_avoid (tp : tcp_sock) (ack acked : Z) : tcp_sock :=
  if negb (is_cwnd_limited tp) then tp
  else if snd_cwnd tp <? snd_ssthresh tp
       then let '(tp', acked') := slow_start tp acked in
            if acked' =? 0 then tp' else cong_avoid_ai tp' (snd_cwnd tp') acked'
       else cong_avoid_ai tp (snd_cwnd tp) acked.

End Host.

Definition linux_host : tcp_host := {|
  tcp_slow_start tp acked := fst (Host.slow_start tp acked);
  tcp_cong_avoid_ai := Host.cong_avoid_ai;
  tcp_reno_cong_avoid := Host.reno_cong_avoid;
  tcp_is_cwnd_limited := is_cwnd_limited
|}.

(** Events of [enum tcp_ca_event] and states of the congestion state machine
    that the callbacks distinguish. *)
Inductive tcp_ca_event :=
  | CA_EVENT_TX_START | CA_EVENT_CWND_RESTART | CA_EVENT_COMPLETE_CWR
  | CA_EVENT_LOSS | CA_EVENT_ECN_NO_CE | CA_EVENT_ECN_IS_CE.

Inductive tcp_ca_state :=
  | TCP_CA_Open | TCP_CA_Disorder | TCP_CA_CWR | TCP_CA_Recovery | TCP_CA_Loss.

(** [struct tcp_congestion_ops]: the callbacks a tier registers with the
    host.  [ops_cwnd_event] is absent where a tier leaves the pointer null. *)
Record tcp_congestion_ops (CA : Type) := {
  ops_init : tcp_sock → tcp_sock * CA;
  ops_ssthresh : tcp_sock → CA → CA * Z;
  ops_cong_avoid : tcp_sock → CA → Z → Z → tcp_sock * CA;
  ops_undo_cwnd : tcp_sock → CA → tcp_sock * CA * Z;
  ops_cwnd_event : option (CA → tcp_ca_event → CA);
  ops_set_state : CA → tcp_ca_state → CA
}.
Arguments ops_init {CA} _.
Arguments ops_ssthresh {CA} _.
Arguments ops_cong_avoid {CA} _.
Arguments ops_undo_cwnd {CA} _.
Arguments ops_cwnd_event {CA} _.
Arguments ops_set_state {CA} _.

(** ** Base tier: [ndm_tcp_lkm.c] *)
Module Base.

Definition ENTROPY_WINDOW_SIZE : Z := 16.
Definition HIDDEN_SIZE : Z := 8.
Definition INPUT_SIZE : Z := 8.
Definition BASE_PLASTICITY : Z := 300.
Definition PLASTICITY_DECAY : Z := 995.
Definition ENTROPY_THRESHOLD : Z := 700.

Record ndm_tcp := {
  min_rtt_us : Z;            (* u32 *)
  prior_cwnd : Z;            (* u32 *)
  ssthresh : Z;              (* u32 *)
  rtt_history : list Z;      (* u16 [ENTROPY_WINDOW_SIZE] *)
  history_index : Z;         (* u16 *)
  history_count : Z;         (* u16 *)
  hidden_state : list Z;     (* s16 [HIDDEN_SIZE] *)
  shannon_entropy : Z;       (* u16 *)
  plasticity : Z;            (* u16 *)
  packets_acked : Z;         (* u16 *)
  has_data : bool;
  in_slow_start : bool;
  congestion_detected : bool;
  loss_detected : bool
}.

Definition set_min_rtt_us v ca := {|
  min_rtt_us := v; prior_cwnd := prior_cwnd ca; ssthresh := ssthresh ca;
  rtt_history := rtt_history ca; history_index := history_index ca;
  history_count := history_count ca; hidden_state := hidden_state ca;
  shannon_entropy := shannon_entropy ca; plasticity := plasticity ca;
  packets_acked := packets_acked ca; has_data := has_data ca;
  in_slow_start := in_slow_start ca; congestion_detected := congestion_detected ca;
  loss_detected := loss_detected ca |}.
Definition set_prior_cwnd v ca := {|
  min_rtt_us := min_rtt_us ca; prior_cwnd := v; ssthresh := ssthresh ca;
  rtt_history := rtt_history ca; history_index := history_index ca;
  history_count := history_count ca; hidden_state := hidden_state ca;
  shannon_entropy := shannon_entropy ca; plasticity := plasticity ca;
  packets_acked := packets_acked ca; has_data := has_data ca;
  in_slow_start := in_slow_start ca; congestion_detected := congestion_detected ca;
  loss_detected := loss_detected ca |}.
Definition set_ssthresh v ca := {|
  min_rtt_us := min_rtt_us ca; prior_cwnd := prior_cwnd ca; ssthresh := v;
  rtt_history := rtt_history ca; history_index := history_index ca;
  history_count := history_count ca; hidden_state := hidden_state ca;
  shannon_entropy := shannon_entropy ca; plasticity := plasticity ca;
  packets_acked := packets_acked ca; has_data := has_data ca;
  in_slow_start := in_slow_start ca; congestion_detected := congestion_detected ca;
  loss_detected := loss_detected ca |}.
Definition set_rtt_history v ca := {|
  min_rtt_us := min_rtt_us ca; prior_cwnd := prior_cwnd ca; ssthresh := ssthresh ca;
  rtt_history := v; history_index := history_index ca;
  history_count := history_count ca; hidden_state := hidden_state ca;
  shannon_entropy := shannon_entropy ca; plasticity := plasticity ca;
  packets_acked := packets_acked ca; has_data := has_data ca;
  in_slow_start := in_slow_start ca; congestion_detected := congestion_detected ca;
  loss_detected := loss_detected ca |}.
Definition set_history_index v ca := {|
  min_rtt_us := min_rtt_us ca; prior_cwnd := prior_cwnd ca; ssthresh := ssthresh ca;
  rtt_history := rtt_history ca; history_index := v;
  history_count := history_count ca; hidden_state := hidden_state ca;
  shannon_entropy := shannon_entropy ca; plasticity := plasticity ca;
  packets_acked := packets_acked ca; has_data := has_data ca;
  in_slow_start := in_slow_start ca; congestion_detected := congestion_detected ca;
  loss_detected := loss_detected ca |}.
Definition set_history_count v ca := {|
  min_rtt_us := min_rtt_us ca; prior_cwnd := prior_cwnd ca; ssthresh := ssthresh ca;
  rtt_history := rtt_history ca; history_index := history_index ca;
  history_count := v; hidden_state := hidden_state ca;
  shannon_entropy := shannon_entropy ca; plasticity := plasticity ca;
  packets_acked := packets_acked ca; has_data := has_data ca;
  in_slow_start := in_slow_start ca; congestion_detected := congestion_detected ca;
  loss_detected := loss_detected ca |}.
Definition set_hidden_state v ca := {|
  min_rtt_us := min_rtt_us ca; prior_cwnd := prior_cwnd ca; ssthresh := ssthresh ca;
  rtt_history := rtt_history ca; history_index := history_index ca;
  history_count := history_count ca; hidden_state := v;
  shannon_entropy := shannon_entropy ca; plasticity := plasticity ca;
  packets_acked := packets_acked ca; has_data := has_data ca;
  in_slow_start := in_slow_start ca; congestion_detected := congestion_detected ca;
  loss_detected := loss_detected ca |}.
Definition set_shannon_entropy v ca := {|
  min_rtt_us := min_rtt_us ca; prior_cwnd := prior_cwnd ca; ssthresh := ssthresh ca;
  rtt_history := rtt_history ca; history_index := history_index ca;
  history_count := history_count ca; hidden_state := hidden_state ca;
  shannon_entropy := v; plasticity := plasticity ca;
  packets_acked := packets_acked ca; has_data := has_data ca;
  in_slow_start := in_slow_start ca; congestion_detected := congestion_detected ca;
  loss_detected := loss_detected ca |}.
Definition set_plasticity v ca := {|
  min_rtt_us := min_rtt_us ca; prior_cwnd := prior_cwnd ca; ssthresh := ssthresh ca;
  rtt_history := rtt_history ca; history_index := history_index ca;
  history_count := history_count ca; hidden_state := hidden_state ca;
  shannon_entropy := shannon_entropy ca; plasticity := v;
  packets_acked := packets_acked ca; has_data := has_data ca;
  in_slow_start := in_slow_start ca; congestion_detected := congestion_detected ca;
  loss_detected := loss_detected ca |}.
Definition set_packets_acked v ca := {|
  min_rtt_us := min_rtt_us ca; prior_cwnd := prior_cwnd ca; ssthresh := ssthresh ca;
  rtt_history := rtt_history ca; history_index := history_index ca;
  history_count := history_count ca; hidden_state := hidden_state ca;
  shannon_entropy := shannon_entropy ca; plasticity := plasticity ca;
  packets_acked := v; has_data := has_data ca;
  in_slow_start := in_slow_start ca; congestion_detected := congestion_detected ca;
  loss_detected := loss_detected ca |}.
Definition set_has_data v ca := {|
  min_rtt_us := min_rtt_us ca; prior_cwnd := prior_cwnd ca; ssthresh := ssthresh ca;
  rtt_history := rtt_history ca; history_index := history_index ca;
  history_count := history_count ca; hidden_state := hidden_state ca;
  shannon_entropy := shannon_entropy ca; plasticity := plasticity ca;
  packets_acked := packets_acked ca; has_data := v;
  in_slow_start := in_slow_start ca; congestion_detected := congestion_detected ca;
  loss_detected := loss_detected ca |}.
Definition set_in_slow_start v ca := {|
  min_rtt_us := min_rtt_us ca; prior_cwnd := prior_cwnd ca; ssthresh := ssthresh ca;
  rtt_history := rtt_history ca; history_index := history_index ca;
  history_count := history_count ca; hidden_state := hidden_state ca;
  shannon_entropy := shannon_entropy ca; plasticity := plasticity ca;
  packets_acked := packets_acked ca; has_data := has_data ca;
  in_slow_start := v; congestion_detected := congestion_detected ca;
  loss_detected := loss_detected ca |}.
Definition set_congestion_detected v ca := {|
  min_rtt_us := min_rtt_us ca; prior_cwnd := prior_cwnd ca; ssthresh := ssthresh ca;
  rtt_history := rtt_history ca; history_index := history_index ca;
  history_count := history_count ca; hidden_state := hidden_state ca;
  shannon_entropy := shannon_entropy ca; plasticity := plasticity ca;
  packets_acked := packets_acked ca; has_data := has_data ca;
  in_slow_start := in_slow_start ca; congestion_detected := v;
  loss_detected := loss_detected ca |}.
Definition set_loss_detected v ca := {|
  min_rtt_us := min_rtt_us ca; prior_cwnd := prior_cwnd ca; ssthresh := ssthresh ca;
  rtt_history := rtt_history ca; history_index := history_index ca;
  history_count := history_count ca; hidden_state := hidden_state ca;
  shannon_entropy := shannon_entropy ca; plasticity := plasticity ca;
  packets_acked := packets_acked ca; has_data := has_data ca;
  in_slow_start := in_slow_start ca; congestion_detected := congestion_detected ca;
  loss_detected := v |}.

(** The samples the estimator reads: [rtt_history[0 .. count-1]] with
    [count = min_t(u32, history_count, ENTROPY_WINDOW_SIZE)]. *)
Definition valid_samples (ca : ndm_tcp) : list Z :=
  take (Z.to_nat (Z.min (history_count ca) ENTROPY_WINDOW_SIZE)) (rtt_history ca).

(** One round of the min/max scan. *)
Definition scan_min (m x : Z) : Z := if x <? m then x else m.
Definition scan_max (m x : Z) : Z := if m <? x then x else m.

(** [histogram[bin]++] *)
Definition bump (bin : Z) (histogram : list Z) : list Z :=
  alter (λ c, u32 (c + 1)) (Z.to_nat bin) histogram.

(** Bin of one sample: [((u32)(x - min_val) * 15) / range], stored in a
    [u16] and capped at 15. *)
Definition bin_of (min_val range x : Z) : Z :=
  Z.min (u16 (u32 (u32 (x - min_val) * 15) / range)) 15.

(** Contribution of one occupied bin to the accumulated entropy. *)
Definition bin_entropy (total h : Z) : Z :=
  if 0 <? h then
    let p := u64 (h * 1000000) / total in
    let log_p := if 0 <? p then u32 (bit_length (u32 (p / 1000)) * 1000) else 0 in
    u64 (p * log_p) / 1000000
  else 0.

Definition calculate_entropy (ca : ndm_tcp) : Z :=
  if history_count ca <? 8 then 0 else
  let count := Z.min (history_count ca) ENTROPY_WINDOW_SIZE in
  let first := at_index (rtt_history ca) 0 in
  let min_val := foldl scan_min first (valid_samples ca) in
  let max_val := foldl scan_max first (valid_samples ca) in
  let range := u16 (max_val - min_val) in
  if range =? 0 then 0 else
  let histogram :=
    foldl (λ h x, bump (bin_of min_val range x) h) (replicate 16 0) (valid_samples ca) in
  let total := count in
  let entropy := foldl (λ e h, u64 (e + bin_entropy total h)) 0 histogram in
  u32 (Z.min (entropy / 4) 1000).

Definition tanh_approx (x : Z) : Z :=
  if 3000 <? x then 1000
  else if x <? -3000 then -1000
  else
    let x2 := Z.quot (s64 (x * x)) 1000 in
    let x3 := Z.quot (s64 (x2 * x)) 1000 in
    s16 (x - Z.quot x3 3).

Definition sigmoid_approx (x : Z) : Z :=
  if 6000 <? x then 1000
  else if x <? -6000 then 0
  else u32 (Z.min 1000 (Z.max 0 (500 + Z.quot x 8))).

(** Weights of the hidden and the output layer, computed from the loop
    indices in [u32] and stored in an [s32]. *)
Definition hidden_weight (i j : Z) : Z := s32 (u32 (u32 (i * 37 + j * 17) mod 2000 - 1000)).
Definition output_weight (j : Z) : Z := s32 (u32 (u32 (j * 13) mod 2000 - 1000)).

Definition network_inputs (ca : ndm_tcp) (rtt_us : Z) : list Z :=
  [ s32 (s32 (u64 (rtt_us * 1000) / Z.max (min_rtt_us ca) 1) - 1000);
    shannon_entropy ca;
    if in_slow_start ca then 1000 else -1000;
    if congestion_detected ca then -1000 else 1000;
    s32 (plasticity ca - 500);
    if loss_detected ca then -1000 else 1000;
    0; 0 ].

(** Pre-activation of hidden unit [i]: the weighted inputs, each product
    divided on its own, plus the recurrent term. *)
Definition hidden_preactivation (inputs : list Z) (prev : Z) (i : Z) : Z :=
  let sum := foldl (λ sum j, s64 (sum + Z.quot (s64 (at_index inputs j * hidden_weight i j)) 1000))
                   0 (indices INPUT_SIZE) in
  s64 (sum + Z.quot (s64 (prev * 500)) 1000).

(** [ndm_forward_pass]: returns the updated private area and [*cwnd_delta]. *)
Definition ndm_forward_pass (ca : ndm_tcp) (rtt_us : Z) : ndm_tcp * Z :=
  let inputs := network_inputs ca rtt_us in
  let '(hidden, state) :=
    foldl (λ '(hidden, state) i,
             let h := tanh_approx (s32 (hidden_preactivation inputs (at_index state i) i)) in
             (<[Z.to_nat i := h]> hidden, <[Z.to_nat i := s16 h]> state))
          (replicate (Z.to_nat HIDDEN_SIZE) 0, hidden_state ca) (indices HIDDEN_SIZE) in
  let sum := foldl (λ sum j, s64 (sum + Z.quot (s64 (at_index hidden j * output_weight j)) 1000))
                   0 (indices HIDDEN_SIZE) in
  let output := s32 sum in
  let cwnd_delta := if ENTROPY_THRESHOLD <? shannon_entropy ca
                    then sigmoid_approx (Z.quot output 2)
                    else sigmoid_approx output in
  (set_hidden_state state ca, cwnd_delta).

Definition ndm_tcp_init (tp : tcp_sock) : tcp_sock * ndm_tcp :=
  (set_snd_ssthresh TCP_INFINITE_SSTHRESH tp,
   {| min_rtt_us := U32_MAX; prior_cwnd := snd_cwnd tp; ssthresh := snd_ssthresh tp;
      rtt_history := replicate (Z.to_nat ENTROPY_WINDOW_SIZE) 0;
      history_index := 0; history_count := 0;
      hidden_state := replicate (Z.to_nat HIDDEN_SIZE) 0;
      shannon_entropy := 0; plasticity := BASE_PLASTICITY; packets_acked := 0;
      has_data := false; in_slow_start := true; congestion_detected := false;
      loss_detected := false |}).

(** Smoothed RTT in microseconds, zero read as one. *)
Definition current_rtt_us (tp : tcp_sock) : Z :=
  let rtt_us := Z.shiftr (srtt_us tp) 3 in
  if rtt_us =? 0 then 1 else rtt_us.

(** First part of [ndm_tcp_cong_avoid] after the zero-ack return: the packet
    counter, the minimum RTT and the RTT ring. *)
Definition record_ack (tp : tcp_sock) (ca : ndm_tcp) (acked : Z) : ndm_tcp :=
  let ca := set_packets_acked (u16 (packets_acked ca + acked)) ca in
  let rtt_us := current_rtt_us tp in
  let ca := if rtt_us <? min_rtt_us ca then set_min_rtt_us rtt_us ca else ca in
  let rtt_ms := Z.min (rtt_us / 1000) 65535 in
  let rtt_ms := if rtt_ms =? 0 then 1 else rtt_ms in
  let ca := set_rtt_history (<[Z.to_nat (history_index ca) := u16 rtt_ms]> (rtt_history ca)) ca in
  let ca := set_history_index (u16 ((history_index ca + 1) mod ENTROPY_WINDOW_SIZE)) ca in
  if history_count ca <? ENTROPY_WINDOW_SIZE
  then set_history_count (u16 (history_count ca + 1)) ca else ca.

(** The periodic entropy recomputation. *)
Definition recompute_entropy (ca : ndm_tcp) : ndm_tcp :=
  if 8 <=? packets_acked ca then
    let ca := set_shannon_entropy (u16 (calculate_entropy ca)) ca in
    let ca := set_packets_acked 0 ca in
    let ca := set_has_data true ca in
    let ca := set_congestion_detected (shannon_entropy ca <? ENTROPY_THRESHOLD) ca in
    set_loss_detected false ca
  else ca.

(** The plasticity updates written inline in the callbacks. *)
Definition decay_plasticity (p : Z) : Z :=
  let p := u16 (Z.quot (p * PLASTICITY_DECAY) 1000) in
  if p <? 100 then 100 else p.
Definition boost_plasticity (amount p : Z) : Z := Z.min 1000 (u16 (p + amount)).

(** The window growth decided from the flags and the growth signal. *)
Definition apply_growth `{tcp_host} (tp : tcp_sock) (ca : ndm_tcp)
    (ack acked cwnd_delta : Z) : tcp_sock :=
  if in_slow_start ca then
    if congestion_detected ca
    then tcp_slow_start tp (acked / 2)
    else tcp_slow_start tp acked
  else
    if has_data ca && congestion_detected ca then
      let delta := Z.max 1 (u32 (acked * cwnd_delta) / 2000) in
      tcp_cong_avoid_ai tp (snd_cwnd tp) delta
    else if has_data ca && negb (congestion_detected ca) then
      let delta := Z.max 1 (u32 (acked * cwnd_delta) / 1000) in
      tcp_cong_avoid_ai tp (snd_cwnd tp) delta
    else tcp_reno_cong_avoid tp ack acked.

Definition ndm_tcp_cong_avoid `{tcp_host} (tp : tcp_sock) (ca : ndm_tcp)
    (ack acked : Z) : tcp_sock * ndm_tcp :=
  if acked =? 0 then (tp, ca) else
  let ca := record_ack tp ca acked in
  let ca := recompute_entropy ca in
  let ca := set_in_slow_start (snd_cwnd tp <? ssthresh ca) ca in
  let '(ca, cwnd_delta) := ndm_forward_pass ca (current_rtt_us tp) in
  let tp := apply_growth tp ca ack acked cwnd_delta in
  (tp, set_plasticity (decay_plasticity (plasticity ca)) ca).

Definition ndm_tcp_ssthresh (tp : tcp_sock) (ca : ndm_tcp) : ndm_tcp * Z :=
  let ca := set_loss_detected true ca in
  let ca := set_plasticity (boost_plasticity 100 (plasticity ca)) ca in
  let reduction_factor :=
    if has_data ca then
      if ENTROPY_THRESHOLD <? shannon_entropy ca then 3 else 2
    else 2 in
  let ca := set_ssthresh (Z.max (snd_cwnd tp / reduction_factor) 2) ca in
  let ca := set_prior_cwnd (snd_cwnd tp) ca in
  (ca, ssthresh ca).

Definition ndm_tcp_undo_cwnd (tp : tcp_sock) (ca : ndm_tcp) : tcp_sock * ndm_tcp * Z :=
  let tp := set_snd_cwnd (Z.max (snd_cwnd tp) (prior_cwnd ca)) tp in
  let ca := set_in_slow_start (snd_cwnd tp <? ssthresh ca) ca in
  (tp, ca, Z.max (snd_cwnd tp) (prior_cwnd ca)).

Definition ndm_tcp_cwnd_event (ca : ndm_tcp) (ev : tcp_ca_event) : ndm_tcp :=
  match ev with
  | CA_EVENT_LOSS => set_loss_detected true (set_congestion_detected true ca)
  | CA_EVENT_CWND_RESTART => set_plasticity BASE_PLASTICITY ca
  | _ => ca
  end.

Definition ndm_tcp_set_state (ca : ndm_tcp) (new_state : tcp_ca_state) : ndm_tcp :=
  match new_state with
  | TCP_CA_Loss =>
      let ca := set_congestion_detected true ca in
      let ca := set_loss_detected true ca in
      set_plasticity (boost_plasticity 150 (plasticity ca)) ca
  | _ => ca
  end.

Definition ndm_tcp_ops `{tcp_host} : tcp_congestion_ops ndm_tcp := {|
  ops_init := ndm_tcp_init;
  ops_ssthresh := ndm_tcp_ssthresh;
  ops_cong_avoid := ndm_tcp_cong_avoid;
  ops_undo_cwnd := ndm_tcp_undo_cwnd;
  ops_cwnd_event := Some ndm_tcp_cwnd_event;
  ops_set_state := ndm_tcp_set_state
|}.

(** States a connection can be in: the initial one, and every state a
    callback produces from one, whatever the host passes. *)
Inductive reachable `{tcp_host} : ndm_tcp → Prop :=
  | reach_init tp : reachable (snd (ndm_tcp_init tp))
  | reach_cong_avoid tp ca ack acked :
      reachable ca → reachable (snd (ndm_tcp_cong_avoid tp ca ack acked))
  | reach_ssthresh tp ca : reachable ca → reachable (fst (ndm_tcp_ssthresh tp ca))
  | reach_undo_cwnd tp ca : reachable ca → reachable (snd (fst (ndm_tcp_undo_cwnd tp ca)))
  | reach_cwnd_event ca ev : reachable ca → reachable (ndm_tcp_cwnd_event ca ev)
  | reach_set_state ca st : reachable ca → reachable (ndm_tcp_set_state ca st).

End Base.

(** ** Optimized tier: [ndm_tcp_lkm_optimized.c]

    The scalar inner loop is modelled; the vector path of the module
    computes the same sums on the same sixteen-bit inputs. *)
Module Optimized.

Definition ENTROPY_WINDOW_SIZE : Z := 8.
Definition HIDDEN_SIZE : Z := 4.
Definition INPUT_SIZE : Z := 6.
Definition SCALE_SHIFT : Z := 10.
Definition ENTROPY_THRESHOLD : Z := 716.
Definition BASE_PLASTICITY : Z := 307.
Definition PLASTICITY_DECAY : Z := 1018.
Definition MIN_RTT_INIT : Z := 4294967295.
Definition RECURRENT_WEIGHT : Z := 500.

Definition L1_WEIGHTS : list Z :=
  [ -1000; -983; -966; -949; -932; -915;
    -963; -946; -929; -912; -895; -878;
    -926; -909; -892; -875; -858; -841;
    -889; -872; -855; -838; -821; -804 ].

Definition OUT_WEIGHTS : list Z := [ -1000; -987; -974; -961 ].

Definition ENTROPY_LUT : list Z := [ 0; 375; 500; 525; 500; 430; 310; 150; 0 ].

Definition TANH_LUT : list Z :=
  [ -1018; -1016; -1012; -1005; -993; -973; -941; -894;
    -826; -736; -626; -502; -373; -249; -135; -34;
    68; 168; 281; 404; 529; 649; 755; 841;
    906; 950; 979; 996; 1007; 1013; 1017; 1019; 1020;
    1021; 1022; 1022; 1023; 1023; 1023; 1024; 1024;
    1024; 1024; 1024; 1024; 1024; 1024; 1024; 1024;
    1024; 1024; 1024; 1024; 1024; 1024; 1024; 1024;
    1024; 1024; 1024; 1024; 1024; 1024; 1024; 1024 ].

Definition SIGMOID_LUT : list Z :=
  [ 47; 58; 71; 87; 106; 129; 156; 187; 222; 261; 303; 348; 395; 443; 492; 540;
    587; 632; 675; 715; 752; 786; 816; 843; 867; 887; 905; 920; 933; 944; 953; 961;
    967; 973; 977; 981; 984; 987; 989; 991; 993; 994; 995; 996; 997; 997; 998; 998;
    999; 999; 999; 1000; 1000; 1000; 1000; 1000; 1000; 1000; 1000; 1000; 1000; 1000; 1000; 1000 ].

Record ndm_tcp := {
  min_rtt_us : Z;            (* u32 *)
  prior_cwnd : Z;            (* u32 *)
  ssthresh : Z;              (* u32 *)
  cached_cwnd_delta : Z;     (* u32 *)
  plasticity : Z;            (* u16 *)
  shannon_entropy : Z;       (* u16 *)
  packets_acked : Z;         (* u16 *)
  history_index : Z;         (* u8 *)
  history_count : Z;         (* u8 *)
  flags : Z;                 (* u8 *)
  nn_skip_counter : Z;       (* u8 *)
  hidden_state : list Z;     (* s16 [HIDDEN_SIZE] *)
  rtt_history : list Z       (* u16 [ENTROPY_WINDOW_SIZE] *)
}.

Definition set_min_rtt_us v ca := {|
  min_rtt_us := v; prior_cwnd := prior_cwnd ca; ssthresh := ssthresh ca;
  cached_cwnd_delta := cached_cwnd_delta ca; plasticity := plasticity ca;
  shannon_entropy := shannon_entropy ca; packets_acked := packets_acked ca;
  history_index := history_index ca; history_count := history_count ca;
  flags := flags ca; nn_skip_counter := nn_skip_counter ca;
  hidden_state := hidden_state ca; rtt_history := rtt_history ca |}.
Definition set_prior_cwnd v ca := {|
  min_rtt_us := min_rtt_us ca; prior_cwnd := v; ssthresh := ssthresh ca;
  cached_cwnd_delta := cached_cwnd_delta ca; plasticity := plasticity ca;
  shannon_entropy := shannon_entropy ca; packets_acked := packets_acked ca;
  history_index := history_index ca; history_count := history_count ca;
  flags := flags ca; nn_skip_counter := nn_skip_counter ca;
  hidden_state := hidden_state ca; rtt_history := rtt_history ca |}.
Definition set_ssthresh v ca := {|
  min_rtt_us := min_rtt_us ca; prior_cwnd := prior_cwnd ca; ssthresh := v;
  cached_cwnd_delta := cached_cwnd_delta ca; plasticity := plasticity ca;
  shannon_entropy := shannon_entropy ca; packets_acked := packets_acked ca;
  history_index := history_index ca; history_count := history_count ca;
  flags := flags ca; nn_skip_counter := nn_skip_counter ca;
  hidden_state := hidden_state ca; rtt_history := rtt_history ca |}.
Definition set_cached_cwnd_delta v ca := {|
  min_rtt_us := min_rtt_us ca; prior_cwnd := prior_cwnd ca; ssthresh := ssthresh ca;
  cached_cwnd_delta := v; plasticity := plasticity ca;
  shannon_entropy := shannon_entropy ca; packets_acked := packets_acked ca;
  history_index := history_index ca; history_count := history_count ca;
  flags := flags ca; nn_skip_counter := nn_skip_counter ca;
  hidden_state := hidden_state ca; rtt_history := rtt_history ca |}.
Definition set_plasticity v ca := {|
  min_rtt_us := min_rtt_us ca; prior_cwnd := prior_cwnd ca; ssthresh := ssthresh ca;
  cached_cwnd_delta := cached_cwnd_delta ca; plasticity := v;
  shannon_entropy := shannon_entropy ca; packets_acked := packets_acked ca;
  history_index := history_index ca; history_count := history_count ca;
  flags := flags ca; nn_skip_counter := nn_skip_counter ca;
  hidden_state := hidden_state ca; rtt_history := rtt_history ca |}.
Definition set_shannon_entropy v ca := {|
  min_rtt_us := min_rtt_us ca; prior_cwnd := prior_cwnd ca; ssthresh := ssthresh ca;
  cached_cwnd_delta := cached_cwnd_delta ca; plasticity := plasticity ca;
  shannon_entropy := v; packets_acked := packets_acked ca;
  history_index := history_index ca; history_count := history_count ca;
  flags := flags ca; nn_skip_counter := nn_skip_counter ca;
  hidden_state := hidden_state ca; rtt_history := rtt_history ca |}.
Definition set_packets_acked v ca := {|
  min_rtt_us := min_rtt_us ca; prior_cwnd := prior_cwnd ca; ssthresh := ssthresh ca;
  cached_cwnd_delta := cached_cwnd_delta ca; plasticity := plasticity ca;
  shannon_entropy := shannon_entropy ca; packets_acked := v;
  history_index := history_index ca; history_count := history_count ca;
  flags := flags ca; nn_skip_counter := nn_skip_counter ca;
  hidden_state := hidden_state ca; rtt_history := rtt_history ca |}.
Definition set_history_index v ca := {|
  min_rtt_us := min_rtt_us ca; prior_cwnd := prior_cwnd ca; ssthresh := ssthresh ca;
  cached_cwnd_delta := cached_cwnd_delta ca; plasticity := plasticity ca;
  shannon_entropy := shannon_entropy ca; packets_acked := packets_acked ca;
  history_index := v; history_count := history_count ca; flags := flags ca;
  nn_skip_counter := nn_skip_counter ca; hidden_state := hidden_state ca;
  rtt_history := rtt_history ca |}.
Definition set_history_count v ca := {|
  min_rtt_us := min_rtt_us ca; prior_cwnd := prior_cwnd ca; ssthresh := ssthresh ca;
  cached_cwnd_delta := cached_cwnd_delta ca; plasticity := plasticity ca;
  shannon_entropy := shannon_entropy ca; packets_acked := packets_acked ca;
  history_index := history_index ca; history_count := v; flags := flags ca;
  nn_skip_counter := nn_skip_counter ca; hidden_state := hidden_state ca;
  rtt_history := rtt_history ca |}.
Definition set_flags v ca := {|
  min_rtt_us := min_rtt_us ca; prior_cwnd := prior_cwnd ca; ssthresh := ssthresh ca;
  cached_cwnd_delta := cached_cwnd_delta ca; plasticity := plasticity ca;
  shannon_entropy := shannon_entropy ca; packets_acked := packets_acked ca;
  history_index := history_index ca; history_count := history_count ca; flags := v;
  nn_skip_counter := nn_skip_counter ca; hidden_state := hidden_state ca;
  rtt_history := rtt_history ca |}.
Definition set_nn_skip_counter v ca := {|
  min_rtt_us := min_rtt_us ca; prior_cwnd := prior_cwnd ca; ssthresh := ssthresh ca;
  cached_cwnd_delta := cached_cwnd_delta ca; plasticity := plasticity ca;
  shannon_entropy := shannon_entropy ca; packets_acked := packets_acked ca;
  history_index := history_index ca; history_count := history_count ca;
  flags := flags ca; nn_skip_counter := v; hidden_state := hidden_state ca;
  rtt_history := rtt_history ca |}.
Definition set_hidden_state v ca := {|
  min_rtt_us := min_rtt_us ca; prior_cwnd := prior_cwnd ca; ssthresh := ssthresh ca;
  cached_cwnd_delta := cached_cwnd_delta ca; plasticity := plasticity ca;
  shannon_entropy := shannon_entropy ca; packets_acked := packets_acked ca;
  history_index := history_index ca; history_count := history_count ca;
  flags := flags ca; nn_skip_counter := nn_skip_counter ca; hidden_state := v;
  rtt_history := rtt_history ca |}.
Definition set_rtt_history v ca := {|
  min_rtt_us := min_rtt_us ca; prior_cwnd := prior_cwnd ca; ssthresh := ssthresh ca;
  cached_cwnd_delta := cached_cwnd_delta ca; plasticity := plasticity ca;
  shannon_entropy := shannon_entropy ca; packets_acked := packets_acked ca;
  history_index := history_index ca; history_count := history_count ca;
  flags := flags ca; nn_skip_counter := nn_skip_counter ca;
  hidden_state := hidden_state ca; rtt_history := v |}.

Definition FLAG_HAS_DATA : Z := 1.
Definition FLAG_SLOW_START : Z := 2.
Definition FLAG_CONGESTION : Z := 4.
Definition FLAG_LOSS : Z := 8.

Definition set_flag (ca : ndm_tcp) (flag : Z) : ndm_tcp :=
  set_flags (u8 (Z.lor (flags ca) flag)) ca.
Definition clear_flag (ca : ndm_tcp) (flag : Z) : ndm_tcp :=
  set_flags (u8 (Z.land (flags ca) (Z.lnot flag))) ca.
Definition check_flag (ca : ndm_tcp) (flag : Z) : bool :=
  negb (Z.land (flags ca) flag =? 0).

Definition fast_tanh (x : Z) : Z :=
  if x <=? -3072 then -1024
  else if 3072 <=? x then 1024
  else let idx := Z.shiftr (x + 3072) 6 in
       at_index TANH_LUT (Z.land idx 63).

Definition fast_sigmoid (x : Z) : Z :=
  if x <=? -3072 then 0
  else if 3072 <=? x then 1024
  else let idx := Z.shiftr (x + 3072) 6 in
       at_index SIGMOID_LUT (Z.land idx 63).

(** The samples the estimator reads: [rtt_history[0 .. history_count-1]]. *)
Definition valid_samples (ca : ndm_tcp) : list Z :=
  take (Z.to_nat (history_count ca)) (rtt_history ca).

Definition scan_min (m x : Z) : Z := if x <? m then x else m.
Definition scan_max (m x : Z) : Z := if m <? x then x else m.

Definition bump (bin : Z) (histogram : list Z) : list Z :=
  alter (λ c, u32 (c + 1)) (Z.to_nat bin) histogram.

(** Bin of one sample: [((x - min_val) * scale) >> 16] capped at 7. *)
Definition bin_of (min_val scale x : Z) : Z :=
  let bin := Z.shiftr (u32 (u32 (x - min_val) * scale)) 16 in
  if 7 <? bin then 7 else bin.

Definition calculate_entropy_fast (ca : ndm_tcp) : Z :=
  let min_val := foldl scan_min 65535 (valid_samples ca) in
  let max_val := foldl scan_max 0 (valid_samples ca) in
  let range := u16 (max_val - min_val) in
  if range =? 0 then 0 else
  let scale := 458752 / range in
  let histogram :=
    foldl (λ h x, bump (bin_of min_val scale x) h) (replicate 8 0) (valid_samples ca) in
  foldl (λ entropy h, if h =? 0 then entropy else u32 (entropy + at_index ENTROPY_LUT h))
        0 histogram.

Definition network_inputs (ca : ndm_tcp) (rtt_us : Z) : list Z :=
  let scaled_rtt := u64 (Z.shiftl rtt_us SCALE_SHIFT) / Z.max 1 (min_rtt_us ca) in
  [ s32 (s32 (Z.min scaled_rtt 2048) - 1024);
    shannon_entropy ca;
    if check_flag ca FLAG_SLOW_START then 1024 else -1024;
    if check_flag ca FLAG_CONGESTION then -1024 else 1024;
    s32 (plasticity ca - 512);
    if check_flag ca FLAG_LOSS then -1024 else 1024 ].

(** [hidden_accum[i]]: row [i] of [L1_WEIGHTS] times the inputs. *)
Definition hidden_accum (input_vec : list Z) (i : Z) : Z :=
  foldl (λ sum j, s32 (sum + at_index input_vec j * at_index L1_WEIGHTS (i * INPUT_SIZE + j)))
        0 (indices INPUT_SIZE).

Definition ndm_forward_pass_opt (ca : ndm_tcp) (rtt_us : Z) : ndm_tcp * Z :=
  let input_vec := network_inputs ca rtt_us in
  let state :=
    foldl (λ state i,
             let val := Z.shiftr (s32 (hidden_accum input_vec i
                                       + at_index state i * RECURRENT_WEIGHT)) SCALE_SHIFT in
             <[Z.to_nat i := fast_tanh val]> state)
          (hidden_state ca) (indices HIDDEN_SIZE) in
  let output_sum :=
    foldl (λ sum i, s32 (sum + at_index state i * at_index OUT_WEIGHTS i)) 0 (indices HIDDEN_SIZE) in
  let output_sum := Z.shiftr output_sum SCALE_SHIFT in
  let cwnd_delta := if ENTROPY_THRESHOLD <? shannon_entropy ca
                    then fast_sigmoid (Z.shiftr output_sum 1)
                    else fast_sigmoid output_sum in
  (set_hidden_state state ca, cwnd_delta).

Definition ndm_tcp_init (tp : tcp_sock) : tcp_sock * ndm_tcp :=
  (set_snd_ssthresh TCP_INFINITE_SSTHRESH tp,
   {| min_rtt_us := MIN_RTT_INIT; prior_cwnd := snd_cwnd tp; ssthresh := snd_ssthresh tp;
      cached_cwnd_delta := 512; plasticity := BASE_PLASTICITY; shannon_entropy := 0;
      packets_acked := 0; history_index := 0; history_count := 0;
      flags := FLAG_SLOW_START; nn_skip_counter := 0;
      hidden_state := replicate (Z.to_nat HIDDEN_SIZE) 0;
      rtt_history := replicate (Z.to_nat ENTROPY_WINDOW_SIZE) 0 |}).

Definition current_rtt_us (tp : tcp_sock) : Z := Z.max (Z.shiftr (srtt_us tp) 3) 1.

(** First part of [ndm_tcp_cong_avoid] after the zero-ack return: packet
    counter, minimum RTT, RTT ring, the periodic entropy recomputation and
    the slow-start flag. *)
Definition record_ack (tp : tcp_sock) (ca : ndm_tcp) (acked : Z) : ndm_tcp :=
  let ca := set_packets_acked (u16 (packets_acked ca + acked)) ca in
  let rtt_us := current_rtt_us tp in
  let ca := if rtt_us <? min_rtt_us ca then set_min_rtt_us rtt_us ca else ca in
  let ca := set_rtt_history
              (<[Z.to_nat (history_index ca) := u16 (Z.min (rtt_us / 1000) 65535)]> (rtt_history ca))
              ca in
  let ca := set_history_index (u8 ((history_index ca + 1) mod ENTROPY_WINDOW_SIZE)) ca in
  if history_count ca <? ENTROPY_WINDOW_SIZE
  then set_history_count (u8 (history_count ca + 1)) ca else ca.

Definition recompute_entropy (ca : ndm_tcp) : ndm_tcp :=
  if 16 <=? packets_acked ca then
    let ca := set_shannon_entropy (u16 (calculate_entropy_fast ca)) ca in
    let ca := set_packets_acked 0 ca in
    let ca := set_flag ca FLAG_HAS_DATA in
    let ca := if shannon_entropy ca <? ENTROPY_THRESHOLD
              then set_flag ca FLAG_CONGESTION else clear_flag ca FLAG_CONGESTION in
    clear_flag ca FLAG_LOSS
  else ca.

Definition update_slow_start (tp : tcp_sock) (ca : ndm_tcp) : ndm_tcp :=
  if snd_cwnd tp <? ssthresh ca
  then set_flag ca FLAG_SLOW_START else clear_flag ca FLAG_SLOW_START.

(** The elision test of [ndm_tcp_cong_avoid]. *)
Definition may_skip (ca : ndm_tcp) : bool :=
  (shannon_entropy ca <? 500) && (800 <? plasticity ca) && (nn_skip_counter ca <? 8).

(** The growth signal: the cached one, or a fresh one from the network. *)
Definition growth_signal (ca : ndm_tcp) (rtt_us : Z) : ndm_tcp * Z :=
  if may_skip ca then
    (set_nn_skip_counter (u8 (nn_skip_counter ca + 1)) ca, cached_cwnd_delta ca)
  else
    let '(ca, cwnd_delta) := ndm_forward_pass_opt ca rtt_us in
    let ca := set_cached_cwnd_delta cwnd_delta ca in
    (set_nn_skip_counter 0 ca, cwnd_delta).

Definition apply_growth `{tcp_host} (tp : tcp_sock) (ca : ndm_tcp)
    (ack acked cwnd_delta : Z) : tcp_sock :=
  if check_flag ca FLAG_SLOW_START then
    tcp_slow_start tp (if check_flag ca FLAG_CONGESTION then Z.shiftr acked 1 else acked)
  else if check_flag ca FLAG_HAS_DATA then
    let shift := if check_flag ca FLAG_CONGESTION then 11 else 10 in
    tcp_cong_avoid_ai tp (snd_cwnd tp) (Z.max 1 (Z.shiftr (u32 (acked * cwnd_delta)) shift))
  else tcp_reno_cong_avoid tp ack acked.

Definition decay_plasticity (p : Z) : Z :=
  let p := u16 (Z.shiftr (u32 (p * PLASTICITY_DECAY)) 10) in
  if p <? 100 then 100 else p.

Definition ndm_tcp_cong_avoid `{tcp_host} (tp : tcp_sock) (ca : ndm_tcp)
    (ack acked : Z) : tcp_sock * ndm_tcp :=
  if acked =? 0 then (tp, ca) else
  let ca := record_ack tp ca acked in
  let ca := recompute_entropy ca in
  let ca := update_slow_start tp ca in
  let '(ca, cwnd_delta) := growth_signal ca (current_rtt_us tp) in
  let tp := apply_growth tp ca ack acked cwnd_delta in
  (tp, set_plasticity (decay_plasticity (plasticity ca)) ca).

Definition ndm_tcp_ssthresh (tp : tcp_sock) (ca : ndm_tcp) : ndm_tcp * Z :=
  let ca := set_flag ca (Z.lor FLAG_LOSS FLAG_CONGESTION) in
  let ca := set_plasticity (u16 (Z.min 1024 (u32 (plasticity ca + 100)))) ca in
  let ca := set_ssthresh
              (Z.max (snd_cwnd tp / (if ENTROPY_THRESHOLD <? shannon_entropy ca then 3 else 2)) 2)
              ca in
  let ca := set_prior_cwnd (snd_cwnd tp) ca in
  (ca, ssthresh ca).

Definition ndm_tcp_undo_cwnd (tp : tcp_sock) (ca : ndm_tcp) : tcp_sock * ndm_tcp * Z :=
  let tp := set_snd_cwnd (Z.max (snd_cwnd tp) (prior_cwnd ca)) tp in
  let ca := if snd_cwnd tp <? ssthresh ca then set_flag ca FLAG_SLOW_START else ca in
  (tp, ca, snd_cwnd tp).

Definition ndm_tcp_cwnd_event (ca : ndm_tcp) (ev : tcp_ca_event) : ndm_tcp :=
  match ev with
  | CA_EVENT_LOSS => set_flag ca (Z.lor FLAG_CONGESTION FLAG_LOSS)
  | CA_EVENT_CWND_RESTART => set_plasticity BASE_PLASTICITY ca
  | _ => ca
  end.

Definition ndm_tcp_set_state (ca : ndm_tcp) (new_state : tcp_ca_state) : ndm_tcp :=
  match new_state with
  | TCP_CA_Loss =>
      let ca := set_flag ca (Z.lor FLAG_CONGESTION FLAG_LOSS) in
      set_plasticity (u16 (Z.min 1024 (plasticity ca + 150))) ca
  | _ => ca
  end.

Definition ndm_tcp_ops `{tcp_host} : tcp_congestion_ops ndm_tcp := {|
  ops_init := ndm_tcp_init;
  ops_ssthresh := ndm_tcp_ssthresh;
  ops_cong_avoid := ndm_tcp_cong_avoid;
  ops_undo_cwnd := ndm_tcp_undo_cwnd;
  ops_cwnd_event := Some ndm_tcp_cwnd_event;
  ops_set_state := ndm_tcp_set_state
|}.

Inductive reachable `{tcp_host} : ndm_tcp → Prop :=
  | reach_init tp : reachable (snd (ndm_tcp_init tp))
  | reach_cong_avoid tp ca ack acked :
      reachable ca → reachable (snd (ndm_tcp_cong_avoid tp ca ack acked))
  | reach_ssthresh tp ca : reachable ca → reachable (fst (ndm_tcp_ssthresh tp ca))
  | reach_undo_cwnd tp ca : reachable ca → reachable (snd (fst (ndm_tcp_undo_cwnd tp ca)))
  | reach_cwnd_event ca ev : reachable ca → reachable (ndm_tcp_cwnd_event ca ev)
  | reach_set_state ca st : reachable ca → reachable (ndm_tcp_set_state ca st).

End Optimized.

(** ** Ultra tier: [ndm_tcp_lkm_optimized_ultra.c] *)
Module Ultra.

Definition FP_SCALE : Z := 7.
Definition ENTROPY_WINDOW_SIZE : Z := 8.
Definition HIDDEN_SIZE : Z := 4.
Definition INPUT_SIZE : Z := 6.
Definition ENTROPY_THRESHOLD : Z := 180.
Definition BASE_PLASTICITY : Z := 76.
Definition MIN_RTT_INIT : Z := 4294967295.
Definition RECURRENT_WEIGHT : Z := 62.

Definition L1_WEIGHTS : list Z :=
  [ -125; -123; -121; -119; -117; -115;
    -120; -118; -116; -114; -112; -110;
    -115; -113; -111; -109; -107; -105;
    -111; -109; -107; -105; -103; -101 ].

Definition OUT_WEIGHTS : list Z := [ -125; -123; -121; -120 ].

Definition ENTROPY_LUT : list Z := [ 0; 47; 63; 66; 63; 54; 39; 19; 0 ].

Definition TANH_LUT_S8 : list Z :=
  [
    -127; -127; -127; -127; -127; -127; -127; -127; -127; -127; -127; -127; -127; -127; -126; -126;
    -126; -125; -125; -124; -124; -123; -122; -121; -120; -119; -118; -117; -115; -114; -112; -110;
    -108; -106; -104; -101; -99; -96; -93; -90; -87; -84; -80; -77; -73; -69; -65; -61;
    -57; -53; -49; -45; -40; -36; -32; -27; -23; -19; -14; -10; -6; -2; 2; 6;
    10; 14; 19; 23; 27; 32; 36; 40; 45; 49; 53; 57; 61; 65; 69; 73;
    77; 80; 84; 87; 90; 93; 96; 99; 101; 104; 106; 108; 110; 112; 114; 115;
    117; 118; 119; 120; 121; 122; 123; 124; 124; 125; 125; 126; 126; 126; 127; 127;
    127; 127; 127; 127; 127; 127; 127; 127; 127; 127; 127; 127; 127; 127; 127; 127;
    127; 127; 127; 127; 127; 127; 127; 127; 127; 127; 127; 127; 127; 127; 127; 127;
    127; 127; 127; 127; 127; 127; 127; 127; 127; 127; 127; 127; 127; 127; 127; 127;
    127; 127; 127; 127; 127; 127; 127; 127; 127; 127; 127; 127; 127; 127; 127; 127;
    127; 127; 127; 127; 127; 127; 127; 127; 127; 127; 127; 127; 127; 127; 127; 127;
    127; 127; 127; 127; 127; 127; 127; 127; 127; 127; 127; 127; 127; 127; 127; 127;
    127; 127; 127; 127; 127; 127; 127; 127; 127; 127; 127; 127; 127; 127; 127; 127;
    127; 127; 127; 127; 127; 127; 127; 127; 127; 127; 127; 127; 127; 127; 127; 127;
    127; 127; 127; 127; 127; 127; 127; 127; 127; 127; 127; 127; 127; 127; 127; 127 ].

Record ndm_tcp := {
  min_rtt_us : Z;            (* u32 *)
  prior_cwnd : Z;            (* u32 *)
  ssthresh : Z;              (* u32 *)
  cached_cwnd_delta : Z;     (* u32 *)
  packets_acked : Z;         (* u16 *)
  plasticity : Z;            (* u8 *)
  shannon_entropy : Z;       (* u8 *)
  history_index : Z;         (* u8 *)
  history_count : Z;         (* u8 *)
  flags : Z;                 (* u8 *)
  nn_skip_counter : Z;       (* u8 *)
  hidden_state : list Z;     (* s8 [HIDDEN_SIZE] *)
  rtt_history : list Z       (* u8 [ENTROPY_WINDOW_SIZE] *)
}.

Definition set_min_rtt_us v ca := {|
  min_rtt_us := v; prior_cwnd := prior_cwnd ca; ssthresh := ssthresh ca;
  cached_cwnd_delta := cached_cwnd_delta ca; plasticity := plasticity ca;
  shannon_entropy := shannon_entropy ca; packets_acked := packets_acked ca;
  history_index := history_index ca; history_count := history_count ca;
  flags := flags ca; nn_skip_counter := nn_skip_counter ca;
  hidden_state := hidden_state ca; rtt_history := rtt_history ca |}.
Definition set_prior_cwnd v ca := {|
  min_rtt_us := min_rtt_us ca; prior_cwnd := v; ssthresh := ssthresh ca;
  cached_cwnd_delta := cached_cwnd_delta ca; plasticity := plasticity ca;
  shannon_entropy := shannon_entropy ca; packets_acked := packets_acked ca;
  history_index := history_index ca; history_count := history_count ca;
  flags := flags ca; nn_skip_counter := nn_skip_counter ca;
  hidden_state := hidden_state ca; rtt_history := rtt_history ca |}.
Definition set_ssthresh v ca := {|
  min_rtt_us := min_rtt_us ca; prior_cwnd := prior_cwnd ca; ssthresh := v;
  cached_cwnd_delta := cached_cwnd_delta ca; plasticity := plasticity ca;
  shannon_entropy := shannon_entropy ca; packets_acked := packets_acked ca;
  history_index := history_index ca; history_count := history_count ca;
  flags := flags ca; nn_skip_counter := nn_skip_counter ca;
  hidden_state := hidden_state ca; rtt_history := rtt_history ca |}.
Definition set_cached_cwnd_delta v ca := {|
  min_rtt_us := min_rtt_us ca; prior_cwnd := prior_cwnd ca; ssthresh := ssthresh ca;
  cached_cwnd_delta := v; plasticity := plasticity ca;
  shannon_entropy := shannon_entropy ca; packets_acked := packets_acked ca;
  history_index := history_index ca; history_count := history_count ca;
  flags := flags ca; nn_skip_counter := nn_skip_counter ca;
  hidden_state := hidden_state ca; rtt_history := rtt_history ca |}.
Definition set_plasticity v ca := {|
  min_rtt_us := min_rtt_us ca; prior_cwnd := prior_cwnd ca; ssthresh := ssthresh ca;
  cached_cwnd_delta := cached_cwnd_delta ca; plasticity := v;
  shannon_entropy := shannon_entropy ca; packets_acked := packets_acked ca;
  history_index := history_index ca; history_count := history_count ca;
  flags := flags ca; nn_skip_counter := nn_skip_counter ca;
  hidden_state := hidden_state ca; rtt_history := rtt_history ca |}.
Definition set_shannon_entropy v ca := {|
  min_rtt_us := min_rtt_us ca; prior_cwnd := prior_cwnd ca; ssthresh := ssthresh ca;
  cached_cwnd_delta := cached_cwnd_delta ca; plasticity := plasticity ca;
  shannon_entropy := v; packets_acked := packets_acked ca;
  history_index := history_index ca; history_count := history_count ca;
  flags := flags ca; nn_skip_counter := nn_skip_counter ca;
  hidden_state := hidden_state ca; rtt_history := rtt_history ca |}.
Definition set_packets_acked v ca := {|
  min_rtt_us := min_rtt_us ca; prior_cwnd := prior_cwnd ca; ssthresh := ssthresh ca;
  cached_cwnd_delta := cached_cwnd_delta ca; plasticity := plasticity ca;
  shannon_entropy := shannon_entropy ca; packets_acked := v;
  history_index := history_index ca; history_count := history_count ca;
  flags := flags ca; nn_skip_counter := nn_skip_counter ca;
  hidden_state := hidden_state ca; rtt_history := rtt_history ca |}.
Definition set_history_index v ca := {|
  min_rtt_us := min_rtt_us ca; prior_cwnd := prior_cwnd ca; ssthresh := ssthresh ca;
  cached_cwnd_delta := cached_cwnd_delta ca; plasticity := plasticity ca;
  shannon_entropy := shannon_entropy ca; packets_acked := packets_acked ca;
  history_index := v; history_count := history_count ca; flags := flags ca;
  nn_skip_counter := nn_skip_counter ca; hidden_state := hidden_state ca;
  rtt_history := rtt_history ca |}.
Definition set_history_count v ca := {|
  min_rtt_us := min_rtt_us ca; prior_cwnd := prior_cwnd ca; ssthresh := ssthresh ca;
  cached_cwnd_delta := cached_cwnd_delta ca; plasticity := plasticity ca;
  shannon_entropy := shannon_entropy ca; packets_acked := packets_acked ca;
  history_index := history_index ca; history_count := v; flags := flags ca;
  nn_skip_counter := nn_skip_counter ca; hidden_state := hidden_state ca;
  rtt_history := rtt_history ca |}.
Definition set_flags v ca := {|
  min_rtt_us := min_rtt_us ca; prior_cwnd := prior_cwnd ca; ssthresh := ssthresh ca;
  cached_cwnd_delta := cached_cwnd_delta ca; plasticity := plasticity ca;
  shannon_entropy := shannon_entropy ca; packets_acked := packets_acked ca;
  history_index := history_index ca; history_count := history_count ca; flags := v;
  nn_skip_counter := nn_skip_counter ca; hidden_state := hidden_state ca;
  rtt_history := rtt_history ca |}.
Definition set_nn_skip_counter v ca := {|
  min_rtt_us := min_rtt_us ca; prior_cwnd := prior_cwnd ca; ssthresh := ssthresh ca;
  cached_cwnd_delta := cached_cwnd_delta ca; plasticity := plasticity ca;
  shannon_entropy := shannon_entropy ca; packets_acked := packets_acked ca;
  history_index := history_index ca; history_count := history_count ca;
  flags := flags ca; nn_skip_counter := v; hidden_state := hidden_state ca;
  rtt_history := rtt_history ca |}.
Definition set_hidden_state v ca := {|
  min_rtt_us := min_rtt_us ca; prior_cwnd := prior_cwnd ca; ssthresh := ssthresh ca;
  cached_cwnd_delta := cached_cwnd_delta ca; plasticity := plasticity ca;
  shannon_entropy := shannon_entropy ca; packets_acked := packets_acked ca;
  history_index := history_index ca; history_count := history_count ca;
  flags := flags ca; nn_skip_counter := nn_skip_counter ca; hidden_state := v;
  rtt_history := rtt_history ca |}.
Definition set_rtt_history v ca := {|
  min_rtt_us := min_rtt_us ca; prior_cwnd := prior_cwnd ca; ssthresh := ssthresh ca;
  cached_cwnd_delta := cached_cwnd_delta ca; plasticity := plasticity ca;
  shannon_entropy := shannon_entropy ca; packets_acked := packets_acked ca;
  history_index := history_index ca; history_count := history_count ca;
  flags := flags ca; nn_skip_counter := nn_skip_counter ca;
  hidden_state := hidden_state ca; rtt_history := v |}.

Definition FLAG_HAS_DATA : Z := 1.
Definition FLAG_SLOW_START : Z := 2.
Definition FLAG_CONGESTION : Z := 4.
Definition FLAG_LOSS : Z := 8.

Definition set_flag (ca : ndm_tcp) (flag : Z) : ndm_tcp :=
  set_flags (u8 (Z.lor (flags ca) flag)) ca.
Definition clear_flag (ca : ndm_tcp) (flag : Z) : ndm_tcp :=
  set_flags (u8 (Z.land (flags ca) (Z.lnot flag))) ca.
Definition check_flag (ca : ndm_tcp) (flag : Z) : bool :=
  negb (Z.land (flags ca) flag =? 0).

Definition fast_tanh_s8 (x : Z) : Z :=
  let idx := s32 (x + 128) in
  if idx <? 0 then -127
  else if 255 <? idx then 127
  else at_index TANH_LUT_S8 idx.

Definition fast_sigmoid_u32 (x : Z) : Z :=
  if x <=? -64 then 0
  else if 64 <=? x then 1024
  else u32 (Z.shiftl (x + 64) 3).

Definition scan_min (m x : Z) : Z := if x <? m then x else m.
Definition scan_max (m x : Z) : Z := if m <? x then x else m.

Definition bump (bin : Z) (histogram : list Z) : list Z :=
  alter (λ c, u8 (c + 1)) (Z.to_nat bin) histogram.

Definition bin_shift (range : Z) : Z :=
  if 128 <? range then 5
  else if 64 <? range then 4
  else if 32 <? range then 3
  else if 16 <? range then 2
  else if 8 <? range then 1
  else 0.

Definition bin_of (min_val shift x : Z) : Z :=
  let bin := u8 (Z.shiftr (x - min_val) shift) in
  if 7 <? bin then 7 else bin.

(** The estimator scans all [ENTROPY_WINDOW_SIZE] slots of the ring. *)
Definition calculate_entropy_fast_u8 (ca : ndm_tcp) : Z :=
  let samples := take (Z.to_nat ENTROPY_WINDOW_SIZE) (rtt_history ca) in
  let min_val := foldl scan_min 255 samples in
  let max_val := foldl scan_max 0 samples in
  let range := u8 (max_val - min_val) in
  if range =? 0 then 0 else
  let shift := bin_shift range in
  let histogram := foldl (λ h x, bump (bin_of min_val shift x) h) (replicate 8 0) samples in
  foldl (λ entropy h, if h =? 0 then entropy else u8 (entropy + at_index ENTROPY_LUT h))
        0 histogram.

Definition network_inputs (ca : ndm_tcp) (rtt_us : Z) : list Z :=
  let scaled_rtt := Z.shiftr rtt_us 6 in
  [ s8 (Z.min scaled_rtt 127);
    s8 (s16 (shannon_entropy ca) - 128);
    if check_flag ca FLAG_SLOW_START then 127 else -127;
    if check_flag ca FLAG_CONGESTION then -127 else 127;
    s8 (s16 (plasticity ca) - 128);
    if check_flag ca FLAG_LOSS then -127 else 127 ].

Definition hidden_accum (input_vec : list Z) (i : Z) : Z :=
  foldl (λ sum j, s32 (sum + at_index input_vec j * at_index L1_WEIGHTS (i * INPUT_SIZE + j)))
        0 (indices INPUT_SIZE).

Definition ndm_forward_pass_int8 (ca : ndm_tcp) (rtt_us : Z) : ndm_tcp * Z :=
  let input_vec := network_inputs ca rtt_us in
  let state :=
    foldl (λ state i,
             let val := s32 (Z.shiftr (hidden_accum input_vec i) FP_SCALE
                             + Z.shiftr (s32 (at_index state i * RECURRENT_WEIGHT)) FP_SCALE) in
             <[Z.to_nat i := fast_tanh_s8 val]> state)
          (hidden_state ca) (indices HIDDEN_SIZE) in
  let output_sum :=
    foldl (λ sum i, s32 (sum + at_index state i * at_index OUT_WEIGHTS i)) 0 (indices HIDDEN_SIZE) in
  let output_sum := Z.shiftr output_sum FP_SCALE in
  let cwnd_delta := if ENTROPY_THRESHOLD <? shannon_entropy ca
                    then fast_sigmoid_u32 (Z.shiftr output_sum 1)
                    else fast_sigmoid_u32 output_sum in
  (set_hidden_state state ca, cwnd_delta).

Definition ndm_tcp_init (tp : tcp_sock) : tcp_sock * ndm_tcp :=
  (set_snd_ssthresh TCP_INFINITE_SSTHRESH tp,
   {| min_rtt_us := MIN_RTT_INIT; prior_cwnd := snd_cwnd tp; ssthresh := snd_ssthresh tp;
      cached_cwnd_delta := 512; packets_acked := 0; plasticity := BASE_PLASTICITY;
      shannon_entropy := 0; history_index := 0; history_count := 0;
      flags := FLAG_SLOW_START; nn_skip_counter := 0;
      hidden_state := replicate (Z.to_nat HIDDEN_SIZE) 0;
      rtt_history := replicate (Z.to_nat ENTROPY_WINDOW_SIZE) 0 |}).

Definition current_rtt_us (tp : tcp_sock) : Z := Z.max (Z.shiftr (srtt_us tp) 3) 1.

Definition record_ack (tp : tcp_sock) (ca : ndm_tcp) (acked : Z) : ndm_tcp :=
  let ca := set_packets_acked (u16 (packets_acked ca + acked)) ca in
  let rtt_us := current_rtt_us tp in
  let ca := if rtt_us <? min_rtt_us ca then set_min_rtt_us rtt_us ca else ca in
  let ca := set_rtt_history
              (<[Z.to_nat (history_index ca) := u8 (Z.min (Z.shiftr rtt_us 5) 255)]> (rtt_history ca))
              ca in
  let ca := set_history_index (u8 (Z.land (history_index ca + 1) 7)) ca in
  if history_count ca <? ENTROPY_WINDOW_SIZE
  then set_history_count (u8 (history_count ca + 1)) ca else ca.

Definition recompute_entropy (ca : ndm_tcp) : ndm_tcp :=
  if 16 <=? packets_acked ca then
    let ca := set_shannon_entropy (calculate_entropy_fast_u8 ca) ca in
    let ca := set_packets_acked 0 ca in
    let ca := set_flag ca FLAG_HAS_DATA in
    let ca := if shannon_entropy ca <? ENTROPY_THRESHOLD
              then set_flag ca FLAG_CONGESTION else clear_flag ca FLAG_CONGESTION in
    clear_flag ca FLAG_LOSS
  else ca.

Definition update_slow_start (tp : tcp_sock) (ca : ndm_tcp) : ndm_tcp :=
  if snd_cwnd tp <? ssthresh ca
  then set_flag ca FLAG_SLOW_START else clear_flag ca FLAG_SLOW_START.

(** The elision test of [ndm_tcp_cong_avoid]. *)
Definition may_skip (ca : ndm_tcp) : bool :=
  (shannon_entropy ca <? 128) && (200 <? plasticity ca) && (nn_skip_counter ca <? 16).

Definition growth_signal (ca : ndm_tcp) (rtt_us : Z) : ndm_tcp * Z :=
  if may_skip ca then
    (set_nn_skip_counter (u8 (nn_skip_counter ca + 1)) ca, cached_cwnd_delta ca)
  else
    let '(ca, cwnd_delta) := ndm_forward_pass_int8 ca rtt_us in
    let ca := set_cached_cwnd_delta cwnd_delta ca in
    (set_nn_skip_counter 0 ca, cwnd_delta).

Definition apply_growth `{tcp_host} (tp : tcp_sock) (ca : ndm_tcp)
    (ack acked cwnd_delta : Z) : tcp_sock :=
  if check_flag ca FLAG_SLOW_START then
    tcp_slow_start tp (if check_flag ca FLAG_CONGESTION then Z.shiftr acked 1 else acked)
  else if check_flag ca FLAG_HAS_DATA then
    let shift := if check_flag ca FLAG_CONGESTION then 11 else 10 in
    tcp_cong_avoid_ai tp (snd_cwnd tp) (Z.max 1 (Z.shiftr (u32 (acked * cwnd_delta)) shift))
  else tcp_reno_cong_avoid tp ack acked.

Definition decay_plasticity (p : Z) : Z := if 25 <? p then u8 (p - 1) else p.

Definition ndm_tcp_cong_avoid `{tcp_host} (tp : tcp_sock) (ca : ndm_tcp)
    (ack acked : Z) : tcp_sock * ndm_tcp :=
  if acked =? 0 then (tp, ca) else
  let ca := record_ack tp ca acked in
  let ca := recompute_entropy ca in
  let ca := update_slow_start tp ca in
  let '(ca, cwnd_delta) := growth_signal ca (current_rtt_us tp) in
  let tp := apply_growth tp ca ack acked cwnd_delta in
  (tp, set_plasticity (decay_plasticity (plasticity ca)) ca).

Definition ndm_tcp_ssthresh (tp : tcp_sock) (ca : ndm_tcp) : ndm_tcp * Z :=
  let ca := set_flag ca (Z.lor FLAG_LOSS FLAG_CONGESTION) in
  let ca := set_plasticity (u8 (Z.min 255 (u32 (plasticity ca + 40)))) ca in
  let ca := set_ssthresh
              (Z.max (snd_cwnd tp / (if ENTROPY_THRESHOLD <? shannon_entropy ca then 3 else 2)) 2)
              ca in
  let ca := set_prior_cwnd (snd_cwnd tp) ca in
  (ca, ssthresh ca).

Definition ndm_tcp_undo_cwnd (tp : tcp_sock) (ca : ndm_tcp) : tcp_sock * ndm_tcp * Z :=
  let tp := set_snd_cwnd (Z.max (snd_cwnd tp) (prior_cwnd ca)) tp in
  let ca := if snd_cwnd tp <? ssthresh ca then set_flag ca FLAG_SLOW_START else ca in
  (tp, ca, snd_cwnd tp).

Definition ndm_tcp_cwnd_event (ca : ndm_tcp) (ev : tcp_ca_event) : ndm_tcp :=
  match ev with
  | CA_EVENT_LOSS => set_flag ca (Z.lor FLAG_CONGESTION FLAG_LOSS)
  | CA_EVENT_CWND_RESTART => set_plasticity BASE_PLASTICITY ca
  | _ => ca
  end.

Definition ndm_tcp_set_state (ca : ndm_tcp) (new_state : tcp_ca_state) : ndm_tcp :=
  match new_state with
  | TCP_CA_Loss =>
      let ca := set_flag ca (Z.lor FLAG_CONGESTION FLAG_LOSS) in
      set_plasticity (u8 (Z.min 255 (plasticity ca + 50))) ca
  | _ => ca
  end.

Definition ndm_tcp_ops `{tcp_host} : tcp_congestion_ops ndm_tcp := {|
  ops_init := ndm_tcp_init;
  ops_ssthresh := ndm_tcp_ssthresh;
  ops_cong_avoid := ndm_tcp_cong_avoid;
  ops_undo_cwnd := ndm_tcp_undo_cwnd;
  ops_cwnd_event := Some ndm_tcp_cwnd_event;
  ops_set_state := ndm_tcp_set_state
|}.

Inductive reachable `{tcp_host} : ndm_tcp → Prop :=
  | reach_init tp : reachable (snd (ndm_tcp_init tp))
  | reach_cong_avoid tp ca ack acked :
      reachable ca → reachable (snd (ndm_tcp_cong_avoid tp ca ack acked))
  | reach_ssthresh tp ca : reachable ca → reachable (fst (ndm_tcp_ssthresh tp ca))
  | reach_undo_cwnd tp ca : reachable ca → reachable (snd (fst (ndm_tcp_undo_cwnd tp ca)))
  | reach_cwnd_event ca ev : reachable ca → reachable (ndm_tcp_cwnd_event ca ev)
  | reach_set_state ca st : reachable ca → reachable (ndm_tcp_set_state ca st).

End Ultra.

(** ** Hyper tier: [ndm_tcp_lkm_hyp.c] *)
Module Hyper.

Definition MAX_P : Z := 600.
Definition BASE : Z := 100.

Record ndm_tcp := {
  min_rtt : Z;          (* u32 *)
  last_ack : Z;         (* u32 *)
  plasticity : Z;       (* u16 *)
  entropy_hist : Z;     (* u8 *)
  entropy_val : Z;      (* u8 *)
  rtt_var : Z;          (* u16 *)
  pad : Z               (* u16 *)
}.

(** [hweight8]: the number of set bits of a byte. *)
Definition hweight8 (x : Z) : Z :=
  foldl (λ n i, if Z.testbit x i then n + 1 else n) 0 (indices 8).

Definition update_entropy (ca : ndm_tcp) (current_rtt : Z) : ndm_tcp :=
  let trend := if rtt_var ca <? current_rtt then 1 else 0 in
  let hist := u8 (Z.lor (Z.shiftl (entropy_hist ca) 1) trend) in
  {| min_rtt := min_rtt ca; last_ack := last_ack ca; plasticity := plasticity ca;
     entropy_hist := hist;
     entropy_val := hweight8 (Z.lxor hist (Z.shiftr hist 1));
     rtt_var := u16 current_rtt; pad := pad ca |}.

Definition hyper_manifold (tp : tcp_sock) (ca : ndm_tcp) : Z :=
  let rtt := Z.shiftr (srtt_us tp) 3 in
  let grad := s32 (u32 (snd_cwnd tp * plasticity ca) / BASE) in
  let grad := s32 (grad - s32 (Z.shiftl (entropy_val ca) 2)) in
  let diff := u32 (rtt - min_rtt ca) in
  let mask := if min_rtt ca <? rtt then -1 else 0 in
  s32 (grad + Z.land mask (s32 (- s32 (u32 (diff * plasticity ca) / BASE)))).

Definition ndm_tcp_init (tp : tcp_sock) : tcp_sock * ndm_tcp :=
  (tp, {| min_rtt := 4294967295; last_ack := 0; plasticity := 100; entropy_hist := 0;
          entropy_val := 0; rtt_var := 0; pad := 0 |}).

Definition ndm_tcp_set_state (ca : ndm_tcp) (new_state : tcp_ca_state) : ndm_tcp :=
  match new_state with
  | TCP_CA_Loss =>
      let p := u32 (plasticity ca + 50) in
      {| min_rtt := min_rtt ca; last_ack := last_ack ca;
         plasticity := u16 (if MAX_P <? p then MAX_P else p);
         entropy_hist := entropy_hist ca; entropy_val := entropy_val ca;
         rtt_var := rtt_var ca; pad := pad ca |}
  | _ => ca
  end.

Definition ndm_tcp_cong_avoid `{tcp_host} (tp : tcp_sock) (ca : ndm_tcp)
    (ack acked : Z) : tcp_sock * ndm_tcp :=
  let rtt := Z.shiftr (srtt_us tp) 3 in
  if negb (tcp_is_cwnd_limited tp) then (tp, ca) else
  let ca := update_entropy ca rtt in
  let ca := if (rtt <? min_rtt ca) || (min_rtt ca =? 0)
            then {| min_rtt := rtt; last_ack := last_ack ca; plasticity := plasticity ca;
                    entropy_hist := entropy_hist ca; entropy_val := entropy_val ca;
                    rtt_var := rtt_var ca; pad := pad ca |}
            else ca in
  if snd_cwnd tp <=? snd_ssthresh tp then (tcp_slow_start tp acked, ca)
  else
    let g := hyper_manifold tp ca in
    if 0 <? g then (set_snd_cwnd (u32 (snd_cwnd tp + 1)) tp, ca)
    else (tcp_cong_avoid_ai tp (snd_cwnd tp) 1, ca).

Definition ndm_tcp_ssthresh (tp : tcp_sock) (ca : ndm_tcp) : ndm_tcp * Z :=
  let ca := if 100 <? plasticity ca
            then {| min_rtt := min_rtt ca; last_ack := last_ack ca;
                    plasticity := u16 (Z.shiftr (plasticity ca * 3) 2);
                    entropy_hist := entropy_hist ca; entropy_val := entropy_val ca;
                    rtt_var := rtt_var ca; pad := pad ca |}
            else ca in
  (ca, Z.max 2 (Z.shiftr (snd_cwnd tp) 1)).

Definition ndm_tcp_undo (tp : tcp_sock) (ca : ndm_tcp) : tcp_sock * ndm_tcp * Z :=
  (tp, ca, snd_cwnd tp).

Definition ndm_tcp_ops `{tcp_host} : tcp_congestion_ops ndm_tcp := {|
  ops_init := ndm_tcp_init;
  ops_ssthresh := ndm_tcp_ssthresh;
  ops_cong_avoid := ndm_tcp_cong_avoid;
  ops_undo_cwnd := ndm_tcp_undo;
  ops_cwnd_event := None;
  ops_set_state := ndm_tcp_set_state
|}.

End Hyper.

(** ** Properties stated once for every tier *)

(** An acknowledgment of zero segments leaves socket and private area as
    they were. *)
Definition zero_ack_is_noop {CA} (ops : tcp_congestion_ops CA) : Prop :=
  ∀ tp ca ack, ops_cong_avoid ops tp ca ack 0 = (tp, ca).

(** An undo that follows a reduction returns at least the window the
    reduction was asked for. *)
Definition undo_restores_reduced_window {CA} (ops : tcp_congestion_ops CA) : Prop :=
  ∀ tp ca tp', snd_cwnd tp ≤ snd (ops_undo_cwnd ops tp' (fst (ops_ssthresh ops tp ca))).

(** All samples of a history are the same value. *)
Definition all_equal (l : list Z) : bool :=
  match l with
  | [] => true
  | x :: l' => forallb (Z.eqb x) l'
  end.

(** [n] acknowledgments in a row on an unchanged smoothed RTT. *)
Fixpoint repeat_ack {CA} (ops : tcp_congestion_ops CA) (n : nat) (ack acked : Z)
    (st : tcp_sock * CA) : tcp_sock * CA :=
  match n with
  | O => st
  | S n => let st := repeat_ack ops n ack acked st in
           ops_cong_avoid ops (fst st) (snd st) ack acked
  end.

(** One acknowledgment per smoothed-RTT reading of [srtts], each for
    [acked] segments. *)
Definition ack_trace {CA} (ops : tcp_congestion_ops CA) (acked : Z) (srtts : list Z)
    (st : tcp_sock * CA) : tcp_sock * CA :=
  foldl (λ st srtt,
           let tp := {| snd_cwnd := snd_cwnd (fst st); snd_ssthresh := snd_ssthresh (fst st);
                        snd_cwnd_cnt := snd_cwnd_cnt (fst st);
                        snd_cwnd_clamp := snd_cwnd_clamp (fst st);
                        srtt_us := srtt; is_cwnd_limited := is_cwnd_limited (fst st) |} in
           ops_cong_avoid ops tp (snd st) 0 acked)
        st srtts.

(** A socket as the host hands it to [init]: a window of [cwnd] segments,
    no threshold yet, a smoothed RTT of [srtt] (in eighths of a microsecond). *)
Definition fresh_sock (cwnd srtt : Z) : tcp_sock :=
  {| snd_cwnd := cwnd; snd_ssthresh := TCP_INFINITE_SSTHRESH; snd_cwnd_cnt := 0;
     snd_cwnd_clamp := U32_MAX; srtt_us := srtt; is_cwnd_limited := true |}.

(** The plasticity range of the base tier: floor 100, ceiling 1000. *)
Definition base_plasticity_ok (p : Z) : Prop := 100 ≤ p ≤ 1000.

(** A connection that has seen [n] reduction requests and nothing else. *)
Definition optimized_after_losses (n : nat) (tp : tcp_sock) : Optimized.ndm_tcp :=
  Nat.iter n (λ ca, fst (Optimized.ndm_tcp_ssthresh tp ca)) (snd (Optimized.ndm_tcp_init tp)).
Definition ultra_after_losses (n : nat) (tp : tcp_sock) : Ultra.ndm_tcp :=
  Nat.iter n (λ ca, fst (Ultra.ndm_tcp_ssthresh tp ca)) (snd (Ultra.ndm_tcp_init tp)).

(** Smoothed-RTT readings of eight acknowledgments: half a millisecond,
    then one to seven milliseconds. *)
Definition rising_rtts : list Z := [4000; 8000; 16000; 24000; 32000; 40000; 48000; 56000].

(** Sum of the entries of a histogram. *)
Definition total_of (l : list Z) : Z := foldr Z.add 0 l.

(** Shape of the RTT ring of the base tier: sixteen slots, count and write
    index within the ring, the index following the count until the ring is
    full, and every recorded sample a sixteen-bit value. *)
Definition base_history_ok (ca : Base.ndm_tcp) : Prop :=
  length (Base.rtt_history ca) = 16%nat
  ∧ 0 ≤ Base.history_count ca ≤ 16
  ∧ 0 ≤ Base.history_index ca < 16
  ∧ (Base.history_count ca < 16 → Base.history_index ca = Base.history_count ca)
  ∧ Forall (λ x, 0 ≤ x < 65536) (Base.valid_samples ca).

(** What every reachable state of the base tier satisfies besides the
    plasticity range: the ring shape, a batch counter below the batch size, a
    stored entropy of 0 or 1000, and eight hidden activations that fit the
    sixteen-bit store. *)
Definition base_state_ok (ca : Base.ndm_tcp) : Prop :=
  base_history_ok ca
  ∧ 0 ≤ Base.packets_acked ca < 8
  ∧ (Base.shannon_entropy ca = 0 ∨ Base.shannon_entropy ca = 1000)
  ∧ length (Base.hidden_state ca) = 8%nat
  ∧ Forall (λ h, -6000 ≤ h ≤ 6000) (Base.hidden_state ca).

(** The sample an acknowledgment writes into the ring of the base tier: the
    smoothed RTT in milliseconds, capped at 65535, zero read as one. *)
Definition base_sample (tp : tcp_sock) : Z :=
  let rtt_ms := Z.min (Base.current_rtt_us tp / 1000) 65535 in
  u16 (if rtt_ms =? 0 then 1 else rtt_ms).

(** What every reachable state of the optimized tier satisfies: eight ring
    slots, a batch counter below 16, an entropy score of at most 3000, a
    plasticity between 100 and 1024, a cached growth signal of at most 1024
    and four hidden activations within the table range. *)
Definition optimized_state_ok (ca : Optimized.ndm_tcp) : Prop :=
  length (Optimized.rtt_history ca) = 8%nat
  ∧ 0 ≤ Optimized.packets_acked ca < 16
  ∧ 0 ≤ Optimized.shannon_entropy ca ≤ 3000
  ∧ 100 ≤ Optimized.plasticity ca ≤ 1024
  ∧ 0 ≤ Optimized.cached_cwnd_delta ca ≤ 1024
  ∧ length (Optimized.hidden_state ca) = 4%nat
  ∧ Forall (λ h, -1024 ≤ h ≤ 1024) (Optimized.hidden_state ca).

(** What every reachable state of the ultra tier satisfies: a plasticity
    between 25 and 255, an entropy score that fits a byte, a cached growth
    signal of at most 1024 and four hidden activations within 127. *)
Definition ultra_state_ok (ca : Ultra.ndm_tcp) : Prop :=
  25 ≤ Ultra.plasticity ca ≤ 255
  ∧ 0 ≤ Ultra.shannon_entropy ca ≤ 255
  ∧ 0 ≤ Ultra.cached_cwnd_delta ca ≤ 1024
  ∧ length (Ultra.hidden_state ca) = 4%nat
  ∧ Forall (λ h, -127 ≤ h ≤ 127) (Ultra.hidden_state ca).

(** States a connection of the hyper tier can be in. *)
Inductive hyper_reachable `{tcp_host} : Hyper.ndm_tcp → Prop :=
  | hyper_reach_init tp : hyper_reachable (snd (Hyper.ndm_tcp_init tp))
  | hyper_reach_cong_avoid tp ca ack acked :
      hyper_reachable ca → hyper_reachable (snd (Hyper.ndm_tcp_cong_avoid tp ca ack acked))
  | hyper_reach_ssthresh tp ca :
      hyper_reachable ca → hyper_reachable (fst (Hyper.ndm_tcp_ssthresh tp ca))
  | hyper_reach_undo tp ca :
      hyper_reachable ca → hyper_reachable (snd (fst (Hyper.ndm_tcp_undo tp ca)))
  | hyper_reach_set_state ca st :
      hyper_reachable ca → hyper_reachable (Hyper.ndm_tcp_set_state ca st).

(** The bit an RTT reading pushes into the trend register of the hyper tier. *)
Definition hyper_trend (ca : Hyper.ndm_tcp) (current_rtt : Z) : Z :=
  if Hyper.rtt_var ca <? current_rtt then 1 else 0.

(** ** Integer conversion facts *)

Lemma u8_small x : 0 ≤ x < 256 → u8 x = x.
Proof. intros. unfold u8, wrap_unsigned. apply Z.mod_small. lia. Qed.

Lemma u16_small x : 0 ≤ x < 65536 → u16 x = x.
Proof. intros. unfold u16, wrap_unsigned. apply Z.mod_small. lia. Qed.

Lemma u32_small x : 0 ≤ x < 4294967296 → u32 x = x.
Proof. intros. unfold u32, wrap_unsigned. apply Z.mod_small. lia. Qed.

Lemma u16_range x : 0 ≤ u16 x < 65536.
Proof. unfold u16, wrap_unsigned. apply Z.mod_pos_bound. lia. Qed.

Lemma u32_range x : 0 ≤ u32 x < 4294967296.
Proof. unfold u32, wrap_unsigned. apply Z.mod_pos_bound. lia. Qed.

Lemma scan_min_min m x : Base.scan_min m x = Z.min m x.
Proof. unfold Base.scan_min. destruct (Z.ltb_spec x m); lia. Qed.

Lemma scan_max_max m x : Base.scan_max m x = Z.max m x.
Proof. unfold Base.scan_max. destruct (Z.ltb_spec m x); lia. Qed.

(** ** Base tier: what each step of a callback leaves alone *)

Section base_frames.
Context `{tcp_host}.

Lemma base_forward_pass_frame ca rtt_us :
  ∃ st, fst (Base.ndm_forward_pass ca rtt_us) = Base.set_hidden_state st ca.
Proof.
  unfold Base.ndm_forward_pass.
  destruct (foldl _ _ (indices Base.HIDDEN_SIZE)) as [hidden st]. by exists st.
Qed.

Lemma base_record_ack_plasticity tp ca acked :
  Base.plasticity (Base.record_ack tp ca acked) = Base.plasticity ca.
Proof. unfold Base.record_ack. repeat case_match; reflexivity. Qed.

Lemma base_record_ack_entropy tp ca acked :
  Base.shannon_entropy (Base.record_ack tp ca acked) = Base.shannon_entropy ca
  ∧ Base.has_data (Base.record_ack tp ca acked) = Base.has_data ca.
Proof. unfold Base.record_ack. repeat case_match; split; reflexivity. Qed.

Lemma base_recompute_entropy_plasticity ca :
  Base.plasticity (Base.recompute_entropy ca) = Base.plasticity ca.
Proof. unfold Base.recompute_entropy. case_match; reflexivity. Qed.

Lemma base_cong_avoid_snd tp ca ack acked :
  acked ≠ 0 →
  ∃ st, snd (Base.ndm_tcp_cong_avoid tp ca ack acked) =
        Base.set_plasticity (Base.decay_plasticity (Base.plasticity ca))
          (Base.set_hidden_state st
             (Base.set_in_slow_start (snd_cwnd tp <? Base.ssthresh (Base.recompute_entropy (Base.record_ack tp ca acked)))
                (Base.recompute_entropy (Base.record_ack tp ca acked)))).
Proof.
  intros Hacked. unfold Base.ndm_tcp_cong_avoid.
  destruct (Z.eqb_spec acked 0) as [|_]; [done|].
  set (ca1 := Base.set_in_slow_start _ _).
  destruct (base_forward_pass_frame ca1 (Base.current_rtt_us tp)) as [st Hst].
  destruct (Base.ndm_forward_pass ca1 _) as [ca2 delta]. simpl in Hst. subst ca2.
  exists st. simpl. 
  by rewrite base_recompute_entropy_plasticity, base_record_ack_plasticity.
Qed.

End base_frames.

(** ** Plasticity dynamics of the base tier *)

Lemma base_decay_bounds p :
  0 ≤ p ≤ 1000 → 100 ≤ Base.decay_plasticity p ∧ (100 ≤ p → Base.decay_plasticity p ≤ p).
Proof.
  intros Hp. unfold Base.decay_plasticity, Base.PLASTICITY_DECAY.
  rewrite Z.quot_div_nonneg by lia.
  assert (0 ≤ p * 995 / 1000 ≤ p) as Hq.
  { split; [apply Z.div_pos; lia|]. apply Z.div_le_upper_bound; lia. }
  rewrite u16_small by lia.
  destruct (Z.ltb_spec (p * 995 / 1000) 100); lia.
Qed.

Lemma base_decay_spec p :
  0 ≤ p ≤ 1000 → Base.decay_plasticity p = Z.max 100 (p * 995 / 1000).
Proof.
  intros Hp. unfold Base.decay_plasticity, Base.PLASTICITY_DECAY.
  rewrite Z.quot_div_nonneg by lia.
  assert (0 ≤ p * 995 / 1000 ≤ p) as Hq.
  { split; [apply Z.div_pos; lia|]. apply Z.div_le_upper_bound; lia. }
  rewrite u16_small by lia.
  destruct (Z.ltb_spec (p * 995 / 1000) 100); lia.
Qed.

Lemma base_boost_spec a p :
  0 ≤ a ≤ 1000 → 0 ≤ p ≤ 1000 → Base.boost_plasticity a p = Z.min 1000 (p + a).
Proof. intros. unfold Base.boost_plasticity. by rewrite u16_small by lia. Qed.


Lemma base_decay_ok p : base_plasticity_ok p → base_plasticity_ok (Base.decay_plasticity p).
Proof.
  unfold base_plasticity_ok. intros Hp.
  destruct (base_decay_bounds p) as [? Hle]; [lia|]. specialize (Hle ltac:(lia)). lia.
Qed.

Lemma base_boost_ok a p :
  0 ≤ a ≤ 1000 → base_plasticity_ok p → base_plasticity_ok (Base.boost_plasticity a p).
Proof. unfold base_plasticity_ok. intros. rewrite base_boost_spec by lia. lia. Qed.

Lemma base_decay_iter_ok n p :
  base_plasticity_ok p → base_plasticity_ok (Nat.iter n Base.decay_plasticity p).
Proof. intros Hp. induction n; simpl; [done|]. by apply base_decay_ok. Qed.

Lemma base_reachable_plasticity `{tcp_host} ca :
  Base.reachable ca → base_plasticity_ok (Base.plasticity ca).
Proof.
  induction 1 as [tp|tp ca ack acked Hr IH|tp ca Hr IH|tp ca Hr IH|ca ev Hr IH|ca st Hr IH].
  - simpl. unfold base_plasticity_ok, Base.BASE_PLASTICITY. lia.
  - destruct (Z.eq_dec acked 0) as [->|Hne]; [done|].
    destruct (base_cong_avoid_snd tp ca ack acked Hne) as [st ->]. simpl.
    by apply base_decay_ok.
  - simpl. apply base_boost_ok; [lia|done].
  - done.
  - destruct ev; simpl; try done; unfold base_plasticity_ok, Base.BASE_PLASTICITY; lia.
  - destruct st; simpl; try done. apply base_boost_ok; [lia|done].
Qed.

(** C5: in the base tier the plasticity of every reachable state lies
    between the floor 100 and the ceiling 1000.  An acknowledgment decays it
    to [max 100 (p * 995 / 1000)], which is at least the floor and at most the
    old value, so repeated decays never increase it and never fall below the
    floor; a reduction request adds 100 and a forced loss state adds 150, both
    capped at the ceiling. *)
Theorem C5_plasticity_bounds `{tcp_host} (ca : Base.ndm_tcp) (tp : tcp_sock)
    (ack acked : Z) (n : nat) (Hreach : Base.reachable ca) (Hacked : acked ≠ 0) :
  let p := Base.plasticity ca in
  let decayed := Base.plasticity (snd (Base.ndm_tcp_cong_avoid tp ca ack acked)) in
  let boosted := Base.plasticity (fst (Base.ndm_tcp_ssthresh tp ca)) in
  let forced := Base.plasticity (Base.ndm_tcp_set_state ca TCP_CA_Loss) in
  100 ≤ p ≤ 1000
  ∧ decayed = Z.max 100 (p * 995 / 1000) ∧ 100 ≤ decayed ≤ p
  ∧ boosted = Z.min 1000 (p + 100) ∧ p ≤ boosted ≤ 1000
  ∧ forced = Z.min 1000 (p + 150) ∧ p ≤ forced ≤ 1000
  ∧ 100 ≤ Nat.iter (S n) Base.decay_plasticity p ≤ Nat.iter n Base.decay_plasticity p.
Proof.
  intros p decayed boosted forced.
  pose proof (base_reachable_plasticity ca Hreach) as Hp. fold p in Hp.
  unfold base_plasticity_ok in Hp.
  assert (decayed = Base.decay_plasticity p) as Hd.
  { subst decayed. destruct (base_cong_avoid_snd tp ca ack acked Hacked) as [st ->]. done. }
  assert (boosted = Base.boost_plasticity 100 p) as Hb by done.
  assert (forced = Base.boost_plasticity 150 p) as Hf by done.
  rewrite Hd, Hb, Hf, !base_boost_spec, base_decay_spec by lia.
  pose proof (base_decay_bounds p ltac:(lia)) as [Hd1 Hd2]. specialize (Hd2 ltac:(lia)).
  rewrite base_decay_spec in Hd1, Hd2 by lia.
  pose proof (base_decay_iter_ok n p Hp) as Hn. unfold base_plasticity_ok in Hn.
  pose proof (base_decay_bounds (Nat.iter n Base.decay_plasticity p) ltac:(lia)) as [Hi1 Hi2].
  specialize (Hi2 ltac:(lia)). simpl Nat.iter.
  repeat split; lia.
Qed.

Lemma C5_plasticity_bounds_witness :
  let ca := snd (Base.ndm_tcp_init (fresh_sock 10 80000)) in
  100 ≤ Base.plasticity ca ≤ 1000
  ∧ Base.plasticity (snd (Base.ndm_tcp_cong_avoid (H:=linux_host) (fresh_sock 10 80000) ca 0 1)) = 298.
Proof.
  intros ca.
  pose proof (C5_plasticity_bounds (H:=linux_host) ca (fresh_sock 10 80000) 0 1 0%nat
                (Base.reach_init _) ltac:(lia)) as (Hp & Hd & _).
  split; [exact Hp|]. rewrite Hd. reflexivity.
Defined.

(** ** Reduction request *)

Lemma base_recompute_entropy_no_data ca :
  (Base.has_data ca = false → Base.shannon_entropy ca = 0) →
  Base.has_data (Base.recompute_entropy ca) = false →
  Base.shannon_entropy (Base.recompute_entropy ca) = 0.
Proof. unfold Base.recompute_entropy. case_match; simpl; [done|auto]. Qed.

Lemma base_reachable_no_data `{tcp_host} ca :
  Base.reachable ca → Base.has_data ca = false → Base.shannon_entropy ca = 0.
Proof.
  induction 1 as [tp|tp ca ack acked Hr IH|tp ca Hr IH|tp ca Hr IH|ca ev Hr IH|ca st Hr IH].
  - done.
  - destruct (Z.eq_dec acked 0) as [->|Hne]; [done|].
    destruct (base_cong_avoid_snd tp ca ack acked Hne) as [st ->]. simpl.
    apply base_recompute_entropy_no_data.
    by destruct (base_record_ack_entropy tp ca acked) as [-> ->].
  - done.
  - done.
  - by destruct ev.
  - by destruct st.
Qed.

(** C2: a reduction request at window [w] returns and stores
    [max (w / d) 2], with [d = 3] when the stored entropy score is above the
    threshold and [d = 2] otherwise, and stores [w] as [prior_cwnd]; the
    result is never below 2.  For [w = 100] it is 33 above the threshold and
    50 below.  Base tier (every reachable state) and optimized tier. *)
Theorem C2_reduce_request `{tcp_host} (tp : tcp_sock) (ca : Base.ndm_tcp)
    (co : Optimized.ndm_tcp) (Hreach : Base.reachable ca) :
  let w := snd_cwnd tp in
  let d := if Base.ENTROPY_THRESHOLD <? Base.shannon_entropy ca then 3 else 2 in
  let r := Base.ndm_tcp_ssthresh tp ca in
  let d' := if Optimized.ENTROPY_THRESHOLD <? Optimized.shannon_entropy co then 3 else 2 in
  let r' := Optimized.ndm_tcp_ssthresh tp co in
  (snd r = Z.max (w / d) 2 ∧ Base.ssthresh (fst r) = snd r
   ∧ Base.prior_cwnd (fst r) = w ∧ 2 ≤ snd r)
  ∧ (snd r' = Z.max (w / d') 2 ∧ Optimized.ssthresh (fst r') = snd r'
     ∧ Optimized.prior_cwnd (fst r') = w ∧ 2 ≤ snd r')
  ∧ (w = 100 → snd r = (if Base.ENTROPY_THRESHOLD <? Base.shannon_entropy ca then 33 else 50)
               ∧ snd r' = (if Optimized.ENTROPY_THRESHOLD <? Optimized.shannon_entropy co
                           then 33 else 50)).
Proof.
  intros w d r d' r'.
  assert (snd r = Z.max (w / d) 2) as Hr.
  { subst r d. unfold Base.ndm_tcp_ssthresh. simpl.
    destruct (Base.has_data ca) eqn:Hd; [done|].
    rewrite (base_reachable_no_data ca Hreach Hd). done. }
  assert (snd r' = Z.max (w / d') 2) as Hr' by done.
  split; [|split].
  - repeat split; try done; lia.
  - repeat split; try done; lia.
  - intros Hw. rewrite Hr, Hr'. subst d d'. rewrite Hw. split.
    + by destruct (Base.ENTROPY_THRESHOLD <? Base.shannon_entropy ca).
    + by destruct (Optimized.ENTROPY_THRESHOLD <? Optimized.shannon_entropy co).
Qed.

Lemma C2_reduce_request_witness :
  let tp := fresh_sock 100 80000 in
  snd (Base.ndm_tcp_ssthresh tp (snd (Base.ndm_tcp_init tp))) = 50
  ∧ 2 ≤ snd (Optimized.ndm_tcp_ssthresh tp (snd (Optimized.ndm_tcp_init tp))).
Proof.
  intros tp.
  pose proof (C2_reduce_request (H:=linux_host) tp (snd (Base.ndm_tcp_init tp))
                (snd (Optimized.ndm_tcp_init tp)) (Base.reach_init tp)) as (Hb & Ho & Hw).
  split; [|apply Ho]. destruct (Hw eq_refl) as [-> _]. reflexivity.
Defined.

(** ** Uniform histories and the batch boundary *)

Lemma base_scan_uniform x l :
  forallb (Z.eqb x) l = true →
  foldl Base.scan_min x l = x ∧ foldl Base.scan_max x l = x.
Proof.
  induction l as [|y l IH]; simpl; [done|].
  intros [Hy Hl]%andb_prop. apply Z.eqb_eq in Hy as <-.
  unfold Base.scan_min at 2, Base.scan_max at 2. rewrite Z.ltb_irrefl. auto.
Qed.

Lemma take_head_at_index n (h : list Z) x l :
  take n h = x :: l → at_index h 0 = x.
Proof. destruct n, h; simpl; try done. by intros [= -> _]. Qed.

Lemma base_all_equal_entropy ca :
  all_equal (Base.valid_samples ca) = true → Base.calculate_entropy ca = 0.
Proof.
  intros Heq. unfold Base.calculate_entropy.
  destruct (Base.history_count ca <? 8); [done|].
  assert (foldl Base.scan_min (at_index (Base.rtt_history ca) 0) (Base.valid_samples ca)
          = foldl Base.scan_max (at_index (Base.rtt_history ca) 0) (Base.valid_samples ca))
    as ->.
  { destruct (Base.valid_samples ca) as [|x l] eqn:Hs; [done|].
    unfold Base.valid_samples in Hs. rewrite (take_head_at_index _ _ _ _ Hs).
    simpl in *. unfold Base.scan_min at 2, Base.scan_max at 2. rewrite Z.ltb_irrefl.
    by destruct (base_scan_uniform x l Heq) as [-> ->]. }
  by rewrite Z.sub_diag.
Qed.

Lemma base_recompute_entropy_batch ca :
  8 ≤ Base.packets_acked ca →
  Base.recompute_entropy ca =
  Base.set_loss_detected false
    (Base.set_congestion_detected (u16 (Base.calculate_entropy ca) <? Base.ENTROPY_THRESHOLD)
       (Base.set_has_data true
          (Base.set_packets_acked 0
             (Base.set_shannon_entropy (u16 (Base.calculate_entropy ca)) ca)))).
Proof.
  intros Hb. unfold Base.recompute_entropy.
  by destruct (Z.leb_spec 8 (Base.packets_acked ca)); [|lia].
Qed.

(** C4: when all valid samples of the RTT history are equal, the entropy
    estimate is 0; an acknowledgment that reaches the batch boundary with such
    a history stores entropy 0, sets [congestion_detected] and [has_data] and
    clears [loss_detected].  Base tier. *)
Theorem C4_uniform_history `{tcp_host} (tp : tcp_sock) (ca : Base.ndm_tcp) (ack acked : Z)
    (Hacked : acked ≠ 0)
    (Hbatch : 8 ≤ Base.packets_acked (Base.record_ack tp ca acked))
    (Hequal : all_equal (Base.valid_samples (Base.record_ack tp ca acked)) = true) :
  let ca' := snd (Base.ndm_tcp_cong_avoid tp ca ack acked) in
  (∀ c, all_equal (Base.valid_samples c) = true → Base.calculate_entropy c = 0)
  ∧ Base.shannon_entropy ca' = 0
  ∧ Base.congestion_detected ca' = true
  ∧ Base.has_data ca' = true
  ∧ Base.loss_detected ca' = false.
Proof.
  intros ca'. split; [apply base_all_equal_entropy|].
  subst ca'. destruct (base_cong_avoid_snd tp ca ack acked Hacked) as [st ->].
  rewrite (base_recompute_entropy_batch _ Hbatch), (base_all_equal_entropy _ Hequal).
  done.
Qed.

Lemma C4_uniform_history_witness :
  let st := repeat_ack (Base.ndm_tcp_ops (H:=linux_host)) 7 0 1
              (Base.ndm_tcp_init (fresh_sock 10 80000)) in
  let ca' := snd (Base.ndm_tcp_cong_avoid (H:=linux_host) (fst st) (snd st) 0 1) in
  Base.valid_samples ca' = [10; 10; 10; 10; 10; 10; 10; 10]
  ∧ Base.shannon_entropy ca' = 0 ∧ Base.congestion_detected ca' = true.
Proof.
  intros st ca'.
  assert (Base.packets_acked (Base.record_ack (fst st) (snd st) 1) = 8) as Hb
    by (vm_compute; reflexivity).
  pose proof (C4_uniform_history (H:=linux_host) (fst st) (snd st) 0 1 ltac:(lia)
                ltac:(rewrite Hb; lia) ltac:(vm_compute; reflexivity)) as (_ & He & Hc & _).
  split; [vm_compute; reflexivity|]. split; [exact He|exact Hc].
Defined.



(** ** Order independence of the histogram estimator *)

Section permutation.

Lemma foldl_comm_permutation {A B} (f : B → A → B) (l1 l2 : list A) :
  (∀ b x y, f (f b x) y = f (f b y) x) →
  l1 ≡ₚ l2 → ∀ b, foldl f b l1 = foldl f b l2.
Proof.
  intros Hf. induction 1 as [|x l1 l2 _ IH|x y l|l1 l2 l3 _ IH1 _ IH2]; intros b; simpl.
  - done.
  - apply IH.
  - by rewrite Hf.
  - by rewrite IH1.
Qed.

Lemma scan_min_comm b x y : Base.scan_min (Base.scan_min b x) y = Base.scan_min (Base.scan_min b y) x.
Proof. rewrite !scan_min_min. lia. Qed.

Lemma scan_max_comm b x y : Base.scan_max (Base.scan_max b x) y = Base.scan_max (Base.scan_max b y) x.
Proof. rewrite !scan_max_max. lia. Qed.

(** The scan started at a member of the list ends at the least (greatest)
    member, whichever member it started at. *)
Lemma foldl_scan_min_least b l :
  foldl Base.scan_min b l ≤ b
  ∧ (∀ x, x ∈ l → foldl Base.scan_min b l ≤ x)
  ∧ (foldl Base.scan_min b l = b ∨ foldl Base.scan_min b l ∈ l).
Proof.
  revert b. induction l as [|y l IH]; intros b; simpl.
  - split; [lia|]. split; [by intros ? ?%elem_of_nil|by left].
  - rewrite scan_min_min. destruct (IH (Z.min b y)) as (Hb & Hall & Hin). split; [lia|]. split.
    + intros x [->|Hx]%elem_of_cons; [lia|by apply Hall].
    + destruct Hin as [Hin|Hin]; [|right; apply elem_of_cons; by right].
      destruct (Z.min_spec b y) as [[_ Hm]|[_ Hm]]; rewrite Hm in Hin |- *.
      * by left.
      * right. rewrite Hin. apply elem_of_cons. by left.
Qed.

Lemma foldl_scan_max_greatest b l :
  b ≤ foldl Base.scan_max b l
  ∧ (∀ x, x ∈ l → x ≤ foldl Base.scan_max b l)
  ∧ (foldl Base.scan_max b l = b ∨ foldl Base.scan_max b l ∈ l).
Proof.
  revert b. induction l as [|y l IH]; intros b; simpl.
  - split; [lia|]. split; [by intros ? ?%elem_of_nil|by left].
  - rewrite scan_max_max. destruct (IH (Z.max b y)) as (Hb & Hall & Hin). split; [lia|]. split.
    + intros x [->|Hx]%elem_of_cons; [lia|by apply Hall].
    + destruct Hin as [Hin|Hin]; [|right; apply elem_of_cons; by right].
      destruct (Z.max_spec b y) as [[_ Hm]|[_ Hm]]; rewrite Hm in Hin |- *.
      * right. rewrite Hin. apply elem_of_cons. by left.
      * by left.
Qed.

Lemma foldl_scan_min_members a b l1 l2 :
  a ∈ l1 → b ∈ l2 → l1 ≡ₚ l2 →
  foldl Base.scan_min a l1 = foldl Base.scan_min b l2.
Proof.
  intros Ha Hb Hp.
  destruct (foldl_scan_min_least a l1) as (_ & H1 & I1).
  destruct (foldl_scan_min_least b l2) as (_ & H2 & I2).
  assert (foldl Base.scan_min a l1 ∈ l2) as M1.
  { rewrite <- Hp. by destruct I1 as [->|?]. }
  assert (foldl Base.scan_min b l2 ∈ l1) as M2.
  { rewrite Hp. by destruct I2 as [->|?]. }
  specialize (H1 _ M2). specialize (H2 _ M1). lia.
Qed.

Lemma foldl_scan_max_members a b l1 l2 :
  a ∈ l1 → b ∈ l2 → l1 ≡ₚ l2 →
  foldl Base.scan_max a l1 = foldl Base.scan_max b l2.
Proof.
  intros Ha Hb Hp.
  destruct (foldl_scan_max_greatest a l1) as (_ & H1 & I1).
  destruct (foldl_scan_max_greatest b l2) as (_ & H2 & I2).
  assert (foldl Base.scan_max a l1 ∈ l2) as M1.
  { rewrite <- Hp. by destruct I1 as [->|?]. }
  assert (foldl Base.scan_max b l2 ∈ l1) as M2.
  { rewrite Hp. by destruct I2 as [->|?]. }
  specialize (H1 _ M2). specialize (H2 _ M1). lia.
Qed.

Lemma alter_comm (f : Z → Z) (i j : nat) (h : list Z) :
  alter f i (alter f j h) = alter f j (alter f i h).
Proof.
  destruct (decide (i = j)) as [->|Hne]; [done|]. by apply list_alter_alter_ne.
Qed.

Lemma histogram_permutation (f : Z → Z) (bin : Z → Z) l1 l2 :
  l1 ≡ₚ l2 → ∀ h : list Z,
  foldl (λ h x, alter f (Z.to_nat (bin x)) h) h l1
  = foldl (λ h x, alter f (Z.to_nat (bin x)) h) h l2.
Proof. apply foldl_comm_permutation. intros. apply alter_comm. Qed.

End permutation.

Lemma base_first_sample ca :
  Base.valid_samples ca ≠ [] → at_index (Base.rtt_history ca) 0 ∈ Base.valid_samples ca.
Proof.
  destruct (Base.valid_samples ca) as [|x l] eqn:Hs; [done|]. intros _.
  unfold Base.valid_samples in Hs. rewrite (take_head_at_index _ _ _ _ Hs). by left.
Qed.

Lemma base_entropy_permutation ca1 ca2 :
  Base.history_count ca1 = Base.history_count ca2 →
  Base.valid_samples ca1 ≡ₚ Base.valid_samples ca2 →
  Base.calculate_entropy ca1 = Base.calculate_entropy ca2.
Proof.
  intros Hc Hp. unfold Base.calculate_entropy. rewrite Hc.
  destruct (Base.history_count ca2 <? 8); [done|].
  destruct (decide (Base.valid_samples ca1 = [])) as [He|Hne].
  - assert (Base.valid_samples ca2 = []) as He2.
    { apply Permutation_nil. by rewrite <- Hp, He. }
    rewrite He, He2. simpl. by rewrite !Z.sub_diag.
  - assert (Base.valid_samples ca2 ≠ []) as Hne2.
    { intros He2. apply Hne, Permutation_nil. by rewrite Hp, He2. }
    rewrite (foldl_scan_min_members _ (at_index (Base.rtt_history ca2) 0) _ _
               (base_first_sample _ Hne) (base_first_sample _ Hne2) Hp).
    rewrite (foldl_scan_max_members _ (at_index (Base.rtt_history ca2) 0) _ _
               (base_first_sample _ Hne) (base_first_sample _ Hne2) Hp).
    case_match; [done|].
    unfold Base.bump.
    by rewrite (histogram_permutation _ _ _ _ Hp).
Qed.

Lemma optimized_scan_min_comm b x y :
  Optimized.scan_min (Optimized.scan_min b x) y = Optimized.scan_min (Optimized.scan_min b y) x.
Proof. unfold Optimized.scan_min. repeat case_match; lia. Qed.

Lemma optimized_scan_max_comm b x y :
  Optimized.scan_max (Optimized.scan_max b x) y = Optimized.scan_max (Optimized.scan_max b y) x.
Proof. unfold Optimized.scan_max. repeat case_match; lia. Qed.

Lemma optimized_entropy_permutation ca1 ca2 :
  Optimized.valid_samples ca1 ≡ₚ Optimized.valid_samples ca2 →
  Optimized.calculate_entropy_fast ca1 = Optimized.calculate_entropy_fast ca2.
Proof.
  intros Hp. unfold Optimized.calculate_entropy_fast.
  rewrite (foldl_comm_permutation Optimized.scan_min _ _ optimized_scan_min_comm Hp).
  rewrite (foldl_comm_permutation Optimized.scan_max _ _ optimized_scan_max_comm Hp).
  case_match; [done|].
  unfold Optimized.bump.
  by rewrite (histogram_permutation _ _ _ _ Hp).
Qed.

(** C7: two histories whose valid samples are permutations of each other,
    with the same valid count, get the same entropy score from the histogram
    estimator.  Base and optimized tier. *)
Theorem C7_entropy_order_independent (b1 b2 : Base.ndm_tcp) (o1 o2 : Optimized.ndm_tcp)
    (Hcount : Base.history_count b1 = Base.history_count b2)
    (Hbase : Base.valid_samples b1 ≡ₚ Base.valid_samples b2)
    (Hopt : Optimized.valid_samples o1 ≡ₚ Optimized.valid_samples o2) :
  Base.calculate_entropy b1 = Base.calculate_entropy b2
  ∧ Optimized.calculate_entropy_fast o1 = Optimized.calculate_entropy_fast o2.
Proof.
  split; [by apply base_entropy_permutation|by apply optimized_entropy_permutation].
Qed.

Lemma C7_entropy_order_independent_witness :
  let b1 := snd (ack_trace (Base.ndm_tcp_ops (H:=linux_host)) 1
                   [80000; 400000; 80000; 400000; 80000; 400000; 80000; 400000]
                   (Base.ndm_tcp_init (fresh_sock 10 0))) in
  let b2 := snd (ack_trace (Base.ndm_tcp_ops (H:=linux_host)) 1
                   [400000; 80000; 80000; 400000; 80000; 400000; 80000; 400000]
                   (Base.ndm_tcp_init (fresh_sock 10 0))) in
  let o1 := snd (ack_trace (Optimized.ndm_tcp_ops (H:=linux_host)) 2
                   [80000; 400000; 80000; 400000; 80000; 400000; 80000; 400000]
                   (Optimized.ndm_tcp_init (fresh_sock 10 0))) in
  let o2 := snd (ack_trace (Optimized.ndm_tcp_ops (H:=linux_host)) 2
                   [400000; 80000; 80000; 400000; 80000; 400000; 80000; 400000]
                   (Optimized.ndm_tcp_init (fresh_sock 10 0))) in
  Base.valid_samples b1 = [10; 50; 10; 50; 10; 50; 10; 50]
  ∧ Base.valid_samples b2 = [50; 10; 10; 50; 10; 50; 10; 50]
  ∧ Base.calculate_entropy b1 = Base.calculate_entropy b2
  ∧ Optimized.calculate_entropy_fast o1 = Optimized.calculate_entropy_fast o2.
Proof.
  intros b1 b2 o1 o2.
  assert (Base.valid_samples b1 = [10; 50; 10; 50; 10; 50; 10; 50]) as H1 by (by vm_compute).
  assert (Base.valid_samples b2 = [50; 10; 10; 50; 10; 50; 10; 50]) as H2 by (by vm_compute).
  assert (Optimized.valid_samples o1 = [10; 50; 10; 50; 10; 50; 10; 50]) as H3 by (by vm_compute).
  assert (Optimized.valid_samples o2 = [50; 10; 10; 50; 10; 50; 10; 50]) as H4 by (by vm_compute).
  split; [exact H1|]. split; [exact H2|].
  apply (C7_entropy_order_independent b1 b2 o1 o2).
  - by vm_compute.
  - rewrite H1, H2. apply perm_swap.
  - rewrite H3, H4. apply perm_swap.
Defined.

(** ** Compute elision, optimized tier *)

Section optimized_elision.
Context `{tcp_host}.

Lemma optimized_stage_frame tp ca acked :
  let ca1 := Optimized.update_slow_start tp
               (Optimized.recompute_entropy (Optimized.record_ack tp ca acked)) in
  Optimized.plasticity ca1 = Optimized.plasticity ca
  ∧ Optimized.nn_skip_counter ca1 = Optimized.nn_skip_counter ca
  ∧ Optimized.cached_cwnd_delta ca1 = Optimized.cached_cwnd_delta ca
  ∧ Optimized.hidden_state ca1 = Optimized.hidden_state ca.
Proof.
  unfold Optimized.update_slow_start, Optimized.recompute_entropy, Optimized.record_ack.
  repeat case_match; done.
Qed.

Lemma optimized_cong_avoid_eq tp ca ack acked :
  acked ≠ 0 →
  let gs := Optimized.growth_signal
              (Optimized.update_slow_start tp
                 (Optimized.recompute_entropy (Optimized.record_ack tp ca acked)))
              (Optimized.current_rtt_us tp) in
  Optimized.ndm_tcp_cong_avoid tp ca ack acked
  = (Optimized.apply_growth tp (fst gs) ack acked (snd gs),
     Optimized.set_plasticity (Optimized.decay_plasticity (Optimized.plasticity (fst gs)))
       (fst gs)).
Proof.
  intros Hacked gs. unfold Optimized.ndm_tcp_cong_avoid.
  destruct (Z.eqb_spec acked 0) as [|_]; [done|]. fold gs. by destruct gs.
Qed.

Lemma optimized_growth_signal_skip_counter ca rtt_us :
  0 ≤ Optimized.nn_skip_counter ca ≤ 8 →
  Optimized.nn_skip_counter (fst (Optimized.growth_signal ca rtt_us))
  = (if Optimized.may_skip ca then Optimized.nn_skip_counter ca + 1 else 0)
  ∧ 0 ≤ Optimized.nn_skip_counter (fst (Optimized.growth_signal ca rtt_us)) ≤ 8.
Proof.
  intros Hs. unfold Optimized.growth_signal.
  destruct (Optimized.may_skip ca) eqn:Hm; simpl; [|lia].
  unfold Optimized.may_skip in Hm. apply andb_prop in Hm as [_ Hm%Z.ltb_lt].
  rewrite u8_small by lia. lia.
Qed.

Lemma optimized_reachable_skip ca :
  Optimized.reachable ca → 0 ≤ Optimized.nn_skip_counter ca ≤ 8.
Proof.
  induction 1 as [tp|tp ca ack acked Hr IH|tp ca Hr IH|tp ca Hr IH|ca ev Hr IH|ca st Hr IH].
  - simpl. lia.
  - destruct (Z.eq_dec acked 0) as [->|Hne]; [done|].
    rewrite (optimized_cong_avoid_eq tp ca ack acked Hne). simpl.
    apply optimized_growth_signal_skip_counter.
    by destruct (optimized_stage_frame tp ca acked) as (_ & -> & _).
  - done.
  - simpl. by case_match.
  - by destruct ev.
  - by destruct st.
Qed.

Lemma optimized_elision tp ca ack acked :
  acked ≠ 0 → Optimized.reachable ca →
  let rtt := Optimized.current_rtt_us tp in
  let ca1 := Optimized.update_slow_start tp
               (Optimized.recompute_entropy (Optimized.record_ack tp ca acked)) in
  let r := Optimized.ndm_tcp_cong_avoid tp ca ack acked in
  Optimized.may_skip ca1
  = (Optimized.shannon_entropy ca1 <? 500) && (800 <? Optimized.plasticity ca)
    && (Optimized.nn_skip_counter ca <? 8)
  ∧ fst r = Optimized.apply_growth tp (fst (Optimized.growth_signal ca1 rtt)) ack acked
              (snd (Optimized.growth_signal ca1 rtt))
  ∧ (Optimized.may_skip ca1 = true →
       snd (Optimized.growth_signal ca1 rtt) = Optimized.cached_cwnd_delta ca
       ∧ Optimized.nn_skip_counter (snd r) = Optimized.nn_skip_counter ca + 1
       ∧ Optimized.cached_cwnd_delta (snd r) = Optimized.cached_cwnd_delta ca
       ∧ Optimized.hidden_state (snd r) = Optimized.hidden_state ca)
  ∧ (Optimized.may_skip ca1 = false →
       snd (Optimized.growth_signal ca1 rtt) = snd (Optimized.ndm_forward_pass_opt ca1 rtt)
       ∧ Optimized.nn_skip_counter (snd r) = 0
       ∧ Optimized.cached_cwnd_delta (snd r) = snd (Optimized.ndm_forward_pass_opt ca1 rtt))
  ∧ 0 ≤ Optimized.nn_skip_counter ca ≤ 8
  ∧ 0 ≤ Optimized.nn_skip_counter (snd r) ≤ 8.
Proof.
  intros Hacked Hreach rtt ca1 r.
  pose proof (optimized_reachable_skip ca Hreach) as Hs.
  pose proof (optimized_reachable_skip _ (Optimized.reach_cong_avoid tp ca ack acked Hreach))
    as Hs'.
  destruct (optimized_stage_frame tp ca acked) as (Hp & Hk & Hc & Hh). fold ca1 in Hp, Hk, Hc, Hh.
  subst r. rewrite (optimized_cong_avoid_eq tp ca ack acked Hacked) in *. fold rtt ca1.
  split; [unfold Optimized.may_skip; by rewrite Hp, Hk|].
  split; [done|]. simpl.
  split; [|split; [|done]].
  - intros Hm. unfold Optimized.growth_signal. rewrite Hm. simpl.
    rewrite Hk, Hc, Hh. unfold Optimized.may_skip in Hm.
    apply andb_prop in Hm as [_ Hm%Z.ltb_lt]. rewrite u8_small by lia. done.
  - intros Hm. unfold Optimized.growth_signal. rewrite Hm. done.
Qed.

End optimized_elision.

(** ** Compute elision, ultra tier *)

Section ultra_elision.
Context `{tcp_host}.

Lemma ultra_stage_frame tp ca acked :
  let ca1 := Ultra.update_slow_start tp
               (Ultra.recompute_entropy (Ultra.record_ack tp ca acked)) in
  Ultra.plasticity ca1 = Ultra.plasticity ca
  ∧ Ultra.nn_skip_counter ca1 = Ultra.nn_skip_counter ca
  ∧ Ultra.cached_cwnd_delta ca1 = Ultra.cached_cwnd_delta ca
  ∧ Ultra.hidden_state ca1 = Ultra.hidden_state ca.
Proof.
  unfold Ultra.update_slow_start, Ultra.recompute_entropy, Ultra.record_ack.
  repeat case_match; done.
Qed.

Lemma ultra_cong_avoid_eq tp ca ack acked :
  acked ≠ 0 →
  let gs := Ultra.growth_signal
              (Ultra.update_slow_start tp
                 (Ultra.recompute_entropy (Ultra.record_ack tp ca acked)))
              (Ultra.current_rtt_us tp) in
  Ultra.ndm_tcp_cong_avoid tp ca ack acked
  = (Ultra.apply_growth tp (fst gs) ack acked (snd gs),
     Ultra.set_plasticity (Ultra.decay_plasticity (Ultra.plasticity (fst gs)))
       (fst gs)).
Proof.
  intros Hacked gs. unfold Ultra.ndm_tcp_cong_avoid.
  destruct (Z.eqb_spec acked 0) as [|_]; [done|]. fold gs. by destruct gs.
Qed.

Lemma ultra_growth_signal_skip_counter ca rtt_us :
  0 ≤ Ultra.nn_skip_counter ca ≤ 16 →
  Ultra.nn_skip_counter (fst (Ultra.growth_signal ca rtt_us))
  = (if Ultra.may_skip ca then Ultra.nn_skip_counter ca + 1 else 0)
  ∧ 0 ≤ Ultra.nn_skip_counter (fst (Ultra.growth_signal ca rtt_us)) ≤ 16.
Proof.
  intros Hs. unfold Ultra.growth_signal.
  destruct (Ultra.may_skip ca) eqn:Hm; simpl; [|lia].
  unfold Ultra.may_skip in Hm. apply andb_prop in Hm as [_ Hm%Z.ltb_lt].
  rewrite u8_small by lia. lia.
Qed.

Lemma ultra_reachable_skip ca :
  Ultra.reachable ca → 0 ≤ Ultra.nn_skip_counter ca ≤ 16.
Proof.
  induction 1 as [tp|tp ca ack acked Hr IH|tp ca Hr IH|tp ca Hr IH|ca ev Hr IH|ca st Hr IH].
  - simpl. lia.
  - destruct (Z.eq_dec acked 0) as [->|Hne]; [done|].
    rewrite (ultra_cong_avoid_eq tp ca ack acked Hne). simpl.
    apply ultra_growth_signal_skip_counter.
    by destruct (ultra_stage_frame tp ca acked) as (_ & -> & _).
  - done.
  - simpl. by case_match.
  - by destruct ev.
  - by destruct st.
Qed.

Lemma ultra_elision tp ca ack acked :
  acked ≠ 0 → Ultra.reachable ca →
  let rtt := Ultra.current_rtt_us tp in
  let ca1 := Ultra.update_slow_start tp
               (Ultra.recompute_entropy (Ultra.record_ack tp ca acked)) in
  let r := Ultra.ndm_tcp_cong_avoid tp ca ack acked in
  Ultra.may_skip ca1
  = (Ultra.shannon_entropy ca1 <? 128) && (200 <? Ultra.plasticity ca)
    && (Ultra.nn_skip_counter ca <? 16)
  ∧ fst r = Ultra.apply_growth tp (fst (Ultra.growth_signal ca1 rtt)) ack acked
              (snd (Ultra.growth_signal ca1 rtt))
  ∧ (Ultra.may_skip ca1 = true →
       snd (Ultra.growth_signal ca1 rtt) = Ultra.cached_cwnd_delta ca
       ∧ Ultra.nn_skip_counter (snd r) = Ultra.nn_skip_counter ca + 1
       ∧ Ultra.cached_cwnd_delta (snd r) = Ultra.cached_cwnd_delta ca
       ∧ Ultra.hidden_state (snd r) = Ultra.hidden_state ca)
  ∧ (Ultra.may_skip ca1 = false →
       snd (Ultra.growth_signal ca1 rtt) = snd (Ultra.ndm_forward_pass_int8 ca1 rtt)
       ∧ Ultra.nn_skip_counter (snd r) = 0
       ∧ Ultra.cached_cwnd_delta (snd r) = snd (Ultra.ndm_forward_pass_int8 ca1 rtt))
  ∧ 0 ≤ Ultra.nn_skip_counter ca ≤ 16
  ∧ 0 ≤ Ultra.nn_skip_counter (snd r) ≤ 16.
Proof.
  intros Hacked Hreach rtt ca1 r.
  pose proof (ultra_reachable_skip ca Hreach) as Hs.
  pose proof (ultra_reachable_skip _ (Ultra.reach_cong_avoid tp ca ack acked Hreach))
    as Hs'.
  destruct (ultra_stage_frame tp ca acked) as (Hp & Hk & Hc & Hh). fold ca1 in Hp, Hk, Hc, Hh.
  subst r. rewrite (ultra_cong_avoid_eq tp ca ack acked Hacked) in *. fold rtt ca1.
  split; [unfold Ultra.may_skip; by rewrite Hp, Hk|].
  split; [done|]. simpl.
  split; [|split; [|done]].
  - intros Hm. unfold Ultra.growth_signal. rewrite Hm. simpl.
    rewrite Hk, Hc, Hh. unfold Ultra.may_skip in Hm.
    apply andb_prop in Hm as [_ Hm%Z.ltb_lt]. rewrite u8_small by lia. done.
  - intros Hm. unfold Ultra.growth_signal. rewrite Hm. done.
Qed.

End ultra_elision.

(** C9: in the optimized and the ultra tier, when the elision test holds
    after the batch update (entropy below 500, plasticity above 800, skip
    counter below 8; in the ultra tier 128, 200 and 16) the cached growth
    signal is the one applied, the cache and the hidden state stay as they
    were and the skip counter grows by one; otherwise the network runs, its
    output is applied and cached and the skip counter returns to 0.  In every
    reachable state the skip counter is at most its bound. *)
Theorem C9_compute_elision `{tcp_host} (tp : tcp_sock) (co : Optimized.ndm_tcp)
    (cu : Ultra.ndm_tcp) (ack acked : Z)
    (Hacked : acked ≠ 0) (Hro : Optimized.reachable co) (Hru : Ultra.reachable cu) :
  (let rtt := Optimized.current_rtt_us tp in
   let ca1 := Optimized.update_slow_start tp
                (Optimized.recompute_entropy (Optimized.record_ack tp co acked)) in
   let r := Optimized.ndm_tcp_cong_avoid tp co ack acked in
   Optimized.may_skip ca1
   = (Optimized.shannon_entropy ca1 <? 500) && (800 <? Optimized.plasticity co)
     && (Optimized.nn_skip_counter co <? 8)
   ∧ fst r = Optimized.apply_growth tp (fst (Optimized.growth_signal ca1 rtt)) ack acked
               (snd (Optimized.growth_signal ca1 rtt))
   ∧ (Optimized.may_skip ca1 = true →
        snd (Optimized.growth_signal ca1 rtt) = Optimized.cached_cwnd_delta co
        ∧ Optimized.nn_skip_counter (snd r) = Optimized.nn_skip_counter co + 1
        ∧ Optimized.cached_cwnd_delta (snd r) = Optimized.cached_cwnd_delta co
        ∧ Optimized.hidden_state (snd r) = Optimized.hidden_state co)
   ∧ (Optimized.may_skip ca1 = false →
        snd (Optimized.growth_signal ca1 rtt) = snd (Optimized.ndm_forward_pass_opt ca1 rtt)
        ∧ Optimized.nn_skip_counter (snd r) = 0
        ∧ Optimized.cached_cwnd_delta (snd r) = snd (Optimized.ndm_forward_pass_opt ca1 rtt))
   ∧ 0 ≤ Optimized.nn_skip_counter co ≤ 8
   ∧ 0 ≤ Optimized.nn_skip_counter (snd r) ≤ 8)
  ∧
  (let rtt := Ultra.current_rtt_us tp in
   let ca1 := Ultra.update_slow_start tp
                (Ultra.recompute_entropy (Ultra.record_ack tp cu acked)) in
   let r := Ultra.ndm_tcp_cong_avoid tp cu ack acked in
   Ultra.may_skip ca1
   = (Ultra.shannon_entropy ca1 <? 128) && (200 <? Ultra.plasticity cu)
     && (Ultra.nn_skip_counter cu <? 16)
   ∧ fst r = Ultra.apply_growth tp (fst (Ultra.growth_signal ca1 rtt)) ack acked
               (snd (Ultra.growth_signal ca1 rtt))
   ∧ (Ultra.may_skip ca1 = true →
        snd (Ultra.growth_signal ca1 rtt) = Ultra.cached_cwnd_delta cu
        ∧ Ultra.nn_skip_counter (snd r) = Ultra.nn_skip_counter cu + 1
        ∧ Ultra.cached_cwnd_delta (snd r) = Ultra.cached_cwnd_delta cu
        ∧ Ultra.hidden_state (snd r) = Ultra.hidden_state cu)
   ∧ (Ultra.may_skip ca1 = false →
        snd (Ultra.growth_signal ca1 rtt) = snd (Ultra.ndm_forward_pass_int8 ca1 rtt)
        ∧ Ultra.nn_skip_counter (snd r) = 0
        ∧ Ultra.cached_cwnd_delta (snd r) = snd (Ultra.ndm_forward_pass_int8 ca1 rtt))
   ∧ 0 ≤ Ultra.nn_skip_counter cu ≤ 16
   ∧ 0 ≤ Ultra.nn_skip_counter (snd r) ≤ 16).
Proof. split; [by apply optimized_elision|by apply ultra_elision]. Qed.


Lemma optimized_after_losses_reachable `{tcp_host} n tp :
  Optimized.reachable (optimized_after_losses n tp).
Proof. induction n; [apply Optimized.reach_init|by apply Optimized.reach_ssthresh]. Qed.

Lemma ultra_after_losses_reachable `{tcp_host} n tp :
  Ultra.reachable (ultra_after_losses n tp).
Proof. induction n; [apply Ultra.reach_init|by apply Ultra.reach_ssthresh]. Qed.

Lemma C9_compute_elision_witness :
  let tp := fresh_sock 10 80000 in
  let co := optimized_after_losses 5 tp in
  let cu := ultra_after_losses 4 tp in
  let ro := snd (Optimized.ndm_tcp_cong_avoid (H:=linux_host) tp co 0 1) in
  let ru := snd (Ultra.ndm_tcp_cong_avoid (H:=linux_host) tp cu 0 1) in
  (Optimized.nn_skip_counter ro = 1 ∧ Optimized.cached_cwnd_delta ro = 512)
  ∧ (Ultra.nn_skip_counter ru = 1 ∧ Ultra.cached_cwnd_delta ru = 512).
Proof.
  intros tp co cu ro ru.
  pose proof (C9_compute_elision (H:=linux_host) tp co cu 0 1 ltac:(lia)
                (optimized_after_losses_reachable 5 tp) (ultra_after_losses_reachable 4 tp))
    as [(_ & _ & Ho & _) (_ & _ & Hu & _)].
  destruct (Ho ltac:(vm_compute; reflexivity)) as (_ & Hk & Hc & _).
  destruct (Hu ltac:(vm_compute; reflexivity)) as (_ & Hk' & Hc' & _).
  subst ro ru. rewrite Hk, Hc, Hk', Hc'. vm_compute. done.
Defined.

(** ** Undo and zero acknowledgments across the tiers *)

(** C3 fails as stated on the hyper tier: after a reduction request at a
    window of 100 (which returns 50), an undo at the reduced window 50 returns
    50, below the window the reduction was asked for. *)
Lemma C3_hyper_undo_below_reduced_window :
  let tp := fresh_sock 100 80000 in
  let ca0 := snd (Hyper.ndm_tcp_init tp) in
  let reduced := Hyper.ndm_tcp_ssthresh tp ca0 in
  snd reduced = 50
  ∧ snd (Hyper.ndm_tcp_undo (set_snd_cwnd 50 tp) (fst reduced)) = 50
  ∧ ¬ undo_restores_reduced_window (Hyper.ndm_tcp_ops (H:=linux_host)).
Proof.
  intros tp ca0 reduced. split; [done|]. split; [done|].
  intros Hall. specialize (Hall tp ca0 (set_snd_cwnd 50 tp)). vm_compute in Hall. by apply Hall.
Qed.

(** C3, amended: in the base tier an undo sets the window to
    [max window prior_cwnd], returns it and recomputes [in_slow_start] as
    restored window below [ssthresh]; the optimized and ultra tiers restore
    and return the same maximum; in these three tiers an undo after a
    reduction returns at least the window of the reduction.  The hyper tier
    keeps no [prior_cwnd]: its undo returns the current window and changes
    nothing. *)
Theorem C3_undo_request `{tcp_host} (tp : tcp_sock) (cb : Base.ndm_tcp)
    (co : Optimized.ndm_tcp) (cu : Ultra.ndm_tcp) (ch : Hyper.ndm_tcp) :
  (let r := Base.ndm_tcp_undo_cwnd tp cb in
   let restored := snd_cwnd (fst (fst r)) in
   restored = Z.max (snd_cwnd tp) (Base.prior_cwnd cb)
   ∧ Base.prior_cwnd cb ≤ restored
   ∧ Base.in_slow_start (snd (fst r)) = (restored <? Base.ssthresh (snd (fst r)))
   ∧ Base.ssthresh (snd (fst r)) = Base.ssthresh cb
   ∧ snd r = restored
   ∧ undo_restores_reduced_window Base.ndm_tcp_ops)
  ∧ (let r := Optimized.ndm_tcp_undo_cwnd tp co in
     snd_cwnd (fst (fst r)) = Z.max (snd_cwnd tp) (Optimized.prior_cwnd co)
     ∧ snd r = snd_cwnd (fst (fst r))
     ∧ undo_restores_reduced_window Optimized.ndm_tcp_ops)
  ∧ (let r := Ultra.ndm_tcp_undo_cwnd tp cu in
     snd_cwnd (fst (fst r)) = Z.max (snd_cwnd tp) (Ultra.prior_cwnd cu)
     ∧ snd r = snd_cwnd (fst (fst r))
     ∧ undo_restores_reduced_window Ultra.ndm_tcp_ops)
  ∧ Hyper.ndm_tcp_undo tp ch = (tp, ch, snd_cwnd tp).
Proof.
  split; [|split; [|split]]; [| | |done].
  - simpl. repeat split; try lia.
    intros tp1 ca tp2. simpl. lia.
  - simpl. repeat split. intros tp1 ca tp2. simpl. lia.
  - simpl. repeat split. intros tp1 ca tp2. simpl. lia.
Qed.

(** C8 fails as stated on the hyper tier: an acknowledgment of zero
    segments on a window-limited connection records the RTT trend, the last
    RTT and the minimum RTT, and past the threshold it grows the window from
    10 to 11. *)
Lemma C8_hyper_zero_ack_mutates :
  let tp := set_snd_ssthresh 5 (fresh_sock 10 80000) in
  let ca0 := snd (Hyper.ndm_tcp_init tp) in
  let r := Hyper.ndm_tcp_cong_avoid (H:=linux_host) tp ca0 0 0 in
  Hyper.entropy_hist ca0 = 0 ∧ Hyper.entropy_hist (snd r) = 1
  ∧ Hyper.rtt_var ca0 = 0 ∧ Hyper.rtt_var (snd r) = 10000
  ∧ Hyper.min_rtt (snd r) = 10000
  ∧ snd_cwnd tp = 10 ∧ snd_cwnd (fst r) = 11
  ∧ ¬ zero_ack_is_noop (Hyper.ndm_tcp_ops (H:=linux_host)).
Proof.
  intros tp ca0 r. repeat (split; [by vm_compute|]).
  intros Hall. specialize (Hall tp ca0 0). vm_compute in Hall. discriminate Hall.
Qed.

(** C8, amended: in the base, optimized and ultra tier an acknowledgment
    of zero segments returns socket and private area unchanged.  The hyper
    tier has no such test: its acknowledgment callback leaves everything
    unchanged when the host reports that the connection is not window-limited,
    whatever the acked count. *)
Theorem C8_zero_ack `{tcp_host} :
  zero_ack_is_noop Base.ndm_tcp_ops
  ∧ zero_ack_is_noop Optimized.ndm_tcp_ops
  ∧ zero_ack_is_noop Ultra.ndm_tcp_ops
  ∧ (∀ tp ca ack acked,
       tcp_is_cwnd_limited tp = false → Hyper.ndm_tcp_cong_avoid tp ca ack acked = (tp, ca)).
Proof.
  repeat split; try done.
  intros tp ca ack acked Hl. unfold Hyper.ndm_tcp_cong_avoid. by rewrite Hl.
Qed.

Lemma C8_zero_ack_witness :
  let tp := {| snd_cwnd := 10; snd_ssthresh := 5; snd_cwnd_cnt := 0; snd_cwnd_clamp := U32_MAX;
               srtt_us := 80000; is_cwnd_limited := false |} in
  Hyper.ndm_tcp_cong_avoid (H:=linux_host) tp (snd (Hyper.ndm_tcp_init tp)) 0 0
  = (tp, snd (Hyper.ndm_tcp_init tp)).
Proof.
  intros tp.
  exact (proj2 (proj2 (proj2 (C8_zero_ack (H:=linux_host)))) tp _ 0 0 eq_refl).
Defined.

(** ** Range of the entropy score and of the hidden activations *)

Lemma u64_nonneg x : 0 ≤ u64 x.
Proof. unfold u64, wrap_unsigned. apply Z.mod_pos_bound. lia. Qed.

Lemma base_entropy_accumulator_nonneg total (histogram : list Z) e :
  0 ≤ e → 0 ≤ foldl (λ e h, u64 (e + Base.bin_entropy total h)) e histogram.
Proof.
  revert e. induction histogram as [|h l IH]; intros e He; simpl; [done|].
  apply IH, u64_nonneg.
Qed.

Lemma base_entropy_bounds ca : 0 ≤ Base.calculate_entropy ca ≤ 1000.
Proof.
  unfold Base.calculate_entropy. repeat case_match; try lia.
  match goal with |- context [foldl ?f 0 ?l] =>
    pose proof (base_entropy_accumulator_nonneg
                  (Z.min (Base.history_count ca) Base.ENTROPY_WINDOW_SIZE) l 0 ltac:(lia)) as He;
    set (e := foldl f 0 l) in *
  end.
  assert (0 ≤ e / 4) by (apply Z.div_pos; lia).
  rewrite u32_small by lia. lia.
Qed.

Lemma optimized_ack_trace_reachable `{tcp_host} acked srtts tp :
  Optimized.reachable (snd (ack_trace Optimized.ndm_tcp_ops acked srtts (Optimized.ndm_tcp_init tp))).
Proof.
  unfold ack_trace.
  assert (Optimized.reachable (snd (Optimized.ndm_tcp_init tp))) as Hr
    by apply Optimized.reach_init.
  revert Hr. generalize (Optimized.ndm_tcp_init tp).
  induction srtts as [|srtt l IH]; intros st Hr; simpl; [done|].
  apply IH. by apply Optimized.reach_cong_avoid.
Qed.


(** C1: the base tier clamps its entropy estimate to the range 0 to 1000
    for every history.  The optimized tier does not clamp: eight
    acknowledgments with RTTs of 0 to 7 ms, from a fresh connection, fill
    eight bins with one sample each and store the score 3000, above the scale
    [2 ^ SCALE_SHIFT = 1024] of that tier. *)
Theorem C1_entropy_score_range :
  let st := ack_trace (Optimized.ndm_tcp_ops (H:=linux_host)) 2 rising_rtts
              (Optimized.ndm_tcp_init (fresh_sock 10 0)) in
  (∀ ca, 0 ≤ Base.calculate_entropy ca ≤ 1000)
  ∧ Optimized.reachable (H:=linux_host) (snd st)
  ∧ Optimized.valid_samples (snd st) = [0; 1; 2; 3; 4; 5; 6; 7]
  ∧ Optimized.calculate_entropy_fast (snd st) = 3000
  ∧ Optimized.shannon_entropy (snd st) = 3000
  ∧ 2 ^ Optimized.SCALE_SHIFT < Optimized.shannon_entropy (snd st).
Proof.
  intros st. split; [apply base_entropy_bounds|].
  split; [apply optimized_ack_trace_reachable|].
  by vm_compute.
Qed.

(** C6: the first acknowledgment on a fresh base-tier connection leaves
    3516 in hidden unit 0, outside the range -1000 to 1000: [tanh_approx]
    saturates only beyond 3000 in magnitude and its cubic reaches 6000 in
    magnitude below that. *)
Theorem C6_hidden_state_range :
  let tp := fresh_sock 10 80000 in
  let ca := snd (Base.ndm_tcp_cong_avoid (H:=linux_host) tp (snd (Base.ndm_tcp_init tp)) 0 1) in
  Base.tanh_approx 3000 = -6000
  ∧ Base.tanh_approx (-2644) = 3516
  ∧ Base.hidden_state ca = [3516; 2921; 2386; 1899; 1465; 1076; 733; 436]
  ∧ Base.reachable (H:=linux_host) ca
  ∧ ¬ (∀ h, h ∈ Base.hidden_state ca → -1000 ≤ h ≤ 1000).
Proof.
  intros tp ca.
  assert (Base.hidden_state ca = [3516; 2921; 2386; 1899; 1465; 1076; 733; 436]) as Hh
    by (by vm_compute).
  split; [by vm_compute|]. split; [by vm_compute|]. split; [exact Hh|].
  split; [apply Base.reach_cong_avoid, Base.reach_init|].
  intros Hall. specialize (Hall 3516). rewrite Hh in Hall.
  specialize (Hall ltac:(by left)). lia.
Qed.

(** ** The base estimator is two-valued *)

Lemma total_of_nonneg_member (l : list Z) c :
  Forall (λ c, 0 ≤ c) l → c ∈ l → 0 ≤ c ≤ total_of l.
Proof.
  induction 1 as [|x l Hx Hl IH]; [by intros ?%elem_of_nil|].
  assert (0 ≤ foldr Z.add 0 l) as Ht.
  { clear IH. induction Hl; simpl; [done|]. lia. }
  unfold total_of in *. simpl. intros [->|Hc]%elem_of_cons; [lia|].
  specialize (IH Hc). lia.
Qed.

Lemma total_of_cons x (l : list Z) : total_of (x :: l) = x + total_of l.
Proof. reflexivity. Qed.

Lemma total_of_nonneg (l : list Z) : Forall (λ c, 0 ≤ c) l → 0 ≤ total_of l.
Proof. induction 1; [done|]. rewrite total_of_cons. lia. Qed.

Lemma total_of_bump (h : list Z) (i : nat) :
  (i < length h)%nat → Forall (λ c, 0 ≤ c) h → total_of h < 4294967295 →
  total_of (alter (λ c, u32 (c + 1)) i h) = total_of h + 1
  ∧ Forall (λ c, 0 ≤ c) (alter (λ c, u32 (c + 1)) i h).
Proof.
  revert i. induction h as [|x h IH]; intros i Hi Hall Hsum; simpl in Hi; [lia|].
  apply Forall_cons in Hall as [Hx Hall].
  pose proof (total_of_nonneg h Hall) as Ht.
  rewrite total_of_cons in Hsum. destruct i as [|i].
  - change (alter _ 0%nat (x :: h)) with (u32 (x + 1) :: h).
    rewrite !total_of_cons, u32_small by lia. split; [lia|].
    apply Forall_cons. split; [lia|done].
  - change (alter ?f (S i) (x :: h)) with (x :: alter f i h).
    destruct (IH i ltac:(lia) Hall ltac:(lia)) as [Hs Hall'].
    rewrite !total_of_cons, Hs. split; [lia|]. apply Forall_cons. by split.
Qed.

Lemma base_bin_of_range min_val range x : 0 ≤ Base.bin_of min_val range x ≤ 15.
Proof. unfold Base.bin_of. pose proof (u16_range (u32 (u32 (x - min_val) * 15) / range)). lia. Qed.

Lemma base_histogram_total min_val range (l : list Z) (h0 : list Z) :
  length h0 = 16%nat → Forall (λ c, 0 ≤ c) h0 → total_of h0 + Z.of_nat (length l) < 4294967295 →
  let h := foldl (λ h x, Base.bump (Base.bin_of min_val range x) h) h0 l in
  length h = 16%nat ∧ Forall (λ c, 0 ≤ c) h ∧ total_of h = total_of h0 + Z.of_nat (length l).
Proof.
  revert h0. induction l as [|x l IH]; intros h0 Hlen Hall Hsum; simpl.
  - split; [done|]. split; [done|]. lia.
  - pose proof (base_bin_of_range min_val range x) as Hb.
    destruct (total_of_bump h0 (Z.to_nat (Base.bin_of min_val range x))
                ltac:(lia) Hall ltac:(simpl in Hsum; lia)) as [Ht Hall'].
    destruct (IH (Base.bump (Base.bin_of min_val range x) h0)) as (Hl' & Ha' & Ht').
    + unfold Base.bump. by rewrite length_alter.
    + exact Hall'.
    + unfold Base.bump. rewrite Ht. simpl in Hsum. lia.
    + split; [done|]. split; [done|]. rewrite Ht'. unfold Base.bump. rewrite Ht.
      simpl. lia.
Qed.

(** Every occupied bin of a window of 8 to 16 samples adds at least
    [4000 * h / total] to the accumulator, and never more than 10000. *)
Lemma base_bin_entropy_bounds total h :
  8 ≤ total ≤ 16 → 0 ≤ h ≤ total →
  4000 * h ≤ total * Base.bin_entropy total h ∧ 0 ≤ Base.bin_entropy total h ≤ 10000.
Proof.
  intros Ht Hh.
  assert (forallb (λ t, forallb (λ h, (4000 * h <=? t * Base.bin_entropy t h)
                                      && (0 <=? Base.bin_entropy t h)
                                      && (Base.bin_entropy t h <=? 10000))
                          (seqZ 0 (t + 1))) (seqZ 8 9) = true) as Hall by (by vm_compute).
  rewrite forallb_forall in Hall.
  specialize (Hall total ltac:(apply list_elem_of_In, elem_of_seqZ; lia)).
  rewrite forallb_forall in Hall.
  specialize (Hall h ltac:(apply list_elem_of_In, elem_of_seqZ; lia)).
  apply andb_prop in Hall as [[H1%Z.leb_le H2%Z.leb_le]%andb_prop H3%Z.leb_le]. lia.
Qed.

Lemma base_entropy_accumulate total (hist : list Z) e0 :
  8 ≤ total ≤ 16 → Forall (λ h, 0 ≤ h ≤ total) hist →
  0 ≤ e0 → e0 + 10000 * Z.of_nat (length hist) < 2 ^ 64 →
  let e := foldl (λ e h, u64 (e + Base.bin_entropy total h)) e0 hist in
  4000 * total_of hist ≤ total * (e - e0) ∧ e0 ≤ e.
Proof.
  intros Ht. revert e0. induction hist as [|h hist IH]; intros e0 Hall He Hfit; cbn [foldl].
  - change (total_of []) with 0. lia.
  - apply Forall_cons in Hall as [Hh Hall].
    destruct (base_bin_entropy_bounds total h Ht Hh) as [Hlo Hhi].
    assert (u64 (e0 + Base.bin_entropy total h) = e0 + Base.bin_entropy total h) as Hu.
    { unfold u64, wrap_unsigned. apply Z.mod_small. simpl length in Hfit. lia. }
    rewrite Hu.
    destruct (IH (e0 + Base.bin_entropy total h) Hall ltac:(lia)
                ltac:(simpl length in Hfit; lia)) as [IH1 IH2].
    rewrite total_of_cons. split; lia.
Qed.

Lemma base_scan_equal_all x (l : list Z) :
  foldl Base.scan_min x l = foldl Base.scan_max x l → forallb (Z.eqb x) l = true.
Proof.
  intros Heq.
  destruct (foldl_scan_min_least x l) as (Hmin & Hmins & _).
  destruct (foldl_scan_max_greatest x l) as (Hmax & Hmaxs & _).
  apply forallb_forall. intros y Hy%list_elem_of_In.
  specialize (Hmins y Hy). specialize (Hmaxs y Hy). apply Z.eqb_eq. lia.
Qed.

Lemma base_scan_within (P : Z → Prop) x (l : list Z) :
  P x → Forall P l → P (foldl Base.scan_min x l) ∧ P (foldl Base.scan_max x l).
Proof.
  revert x. induction l as [|y l IH]; intros x Hx Hl; simpl; [done|].
  apply Forall_cons in Hl as [Hy Hl]. split.
  - apply IH; [|done]. unfold Base.scan_min. by case_match.
  - apply IH; [|done]. unfold Base.scan_max. by case_match.
Qed.

Lemma base_scan_same x : Base.scan_min x x = x ∧ Base.scan_max x x = x.
Proof. unfold Base.scan_min, Base.scan_max. by rewrite Z.ltb_irrefl. Qed.

Lemma base_entropy_saturates total (hist : list Z) :
  8 ≤ total ≤ 16 → length hist = 16%nat → Forall (λ c, 0 ≤ c) hist → total_of hist = total →
  u32 (Z.min (foldl (λ e h, u64 (e + Base.bin_entropy total h)) 0 hist / 4) 1000) = 1000.
Proof.
  intros Ht Hhl Hha Htot.
  assert (Forall (λ h, 0 ≤ h ≤ total) hist) as Hbound.
  { apply Forall_forall. intros h Hh.
    pose proof (total_of_nonneg_member hist h Hha Hh). lia. }
  destruct (base_entropy_accumulate total hist 0 Ht Hbound ltac:(lia)
              ltac:(rewrite Hhl; lia)) as [Hlow _].
  set (e := foldl _ 0 hist) in *. clearbody e.
  rewrite Htot in Hlow.
  assert (4000 ≤ e) as H0 by (clear -Hlow Ht; nia).
  assert (1000 ≤ e / 4) as H1 by (apply Z.div_le_lower_bound; lia).
  rewrite Z.min_r by lia. apply u32_small. lia.
Qed.

Lemma base_scan_spread x (l : list Z) :
  Forall (λ v, 0 ≤ v < 65536) (x :: l) → all_equal (x :: l) = false →
  let mn := foldl Base.scan_min x (x :: l) in
  let mx := foldl Base.scan_max x (x :: l) in
  0 < mx - mn < 65536.
Proof.
  intros [Hx Hl]%Forall_cons Heq. cbn [foldl].
  destruct (base_scan_same x) as [-> ->].
  destruct (foldl_scan_min_least x l) as (Hmin & _).
  destruct (foldl_scan_max_greatest x l) as (Hmax & _).
  destruct (base_scan_within (λ v, 0 ≤ v < 65536) x l Hx Hl) as [B1 B2].
  cbv beta in B1, B2.
  assert (foldl Base.scan_min x l ≠ foldl Base.scan_max x l) as Hne.
  { intros Hmm. cbn [all_equal] in Heq. by rewrite (base_scan_equal_all x l Hmm) in Heq. }
  lia.
Qed.

Lemma base_entropy_characterised (ca : Base.ndm_tcp)
    (Hlen : Z.min (Base.history_count ca) 16 ≤ Z.of_nat (length (Base.rtt_history ca)))
    (Hu16 : Forall (λ x, 0 ≤ x < 65536) (Base.valid_samples ca)) :
  Base.calculate_entropy ca
  = if (Base.history_count ca <? 8) || all_equal (Base.valid_samples ca) then 0 else 1000.
Proof.
  destruct (Z.ltb_spec (Base.history_count ca) 8) as [Hc|Hc]; cbn [orb].
  { unfold Base.calculate_entropy. by destruct (Z.ltb_spec (Base.history_count ca) 8); [|lia]. }
  destruct (all_equal (Base.valid_samples ca)) eqn:Heq; [by apply base_all_equal_entropy|].
  unfold Base.calculate_entropy.
  destruct (Z.ltb_spec (Base.history_count ca) 8); [lia|].
  assert (Z.of_nat (length (Base.valid_samples ca))
          = Z.min (Base.history_count ca) Base.ENTROPY_WINDOW_SIZE) as Hn.
  { unfold Base.valid_samples. rewrite length_take. unfold Base.ENTROPY_WINDOW_SIZE. lia. }
  assert (8 ≤ Z.min (Base.history_count ca) Base.ENTROPY_WINDOW_SIZE ≤ 16) as Ht
    by (unfold Base.ENTROPY_WINDOW_SIZE; lia).
  destruct (Base.valid_samples ca) as [|x l] eqn:Hs.
  { cbn [length] in Hn. lia. }
  unfold Base.valid_samples in Hs. rewrite (take_head_at_index _ _ _ _ Hs).
  pose proof (base_scan_spread x l Hu16 Heq) as Hr. cbv zeta in Hr.
  rewrite u16_small by lia.
  destruct (Z.eqb_spec (foldl Base.scan_max x (x :: l) - foldl Base.scan_min x (x :: l)) 0)
    as [|_]; [lia|].
  destruct (base_histogram_total (foldl Base.scan_min x (x :: l))
              (foldl Base.scan_max x (x :: l) - foldl Base.scan_min x (x :: l))
              (x :: l) (replicate 16 0))
    as (Hhl & Hha & Hht).
  { apply length_replicate. }
  { by apply Forall_replicate. }
  { rewrite Hn. change (total_of (replicate 16 0)) with 0. lia. }
  apply base_entropy_saturates; [done|done|done|].
  rewrite Hht, Hn. reflexivity.
Qed.

(** ** Reachable states of the base tier *)

Lemma base_tanh_approx_range x : -6000 ≤ Base.tanh_approx x ≤ 6000.
Proof.
  destruct (Z.ltb_spec 3000 x) as [Hhi|Hhi];
    [unfold Base.tanh_approx; destruct (Z.ltb_spec 3000 x); lia|].
  destruct (Z.ltb_spec x (-3000)) as [Hlo|Hlo].
  { unfold Base.tanh_approx. destruct (Z.ltb_spec 3000 x); [lia|].
    destruct (Z.ltb_spec x (-3000)); lia. }
  assert (forallb (λ x, (-6000 <=? Base.tanh_approx x) && (Base.tanh_approx x <=? 6000))
            (seqZ (-3000) 6001) = true) as Hall by (by vm_compute).
  rewrite forallb_forall in Hall.
  specialize (Hall x ltac:(apply list_elem_of_In, elem_of_seqZ; lia)).
  apply andb_prop in Hall as [H1%Z.leb_le H2%Z.leb_le]. lia.
Qed.

Lemma s16_small x : -32768 ≤ x < 32768 → s16 x = x.
Proof.
  intros. unfold s16, wrap_signed. change (2 ^ (16 - 1)) with 32768.
  change (2 ^ 16) with 65536. rewrite Z.mod_small by lia. lia.
Qed.

Lemma base_sigmoid_approx_range x : 0 ≤ Base.sigmoid_approx x ≤ 1000.
Proof.
  unfold Base.sigmoid_approx. repeat case_match; try lia.
  rewrite u32_small by lia. lia.
Qed.

Lemma base_forward_pass_loop (inputs : list Z) (idxs : list Z) (hidden state : list Z) :
  Forall (λ h, -6000 ≤ h ≤ 6000) state →
  let r := foldl (λ '(hidden, state) i,
                    let h := Base.tanh_approx
                               (s32 (Base.hidden_preactivation inputs (at_index state i) i)) in
                    (<[Z.to_nat i := h]> hidden, <[Z.to_nat i := s16 h]> state))
                 (hidden, state) idxs in
  Forall (λ h, -6000 ≤ h ≤ 6000) (snd r) ∧ length (snd r) = length state.
Proof.
  revert hidden state. induction idxs as [|i idxs IH]; intros hidden state Hst; simpl.
  - done.
  - match goal with |- context [Base.tanh_approx ?a] =>
      pose proof (base_tanh_approx_range a) as Hr; set (h := Base.tanh_approx a) in *
    end.
    destruct (IH (<[Z.to_nat i := h]> hidden) (<[Z.to_nat i := s16 h]> state)) as [IH1 IH2].
    + apply Forall_insert; [done|]. rewrite s16_small by lia. done.
    + split; [exact IH1|]. etrans; [exact IH2|apply length_insert].
Qed.

Lemma base_forward_pass_hidden ca rtt_us :
  Forall (λ h, -6000 ≤ h ≤ 6000) (Base.hidden_state ca) →
  ∃ st, fst (Base.ndm_forward_pass ca rtt_us) = Base.set_hidden_state st ca
        ∧ Forall (λ h, -6000 ≤ h ≤ 6000) st
        ∧ length st = length (Base.hidden_state ca).
Proof.
  intros Hst. unfold Base.ndm_forward_pass.
  pose proof (base_forward_pass_loop (Base.network_inputs ca rtt_us) (indices Base.HIDDEN_SIZE)
                (replicate (Z.to_nat Base.HIDDEN_SIZE) 0) (Base.hidden_state ca) Hst) as Hl.
  cbv zeta in Hl. destruct (foldl _ _ (indices Base.HIDDEN_SIZE)) as [hidden st].
  exists st. by destruct Hl.
Qed.

Lemma base_forward_pass_signal ca rtt_us :
  0 ≤ snd (Base.ndm_forward_pass ca rtt_us) ≤ 1000.
Proof.
  unfold Base.ndm_forward_pass.
  destruct (foldl _ _ (indices Base.HIDDEN_SIZE)) as [hidden st]. cbn [snd].
  case_match; apply base_sigmoid_approx_range.
Qed.

Lemma base_cong_avoid_eq `{tcp_host} tp ca ack acked :
  acked ≠ 0 →
  let ca1 := Base.set_in_slow_start
               (snd_cwnd tp <? Base.ssthresh (Base.recompute_entropy (Base.record_ack tp ca acked)))
               (Base.recompute_entropy (Base.record_ack tp ca acked)) in
  let fp := Base.ndm_forward_pass ca1 (Base.current_rtt_us tp) in
  Base.ndm_tcp_cong_avoid tp ca ack acked
  = (Base.apply_growth tp (fst fp) ack acked (snd fp),
     Base.set_plasticity (Base.decay_plasticity (Base.plasticity (fst fp))) (fst fp)).
Proof.
  intros Hacked ca1 fp. unfold Base.ndm_tcp_cong_avoid.
  destruct (Z.eqb_spec acked 0) as [|_]; [done|]. fold ca1 fp. by destruct fp.
Qed.

Lemma base_record_ack_fields tp ca acked :
  let ca' := Base.record_ack tp ca acked in
  Base.rtt_history ca' = <[Z.to_nat (Base.history_index ca) := base_sample tp]> (Base.rtt_history ca)
  ∧ Base.history_index ca' = u16 ((Base.history_index ca + 1) mod 16)
  ∧ Base.history_count ca'
    = (if Base.history_count ca <? 16 then u16 (Base.history_count ca + 1)
       else Base.history_count ca)
  ∧ Base.min_rtt_us ca' = Z.min (Base.min_rtt_us ca) (Base.current_rtt_us tp)
  ∧ Base.packets_acked ca' = u16 (Base.packets_acked ca + acked)
  ∧ Base.hidden_state ca' = Base.hidden_state ca
  ∧ Base.ssthresh ca' = Base.ssthresh ca
  ∧ Base.prior_cwnd ca' = Base.prior_cwnd ca
  ∧ Base.loss_detected ca' = Base.loss_detected ca
  ∧ Base.congestion_detected ca' = Base.congestion_detected ca.
Proof.
  unfold Base.record_ack, base_sample, Base.ENTROPY_WINDOW_SIZE.
  cbn [Base.min_rtt_us Base.set_packets_acked].
  destruct (Z.ltb_spec (Base.current_rtt_us tp) (Base.min_rtt_us ca));
    cbn [Base.history_count Base.history_index Base.rtt_history Base.set_min_rtt_us
         Base.set_packets_acked Base.set_rtt_history Base.set_history_index];
    (destruct (Z.ltb_spec (Base.history_count ca) 16); cbn; repeat split; try done; lia).
Qed.

Lemma base_record_ack_history tp ca acked :
  base_history_ok ca → base_history_ok (Base.record_ack tp ca acked).
Proof.
  intros (Hlen & Hc & Hi & Hic & Hs).
  destruct (base_record_ack_fields tp ca acked) as (Hh & Hi' & Hc' & _).
  unfold base_history_ok, Base.valid_samples, Base.ENTROPY_WINDOW_SIZE in *.
  rewrite Hh, Hi', Hc'. clear Hh Hi' Hc'.
  assert (0 ≤ base_sample tp < 65536) as Hv by apply u16_range.
  assert (0 ≤ u16 ((Base.history_index ca + 1) mod 16) < 16) as Hidx.
  { pose proof (Z.mod_pos_bound (Base.history_index ca + 1) 16 ltac:(lia)).
    rewrite u16_small by lia. lia. }
  rewrite length_insert.
  destruct (Z.ltb_spec (Base.history_count ca) 16) as [Hlt|Hge].
  - rewrite (u16_small (Base.history_count ca + 1)) by lia.
    split; [done|]. split; [lia|]. split; [done|]. split.
    + intros Hlt'. rewrite Hic by lia. rewrite Z.mod_small by lia. apply u16_small. lia.
    + rewrite Hic by lia.
      replace (Z.to_nat ((Base.history_count ca + 1) `min` 16))
        with (S (Z.to_nat (Base.history_count ca))) by lia.
      rewrite (take_S_r _ _ (base_sample tp)) by (apply list_lookup_insert_eq; lia).
      rewrite take_insert_ge by lia. apply Forall_app. split.
      * by replace (Z.to_nat (Base.history_count ca `min` 16))
          with (Z.to_nat (Base.history_count ca)) in Hs by lia.
      * by apply Forall_singleton.
  - split; [done|]. split; [lia|]. split; [done|]. split; [lia|].
    rewrite take_ge in * by (rewrite ?length_insert; lia).
    by apply Forall_insert.
Qed.

Lemma base_recompute_entropy_fields ca :
  let ca' := Base.recompute_entropy ca in
  Base.rtt_history ca' = Base.rtt_history ca
  ∧ Base.history_index ca' = Base.history_index ca
  ∧ Base.history_count ca' = Base.history_count ca
  ∧ Base.hidden_state ca' = Base.hidden_state ca
  ∧ Base.min_rtt_us ca' = Base.min_rtt_us ca
  ∧ Base.ssthresh ca' = Base.ssthresh ca
  ∧ Base.prior_cwnd ca' = Base.prior_cwnd ca
  ∧ Base.packets_acked ca' = (if 8 <=? Base.packets_acked ca then 0 else Base.packets_acked ca)
  ∧ Base.shannon_entropy ca'
    = (if 8 <=? Base.packets_acked ca then u16 (Base.calculate_entropy ca)
       else Base.shannon_entropy ca).
Proof. unfold Base.recompute_entropy. by case_match. Qed.

Lemma base_history_ok_ext ca ca' :
  Base.rtt_history ca' = Base.rtt_history ca →
  Base.history_index ca' = Base.history_index ca →
  Base.history_count ca' = Base.history_count ca →
  base_history_ok ca → base_history_ok ca'.
Proof.
  unfold base_history_ok, Base.valid_samples. by intros -> -> ->.
Qed.

Lemma base_entropy_of_ring ca :
  base_history_ok ca →
  Base.calculate_entropy ca
  = if (Base.history_count ca <? 8) || all_equal (Base.valid_samples ca) then 0 else 1000.
Proof.
  intros (Hlen & Hc & _ & _ & Hs). apply base_entropy_characterised; [lia|done].
Qed.

Lemma base_entropy_of_ring_values ca :
  base_history_ok ca →
  u16 (Base.calculate_entropy ca) = Base.calculate_entropy ca
  ∧ (Base.calculate_entropy ca = 0 ∨ Base.calculate_entropy ca = 1000).
Proof.
  intros Hok. rewrite (base_entropy_of_ring ca Hok). case_match; split; auto.
Qed.

Lemma base_reachable_state_ok `{tcp_host} ca : Base.reachable ca → base_state_ok ca.
Proof.
  induction 1 as [tp|tp ca ack acked Hr IH|tp ca Hr IH|tp ca Hr IH|ca ev Hr IH|ca st Hr IH].
  - unfold base_state_ok, base_history_ok, Base.valid_samples. cbn.
    repeat split; try lia; try done; try (by left); by apply Forall_replicate.
  - destruct (Z.eq_dec acked 0) as [->|Hne]; [done|].
    destruct IH as (Hh & Hp & He & Hl & Hs).
    rewrite (base_cong_avoid_eq tp ca ack acked Hne). cbn [snd].
    set (ca0 := Base.record_ack tp ca acked).
    set (ca1 := Base.set_in_slow_start _ _).
    destruct (base_record_ack_fields tp ca acked) as (_ & _ & _ & _ & Hpa & Hhs & _).
    fold ca0 in Hpa, Hhs.
    destruct (base_recompute_entropy_fields ca0) as (R1 & R2 & R3 & R4 & _ & _ & _ & R5 & R6).
    pose proof (base_record_ack_history tp ca acked Hh) as Hh0. fold ca0 in Hh0.
    destruct (base_forward_pass_hidden ca1 (Base.current_rtt_us tp)) as (st & -> & Hst & Hlen).
    { subst ca1. cbn. by rewrite R4, Hhs. }
    unfold base_state_ok. cbn. split; [|split; [|split; [|split]]].
    + by apply (base_history_ok_ext ca0).
    + rewrite R5. pose proof (u16_range (Base.packets_acked ca + acked)).
      destruct (Z.leb_spec 8 (Base.packets_acked ca0)); lia.
    + rewrite R6. destruct (base_entropy_of_ring_values ca0 Hh0) as [-> Hv].
      destruct (8 <=? Base.packets_acked ca0); [exact Hv|].
      subst ca0. by destruct (base_record_ack_entropy tp ca acked) as [-> _].
    + rewrite Hlen. subst ca1. cbn. by rewrite R4, Hhs.
    + done.
  - done.
  - done.
  - by destruct ev.
  - by destruct st.
Qed.

Lemma base_repeat_ack_reachable `{tcp_host} n ack acked tp :
  Base.reachable (snd (repeat_ack Base.ndm_tcp_ops n ack acked (Base.ndm_tcp_init tp))).
Proof.
  induction n as [|n IH]; cbn [repeat_ack].
  - apply Base.reach_init.
  - by apply Base.reach_cong_avoid.
Qed.

(** ** Further properties of the base tier *)

(** X1: the entropy estimate of the base tier takes two values only.  On a
    ring whose valid samples are sixteen-bit values it is 0 when fewer than 8
    samples are recorded or all valid samples are equal, and 1000 otherwise:
    the accumulated sum is at least 4000 as soon as two bins are occupied, so
    the final division by 4 always reaches the clamp. *)
Theorem base_entropy_two_valued (ca : Base.ndm_tcp)
    (Hlen : Z.min (Base.history_count ca) 16 ≤ Z.of_nat (length (Base.rtt_history ca)))
    (Hu16 : Forall (λ x, 0 ≤ x < 65536) (Base.valid_samples ca)) :
  Base.calculate_entropy ca
  = if (Base.history_count ca <? 8) || all_equal (Base.valid_samples ca) then 0 else 1000.
Proof. by apply base_entropy_characterised. Qed.

Lemma base_entropy_two_valued_witness :
  let ca := snd (ack_trace (Base.ndm_tcp_ops (H:=linux_host)) 1
                   [80000; 400000; 80000; 400000; 80000; 400000; 80000; 88000]
                   (Base.ndm_tcp_init (fresh_sock 10 0))) in
  Base.valid_samples ca = [10; 50; 10; 50; 10; 50; 10; 11]
  ∧ Base.calculate_entropy ca = 1000.
Proof.
  intros ca.
  assert (Base.valid_samples ca = [10; 50; 10; 50; 10; 50; 10; 11]) as Hs by (by vm_compute).
  split; [exact Hs|].
  rewrite (base_entropy_two_valued ca).
  - rewrite Hs. by vm_compute.
  - by vm_compute.
  - rewrite Hs. repeat constructor; lia.
Defined.

(** X2: in every reachable state of the base tier the RTT ring has sixteen
    slots, the valid count is at most 16, the write index is below 16 and
    equals the count until the ring is full, and the valid samples are
    sixteen-bit values, exactly [history_count] of them. *)
Theorem base_ring_invariant `{tcp_host} (ca : Base.ndm_tcp) (Hreach : Base.reachable ca) :
  length (Base.rtt_history ca) = 16%nat
  ∧ 0 ≤ Base.history_count ca ≤ 16
  ∧ 0 ≤ Base.history_index ca < 16
  ∧ (Base.history_count ca < 16 → Base.history_index ca = Base.history_count ca)
  ∧ Z.of_nat (length (Base.valid_samples ca)) = Base.history_count ca
  ∧ Forall (λ x, 0 ≤ x < 65536) (Base.valid_samples ca).
Proof.
  destruct (base_reachable_state_ok ca Hreach) as ((Hlen & Hc & Hi & Hic & Hs) & _).
  repeat split; try done; try lia.
  unfold Base.valid_samples, Base.ENTROPY_WINDOW_SIZE. rewrite length_take. lia.
Qed.

Lemma base_ring_invariant_witness :
  let ca := snd (repeat_ack (Base.ndm_tcp_ops (H:=linux_host)) 20 0 1
                   (Base.ndm_tcp_init (fresh_sock 10 80000))) in
  Base.history_count ca = 16 ∧ Base.history_index ca = 4
  ∧ Z.of_nat (length (Base.valid_samples ca)) = Base.history_count ca.
Proof.
  intros ca.
  destruct (base_ring_invariant (H:=linux_host) ca (base_repeat_ack_reachable _ _ _ _))
    as (_ & _ & _ & _ & Hn & _).
  split; [by vm_compute|]. split; [by vm_compute|exact Hn].
Defined.

(** X3: the batch counter of the base tier stays below 8 between calls.  An
    acknowledgment that brings it to 8 or more resets it, sets [has_data],
    clears [loss_detected], stores the estimate over the ring as just
    written, which is 0 or 1000, and sets [congestion_detected] exactly when
    that estimate is 0; any other acknowledgment leaves entropy and the three
    flags as they were. *)
Theorem base_batch_step `{tcp_host} (tp : tcp_sock) (ca : Base.ndm_tcp) (ack acked : Z)
    (Hreach : Base.reachable ca) (Hacked : acked ≠ 0) :
  let counter := u16 (Base.packets_acked ca + acked) in
  let ca' := snd (Base.ndm_tcp_cong_avoid tp ca ack acked) in
  0 ≤ Base.packets_acked ca < 8
  ∧ (8 ≤ counter →
       Base.packets_acked ca' = 0
       ∧ Base.has_data ca' = true
       ∧ Base.loss_detected ca' = false
       ∧ Base.shannon_entropy ca' = Base.calculate_entropy (Base.record_ack tp ca acked)
       ∧ (Base.shannon_entropy ca' = 0 ∨ Base.shannon_entropy ca' = 1000)
       ∧ Base.congestion_detected ca' = (Base.shannon_entropy ca' =? 0))
  ∧ (counter < 8 →
       Base.packets_acked ca' = counter
       ∧ Base.has_data ca' = Base.has_data ca
       ∧ Base.loss_detected ca' = Base.loss_detected ca
       ∧ Base.shannon_entropy ca' = Base.shannon_entropy ca
       ∧ Base.congestion_detected ca' = Base.congestion_detected ca).
Proof.
  intros counter ca'.
  destruct (base_reachable_state_ok ca Hreach) as (Hh & Hp & _).
  split; [done|].
  subst ca'. destruct (base_cong_avoid_snd tp ca ack acked Hacked) as [st ->].
  destruct (base_record_ack_fields tp ca acked)
    as (_ & _ & _ & _ & Hpa & _ & _ & _ & Hld & Hcd).
  destruct (base_record_ack_entropy tp ca acked) as [Hen Hhd].
  pose proof (base_record_ack_history tp ca acked Hh) as Hh0.
  destruct (base_entropy_of_ring_values _ Hh0) as [Hu Hv].
  fold counter in Hpa. split.
  - intros Hb. rewrite base_recompute_entropy_batch by lia. cbn. rewrite Hu.
    repeat split; try done.
    destruct Hv as [-> | ->]; reflexivity.
  - intros Hb. unfold Base.recompute_entropy.
    destruct (Z.leb_spec 8 (Base.packets_acked (Base.record_ack tp ca acked))); [lia|].
    cbn. by rewrite Hpa, Hen, Hhd, Hld, Hcd.
Qed.

Lemma base_batch_step_witness :
  let tp := fresh_sock 10 80000 in
  let ca := snd (Base.ndm_tcp_init tp) in
  Base.packets_acked (snd (Base.ndm_tcp_cong_avoid (H:=linux_host) tp ca 0 3)) = 3
  ∧ Base.has_data (snd (Base.ndm_tcp_cong_avoid (H:=linux_host) tp ca 0 3)) = false.
Proof.
  intros tp ca.
  destruct (base_batch_step (H:=linux_host) tp ca 0 3 (Base.reach_init tp) ltac:(lia))
    as (_ & _ & Hs).
  destruct (Hs ltac:(by vm_compute)) as (Hp & Hd & _).
  rewrite Hp, Hd. by vm_compute.
Defined.

(** X4: the growth signal the network of the base tier returns lies between
    0 and 1000, whatever the state and the RTT. *)
Theorem base_growth_signal_range (ca : Base.ndm_tcp) (rtt_us x : Z) :
  0 ≤ snd (Base.ndm_forward_pass ca rtt_us) ≤ 1000
  ∧ 0 ≤ Base.sigmoid_approx x ≤ 1000.
Proof. split; [apply base_forward_pass_signal|apply base_sigmoid_approx_range]. Qed.

(** X5: [tanh_approx] stays within 6000 in magnitude, so in every reachable
    state of the base tier the eight hidden activations lie between -6000 and
    6000 and the sixteen-bit store of an activation never wraps. *)
Theorem base_hidden_state_bound `{tcp_host} (ca : Base.ndm_tcp) (x : Z)
    (Hreach : Base.reachable ca) :
  -6000 ≤ Base.tanh_approx x ≤ 6000
  ∧ s16 (Base.tanh_approx x) = Base.tanh_approx x
  ∧ length (Base.hidden_state ca) = 8%nat
  ∧ Forall (λ h, -6000 ≤ h ≤ 6000) (Base.hidden_state ca).
Proof.
  destruct (base_reachable_state_ok ca Hreach) as (_ & _ & _ & Hl & Hs).
  pose proof (base_tanh_approx_range x).
  repeat split; try done; try lia. apply s16_small. lia.
Qed.

Lemma base_hidden_state_bound_witness :
  let tp := fresh_sock 10 80000 in
  let ca := snd (Base.ndm_tcp_cong_avoid (H:=linux_host) tp (snd (Base.ndm_tcp_init tp)) 0 1) in
  Forall (λ h, -6000 ≤ h ≤ 6000) (Base.hidden_state ca).
Proof.
  intros tp ca.
  exact (proj2 (proj2 (proj2 (base_hidden_state_bound (H:=linux_host) ca 0
                                (Base.reach_cong_avoid tp _ 0 1 (Base.reach_init tp)))))).
Defined.

(** X6: reduce followed by undo is a round trip on the window.  After a
    reduction request at a window [w] of at least 2 segments, an undo issued
    at any window not above [w] restores exactly [w], returns it and leaves
    the connection out of slow start, since the stored threshold is at most
    [w]. *)
Theorem base_reduce_undo_round_trip (tp tp' : tcp_sock) (ca : Base.ndm_tcp)
    (Hw : 2 ≤ snd_cwnd tp) (Hlow : snd_cwnd tp' ≤ snd_cwnd tp) :
  let reduced := Base.ndm_tcp_ssthresh tp ca in
  let r := Base.ndm_tcp_undo_cwnd tp' (fst reduced) in
  snd reduced ≤ snd_cwnd tp
  ∧ snd_cwnd (fst (fst r)) = snd_cwnd tp
  ∧ snd r = snd_cwnd tp
  ∧ Base.in_slow_start (snd (fst r)) = false
  ∧ Base.ssthresh (snd (fst r)) = snd reduced.
Proof.
  intros reduced r. subst r reduced. unfold Base.ndm_tcp_undo_cwnd, Base.ndm_tcp_ssthresh. cbn.
  set (d := if Base.has_data ca then _ else 2).
  assert (d = 2 ∨ d = 3) as Hd by (subst d; repeat case_match; auto).
  assert (snd_cwnd tp / d ≤ snd_cwnd tp).
  { destruct Hd as [-> | ->]; apply Z.div_le_upper_bound; lia. }
  repeat split; lia.
Qed.

Lemma base_reduce_undo_round_trip_witness :
  let tp := fresh_sock 100 80000 in
  let reduced := Base.ndm_tcp_ssthresh tp (snd (Base.ndm_tcp_init tp)) in
  snd (Base.ndm_tcp_undo_cwnd (set_snd_cwnd 50 tp) (fst reduced)) = 100.
Proof.
  intros tp reduced.
  exact (proj1 (proj2 (proj2 (base_reduce_undo_round_trip tp (set_snd_cwnd 50 tp)
                                (snd (Base.ndm_tcp_init tp)) ltac:(by vm_compute)
                                ltac:(by vm_compute))))).
Defined.

(** X7: at the same window, a reduction request under high entropy never
    yields a larger threshold than one under low entropy: the divisor 3 keeps
    a third of the window where the divisor 2 keeps half, and from a window of
    6 segments on the high-entropy threshold is strictly smaller.  Base tier
    (with [has_data] set) and optimized tier. *)
Theorem reduce_high_entropy_keeps_less (tp : tcp_sock) (hi lo : Base.ndm_tcp)
    (ohi olo : Optimized.ndm_tcp)
    (Hw : 0 ≤ snd_cwnd tp)
    (Hdata : Base.has_data hi = true)
    (Hhi : Base.ENTROPY_THRESHOLD < Base.shannon_entropy hi)
    (Hlo : Base.shannon_entropy lo ≤ Base.ENTROPY_THRESHOLD)
    (Hohi : Optimized.ENTROPY_THRESHOLD < Optimized.shannon_entropy ohi)
    (Holo : Optimized.shannon_entropy olo ≤ Optimized.ENTROPY_THRESHOLD) :
  snd (Base.ndm_tcp_ssthresh tp hi) = Z.max (snd_cwnd tp / 3) 2
  ∧ snd (Base.ndm_tcp_ssthresh tp lo) = Z.max (snd_cwnd tp / 2) 2
  ∧ snd (Base.ndm_tcp_ssthresh tp hi) ≤ snd (Base.ndm_tcp_ssthresh tp lo)
  ∧ snd (Optimized.ndm_tcp_ssthresh tp ohi) ≤ snd (Optimized.ndm_tcp_ssthresh tp olo)
  ∧ (6 ≤ snd_cwnd tp →
       snd (Base.ndm_tcp_ssthresh tp hi) < snd (Base.ndm_tcp_ssthresh tp lo)
       ∧ snd (Optimized.ndm_tcp_ssthresh tp ohi) < snd (Optimized.ndm_tcp_ssthresh tp olo)).
Proof.
  unfold Base.ndm_tcp_ssthresh, Optimized.ndm_tcp_ssthresh. cbn. rewrite Hdata.
  destruct (Z.ltb_spec Base.ENTROPY_THRESHOLD (Base.shannon_entropy hi)); [|lia].
  destruct (Z.ltb_spec Optimized.ENTROPY_THRESHOLD (Optimized.shannon_entropy ohi)); [|lia].
  destruct (Z.ltb_spec Optimized.ENTROPY_THRESHOLD (Optimized.shannon_entropy olo)); [lia|].
  assert ((if Base.has_data lo
           then if Base.ENTROPY_THRESHOLD <? Base.shannon_entropy lo then 3 else 2
           else 2) = 2) as ->.
  { destruct (Z.ltb_spec Base.ENTROPY_THRESHOLD (Base.shannon_entropy lo)); [lia|].
    by destruct (Base.has_data lo). }
  assert (snd_cwnd tp / 3 ≤ snd_cwnd tp / 2) as Hle.
  { apply Z.div_le_lower_bound; [lia|]. pose proof (Z.mul_div_le (snd_cwnd tp) 3). lia. }
  repeat split; try lia.
  - assert (snd_cwnd tp / 3 < snd_cwnd tp / 2 ∧ 2 ≤ snd_cwnd tp / 3 ∧ 2 < snd_cwnd tp / 2); [|lia].
    pose proof (Z.div_mod (snd_cwnd tp) 3 ltac:(lia)).
    pose proof (Z.div_mod (snd_cwnd tp) 2 ltac:(lia)).
    pose proof (Z.mod_pos_bound (snd_cwnd tp) 3 ltac:(lia)).
    pose proof (Z.mod_pos_bound (snd_cwnd tp) 2 ltac:(lia)). lia.
  - assert (snd_cwnd tp / 3 < snd_cwnd tp / 2 ∧ 2 ≤ snd_cwnd tp / 3 ∧ 2 < snd_cwnd tp / 2); [|lia].
    pose proof (Z.div_mod (snd_cwnd tp) 3 ltac:(lia)).
    pose proof (Z.div_mod (snd_cwnd tp) 2 ltac:(lia)).
    pose proof (Z.mod_pos_bound (snd_cwnd tp) 3 ltac:(lia)).
    pose proof (Z.mod_pos_bound (snd_cwnd tp) 2 ltac:(lia)). lia.
Qed.

Lemma reduce_high_entropy_keeps_less_witness :
  let tp := fresh_sock 100 80000 in
  let hi := snd (ack_trace (Base.ndm_tcp_ops (H:=linux_host)) 1
                   [80000; 400000; 80000; 400000; 80000; 400000; 80000; 400000]
                   (Base.ndm_tcp_init (fresh_sock 10 0))) in
  let lo := snd (Base.ndm_tcp_init tp) in
  let ohi := snd (ack_trace (Optimized.ndm_tcp_ops (H:=linux_host)) 2 rising_rtts
                    (Optimized.ndm_tcp_init (fresh_sock 10 0))) in
  let olo := snd (Optimized.ndm_tcp_init tp) in
  snd (Base.ndm_tcp_ssthresh tp hi) = 33 ∧ snd (Base.ndm_tcp_ssthresh tp lo) = 50
  ∧ snd (Optimized.ndm_tcp_ssthresh tp ohi) < snd (Optimized.ndm_tcp_ssthresh tp olo).
Proof.
  intros tp hi lo ohi olo.
  assert (0 ≤ snd_cwnd tp) as H0 by (by vm_compute).
  assert (Base.has_data hi = true) as H1 by (by vm_compute).
  assert (Base.ENTROPY_THRESHOLD < Base.shannon_entropy hi) as H2 by (by vm_compute).
  assert (Base.shannon_entropy lo ≤ Base.ENTROPY_THRESHOLD) as H3 by (by vm_compute).
  assert (Optimized.ENTROPY_THRESHOLD < Optimized.shannon_entropy ohi) as H4 by (by vm_compute).
  assert (Optimized.shannon_entropy olo ≤ Optimized.ENTROPY_THRESHOLD) as H5 by (by vm_compute).
  assert (6 ≤ snd_cwnd tp) as H6 by (by vm_compute).
  pose proof (reduce_high_entropy_keeps_less tp hi lo ohi olo H0 H1 H2 H3 H4 H5)
    as (Hhi & Hlo & _ & _ & Hstrict).
  split; [exact Hhi|]. split; [exact Hlo|]. exact (proj2 (Hstrict H6)).
Defined.

(** X8: what an acknowledgment of at least one segment does to the tracker
    of the base tier.  With a smoothed RTT that is not negative, the RTT it
    works with is at least one microsecond, the stored minimum becomes the
    smaller of the old minimum and that RTT, the sample written at the write
    index lies between 1 and 65535 milliseconds, the stored threshold and
    [prior_cwnd] are not touched, and [in_slow_start] is recomputed as window
    below stored threshold. *)
Theorem base_ack_tracker `{tcp_host} (tp : tcp_sock) (ca : Base.ndm_tcp) (ack acked : Z)
    (Hacked : acked ≠ 0) (Hsrtt : 0 ≤ srtt_us tp) :
  let rtt := Base.current_rtt_us tp in
  let ca' := snd (Base.ndm_tcp_cong_avoid tp ca ack acked) in
  rtt = Z.max 1 (srtt_us tp / 8)
  ∧ Base.min_rtt_us ca' = Z.min (Base.min_rtt_us ca) rtt
  ∧ Base.rtt_history ca'
    = <[Z.to_nat (Base.history_index ca) := base_sample tp]> (Base.rtt_history ca)
  ∧ base_sample tp = Z.max 1 (Z.min (rtt / 1000) 65535)
  ∧ 1 ≤ base_sample tp ≤ 65535
  ∧ Base.ssthresh ca' = Base.ssthresh ca
  ∧ Base.prior_cwnd ca' = Base.prior_cwnd ca
  ∧ Base.in_slow_start ca' = (snd_cwnd tp <? Base.ssthresh ca).
Proof.
  intros rtt ca'.
  assert (rtt = Z.max 1 (srtt_us tp / 8)) as Hrtt.
  { subst rtt. unfold Base.current_rtt_us. rewrite Z.shiftr_div_pow2 by lia.
    change (2 ^ 3) with 8. pose proof (Z.div_pos (srtt_us tp) 8 Hsrtt ltac:(lia)).
    destruct (Z.eqb_spec (srtt_us tp / 8) 0); lia. }
  assert (0 ≤ rtt / 1000) as Hms by (apply Z.div_pos; lia).
  assert (base_sample tp = Z.max 1 (Z.min (rtt / 1000) 65535)) as Hsample.
  { unfold base_sample. fold rtt. cbv zeta.
    destruct (Z.eqb_spec (Z.min (rtt / 1000) 65535) 0) as [->|Hne]; [done|].
    rewrite u16_small by lia. lia. }
  subst ca'. destruct (base_cong_avoid_snd tp ca ack acked Hacked) as [st ->].
  destruct (base_record_ack_fields tp ca acked)
    as (Hh & _ & _ & Hm & _ & _ & Hss & Hpc & _).
  destruct (base_recompute_entropy_fields (Base.record_ack tp ca acked))
    as (R1 & _ & _ & _ & R2 & R3 & R4 & _).
  cbn. rewrite R1, R2, R3, R4, Hh, Hm, Hss, Hpc. fold rtt.
  repeat split; try done; lia.
Qed.

Lemma base_ack_tracker_witness :
  let tp := fresh_sock 10 0 in
  let ca' := snd (Base.ndm_tcp_cong_avoid (H:=linux_host) tp (snd (Base.ndm_tcp_init tp)) 0 1) in
  Base.min_rtt_us ca' = 1 ∧ Base.rtt_history ca' = 1 :: replicate 15 0.
Proof.
  intros tp ca'.
  destruct (base_ack_tracker (H:=linux_host) tp (snd (Base.ndm_tcp_init tp)) 0 1
              ltac:(lia) ltac:(by vm_compute)) as (_ & Hm & Hh & _).
  subst ca'. rewrite Hm, Hh. by vm_compute.
Defined.

(** ** Reachable states of the optimized tier *)

Lemma land_63_range x : 0 ≤ Z.land x 63 < 64.
Proof.
  change 63 with (Z.ones 6). rewrite Z.land_ones by lia.
  apply Z.mod_pos_bound. lia.
Qed.

Lemma optimized_fast_tanh_range x : -1024 ≤ Optimized.fast_tanh x ≤ 1024.
Proof.
  unfold Optimized.fast_tanh. repeat case_match; try lia.
  pose proof (land_63_range (Z.shiftr (x + 3072) 6)) as Hi.
  assert (forallb (λ i, (-1024 <=? at_index Optimized.TANH_LUT i)
                        && (at_index Optimized.TANH_LUT i <=? 1024)) (seqZ 0 64) = true)
    as Hall by (by vm_compute).
  rewrite forallb_forall in Hall.
  specialize (Hall _ ltac:(apply list_elem_of_In, elem_of_seqZ; exact Hi)).
  apply andb_prop in Hall as [H1%Z.leb_le H2%Z.leb_le]. lia.
Qed.

Lemma optimized_fast_sigmoid_range x : 0 ≤ Optimized.fast_sigmoid x ≤ 1024.
Proof.
  unfold Optimized.fast_sigmoid. repeat case_match; try lia.
  pose proof (land_63_range (Z.shiftr (x + 3072) 6)) as Hi.
  assert (forallb (λ i, (0 <=? at_index Optimized.SIGMOID_LUT i)
                        && (at_index Optimized.SIGMOID_LUT i <=? 1024)) (seqZ 0 64) = true)
    as Hall by (by vm_compute).
  rewrite forallb_forall in Hall.
  specialize (Hall _ ltac:(apply list_elem_of_In, elem_of_seqZ; exact Hi)).
  apply andb_prop in Hall as [H1%Z.leb_le H2%Z.leb_le]. lia.
Qed.

Lemma optimized_forward_pass_loop (input_vec : list Z) (idxs : list Z) (state : list Z) :
  Forall (λ h, -1024 ≤ h ≤ 1024) state →
  let r := foldl (λ state i,
                    let val := Z.shiftr (s32 (Optimized.hidden_accum input_vec i
                                              + at_index state i * Optimized.RECURRENT_WEIGHT))
                                 Optimized.SCALE_SHIFT in
                    <[Z.to_nat i := Optimized.fast_tanh val]> state)
                 state idxs in
  Forall (λ h, -1024 ≤ h ≤ 1024) r ∧ length r = length state.
Proof.
  revert state. induction idxs as [|i idxs IH]; intros state Hst; simpl; [done|].
  match goal with |- context [Optimized.fast_tanh ?a] =>
    pose proof (optimized_fast_tanh_range a) as Hr; set (h := Optimized.fast_tanh a) in *
  end.
  destruct (IH (<[Z.to_nat i := h]> state)) as [IH1 IH2].
  - by apply Forall_insert.
  - split; [exact IH1|]. etrans; [exact IH2|apply length_insert].
Qed.

Lemma optimized_forward_pass_spec ca rtt_us :
  Forall (λ h, -1024 ≤ h ≤ 1024) (Optimized.hidden_state ca) →
  ∃ st, fst (Optimized.ndm_forward_pass_opt ca rtt_us) = Optimized.set_hidden_state st ca
        ∧ Forall (λ h, -1024 ≤ h ≤ 1024) st
        ∧ length st = length (Optimized.hidden_state ca)
        ∧ 0 ≤ snd (Optimized.ndm_forward_pass_opt ca rtt_us) ≤ 1024.
Proof.
  intros Hst. unfold Optimized.ndm_forward_pass_opt.
  pose proof (optimized_forward_pass_loop (Optimized.network_inputs ca rtt_us)
                (indices Optimized.HIDDEN_SIZE) (Optimized.hidden_state ca) Hst) as Hl.
  cbv zeta in Hl. set (st := foldl _ (Optimized.hidden_state ca) _) in *.
  exists st. destruct Hl as [Hl1 Hl2]. cbn [fst snd].
  split; [done|]. split; [done|]. split; [done|].
  case_match; apply optimized_fast_sigmoid_range.
Qed.

Lemma optimized_decay_bounds p :
  100 ≤ p ≤ 1024 →
  Optimized.decay_plasticity p = Z.max 100 (p * 1018 / 1024)
  ∧ 100 ≤ Optimized.decay_plasticity p ≤ p.
Proof.
  intros Hp. unfold Optimized.decay_plasticity, Optimized.PLASTICITY_DECAY.
  rewrite u32_small by lia. rewrite Z.shiftr_div_pow2 by lia. change (2 ^ 10) with 1024.
  assert (0 ≤ p * 1018 / 1024 ≤ p) as Hq.
  { split; [apply Z.div_pos; lia|]. apply Z.div_le_upper_bound; lia. }
  rewrite u16_small by lia.
  destruct (Z.ltb_spec (p * 1018 / 1024) 100); lia.
Qed.

(** Every histogram entry of a window of at most eight samples adds at most
    375 per sample to the score. *)
Lemma optimized_lut_bounds h :
  0 ≤ h ≤ 8 → 0 ≤ at_index Optimized.ENTROPY_LUT h ≤ 375 * h.
Proof.
  intros Hh.
  assert (forallb (λ h, (0 <=? at_index Optimized.ENTROPY_LUT h)
                        && (at_index Optimized.ENTROPY_LUT h <=? 375 * h)) (seqZ 0 9) = true)
    as Hall by (by vm_compute).
  rewrite forallb_forall in Hall.
  specialize (Hall h ltac:(apply list_elem_of_In, elem_of_seqZ; lia)).
  apply andb_prop in Hall as [H1%Z.leb_le H2%Z.leb_le]. lia.
Qed.

Lemma optimized_bin_of_range min_val scale x : 0 ≤ Optimized.bin_of min_val scale x ≤ 7.
Proof.
  unfold Optimized.bin_of.
  assert (0 ≤ Z.shiftr (u32 (u32 (x - min_val) * scale)) 16).
  { apply Z.shiftr_nonneg. apply u32_range. }
  case_match; lia.
Qed.

Lemma optimized_histogram_total min_val scale (l : list Z) (h0 : list Z) :
  length h0 = 8%nat → Forall (λ c, 0 ≤ c) h0 →
  total_of h0 + Z.of_nat (length l) < 4294967295 →
  let h := foldl (λ h x, Optimized.bump (Optimized.bin_of min_val scale x) h) h0 l in
  length h = 8%nat ∧ Forall (λ c, 0 ≤ c) h ∧ total_of h = total_of h0 + Z.of_nat (length l).
Proof.
  revert h0. induction l as [|x l IH]; intros h0 Hlen Hall Hsum; simpl.
  - split; [done|]. split; [done|]. lia.
  - pose proof (optimized_bin_of_range min_val scale x) as Hb.
    destruct (total_of_bump h0 (Z.to_nat (Optimized.bin_of min_val scale x))
                ltac:(lia) Hall ltac:(simpl in Hsum; lia)) as [Ht Hall'].
    destruct (IH (Optimized.bump (Optimized.bin_of min_val scale x) h0)) as (Hl' & Ha' & Ht').
    + unfold Optimized.bump. by rewrite length_alter.
    + exact Hall'.
    + unfold Optimized.bump. rewrite Ht. simpl in Hsum. lia.
    + split; [done|]. split; [done|]. rewrite Ht'. unfold Optimized.bump. rewrite Ht.
      simpl. lia.
Qed.

Lemma optimized_entropy_accumulate (hist : list Z) e0 :
  Forall (λ h, 0 ≤ h ≤ 8) hist → 0 ≤ e0 → e0 + 375 * total_of hist < 4294967296 →
  let e := foldl (λ entropy h, if h =? 0 then entropy
                               else u32 (entropy + at_index Optimized.ENTROPY_LUT h))
                 e0 hist in
  e0 ≤ e ≤ e0 + 375 * total_of hist.
Proof.
  revert e0. induction hist as [|h hist IH]; intros e0 Hall He Hfit; cbn [foldl].
  - change (total_of []) with 0. lia.
  - apply Forall_cons in Hall as [Hh Hall]. rewrite total_of_cons in *.
    assert (0 ≤ total_of hist).
    { apply total_of_nonneg. eapply Forall_impl; [exact Hall|]. cbv beta. lia. }
    pose proof (optimized_lut_bounds h Hh) as Hl.
    destruct (Z.eqb_spec h 0) as [->|Hne].
    + destruct (IH e0 Hall He ltac:(lia)). lia.
    + rewrite u32_small by lia.
      destruct (IH (e0 + at_index Optimized.ENTROPY_LUT h) Hall ltac:(lia) ltac:(lia)). lia.
Qed.

Lemma optimized_entropy_bound ca :
  (length (Optimized.valid_samples ca) ≤ 8)%nat →
  0 ≤ Optimized.calculate_entropy_fast ca ≤ 375 * Z.of_nat (length (Optimized.valid_samples ca)).
Proof.
  intros Hn. unfold Optimized.calculate_entropy_fast.
  case_match; [lia|].
  match goal with |- context [foldl (λ h x, Optimized.bump (Optimized.bin_of ?m ?s x) h) _ _] =>
    destruct (optimized_histogram_total m s (Optimized.valid_samples ca) (replicate 8 0))
      as (Hhl & Hha & Hht)
  end.
  { apply length_replicate. }
  { by apply Forall_replicate. }
  { change (total_of (replicate 8 0)) with 0. lia. }
  change (total_of (replicate 8 0)) with 0 in Hht.
  match goal with |- context [foldl ?f 0 ?hist] =>
    pose proof (optimized_entropy_accumulate hist 0) as Hacc; cbv zeta in Hacc
  end.
  rewrite Hht in Hacc. apply Hacc; [|lia|lia].
  apply Forall_forall. intros h Hh.
  match type of Hh with h ∈ ?hist => pose proof (total_of_nonneg_member hist h Hha Hh) end.
  lia.
Qed.

Lemma optimized_stage_fields tp ca acked :
  let ca0 := Optimized.record_ack tp ca acked in
  let ca1 := Optimized.update_slow_start tp (Optimized.recompute_entropy ca0) in
  let counter := u16 (Optimized.packets_acked ca + acked) in
  length (Optimized.rtt_history ca0) = length (Optimized.rtt_history ca)
  ∧ length (Optimized.rtt_history ca1) = length (Optimized.rtt_history ca)
  ∧ Optimized.packets_acked ca1 = (if 16 <=? counter then 0 else counter)
  ∧ Optimized.shannon_entropy ca1
    = (if 16 <=? counter then u16 (Optimized.calculate_entropy_fast ca0)
       else Optimized.shannon_entropy ca).
Proof.
  unfold Optimized.update_slow_start, Optimized.recompute_entropy, Optimized.record_ack.
  cbn [Optimized.min_rtt_us Optimized.set_packets_acked].
  destruct (Z.ltb_spec (Optimized.current_rtt_us tp) (Optimized.min_rtt_us ca));
    cbn [Optimized.history_count Optimized.history_index Optimized.rtt_history
         Optimized.set_min_rtt_us Optimized.set_packets_acked Optimized.set_rtt_history
         Optimized.set_history_index];
    (destruct (Z.ltb_spec (Optimized.history_count ca) Optimized.ENTROPY_WINDOW_SIZE);
     cbn [Optimized.packets_acked Optimized.set_history_count Optimized.set_history_index
          Optimized.set_rtt_history Optimized.set_min_rtt_us Optimized.set_packets_acked];
     (destruct (16 <=? u16 (Optimized.packets_acked ca + acked));
      repeat case_match; cbn; rewrite ?length_insert; done)).
Qed.

Lemma optimized_growth_signal_spec ca rtt_us :
  Forall (λ h, -1024 ≤ h ≤ 1024) (Optimized.hidden_state ca) →
  0 ≤ Optimized.cached_cwnd_delta ca ≤ 1024 →
  let gs := Optimized.growth_signal ca rtt_us in
  Optimized.plasticity (fst gs) = Optimized.plasticity ca
  ∧ Optimized.shannon_entropy (fst gs) = Optimized.shannon_entropy ca
  ∧ Optimized.packets_acked (fst gs) = Optimized.packets_acked ca
  ∧ Optimized.rtt_history (fst gs) = Optimized.rtt_history ca
  ∧ Optimized.cached_cwnd_delta (fst gs) = snd gs
  ∧ 0 ≤ snd gs ≤ 1024
  ∧ length (Optimized.hidden_state (fst gs)) = length (Optimized.hidden_state ca)
  ∧ Forall (λ h, -1024 ≤ h ≤ 1024) (Optimized.hidden_state (fst gs)).
Proof.
  intros Hst Hc. unfold Optimized.growth_signal.
  destruct (Optimized.may_skip ca); [by cbn|].
  destruct (optimized_forward_pass_spec ca rtt_us Hst) as (st & Hfp & Hst' & Hlen & Hsig).
  destruct (Optimized.ndm_forward_pass_opt ca rtt_us) as [ca' delta].
  cbn [fst snd] in *. subst ca'. by cbn.
Qed.

Lemma optimized_reachable_state_ok `{tcp_host} ca :
  Optimized.reachable ca → optimized_state_ok ca.
Proof.
  induction 1 as [tp|tp ca ack acked Hr IH|tp ca Hr IH|tp ca Hr IH|ca ev Hr IH|ca st Hr IH].
  - unfold optimized_state_ok. cbn. unfold Optimized.BASE_PLASTICITY.
    repeat split; try lia; try done. by apply Forall_replicate.
  - destruct (Z.eq_dec acked 0) as [->|Hne]; [done|].
    destruct IH as (Hlen & Hp & He & Hpl & Hc & Hhl & Hhs).
    rewrite (optimized_cong_avoid_eq tp ca ack acked Hne). cbn [snd].
    destruct (optimized_stage_fields tp ca acked) as (L0 & L1 & P1 & E1).
    destruct (optimized_stage_frame tp ca acked) as (F1 & _ & F2 & F3).
    set (ca0 := Optimized.record_ack tp ca acked) in *.
    set (ca1 := Optimized.update_slow_start tp (Optimized.recompute_entropy ca0)) in *.
    destruct (optimized_growth_signal_spec ca1 (Optimized.current_rtt_us tp))
      as (G1 & G2 & G3 & G4 & G5 & G6 & G7 & G8).
    { by rewrite F3. } { by rewrite F2. }
    set (gs := Optimized.growth_signal ca1 _) in *.
    unfold optimized_state_ok. cbn. rewrite G1, G2, G3, G4, G5, G7, F1, F3, L1, P1, E1.
    pose proof (u16_range (Optimized.packets_acked ca + acked)).
    destruct (optimized_decay_bounds (Optimized.plasticity ca) Hpl) as [_ Hd].
    split; [done|]. split; [case_match; lia|].
    split; [|split; [lia|split; [lia|split; [lia|done]]]].
    destruct (Z.leb_spec 16 (u16 (Optimized.packets_acked ca + acked))); [|done].
    assert (length (Optimized.valid_samples ca0) ≤ 8)%nat as Hn.
    { unfold Optimized.valid_samples. rewrite length_take. lia. }
    pose proof (optimized_entropy_bound ca0 Hn). rewrite u16_small by lia. lia.
  - destruct IH as (Hlen & Hp & He & Hpl & Hc & Hhl & Hhs).
    unfold optimized_state_ok. cbn. rewrite (u32_small (Optimized.plasticity ca + 100)) by lia.
    rewrite u16_small by lia. repeat split; try done; lia.
  - destruct IH as (Hlen & Hp & He & Hpl & Hc & Hhl & Hhs).
    unfold optimized_state_ok, Optimized.ndm_tcp_undo_cwnd. cbn. by case_match.
  - destruct ev; try done. destruct IH as (Hlen & Hp & He & Hpl & Hc & Hhl & Hhs).
    unfold optimized_state_ok, Optimized.BASE_PLASTICITY. cbn. repeat split; try done; lia.
  - destruct st; try done. destruct IH as (Hlen & Hp & He & Hpl & Hc & Hhl & Hhs).
    unfold optimized_state_ok. cbn. rewrite u16_small by lia. repeat split; try done; lia.
Qed.

(** ** Further properties of the optimized tier *)

(** X9: in the optimized tier the plasticity of every reachable state lies
    between 100 and 1024.  An acknowledgment decays it to
    [max 100 (p * 1018 / 1024)], never above the old value; a reduction
    request adds 100 and a forced loss state adds 150, both capped at 1024;
    an idle restart returns it to 307. *)
Theorem optimized_plasticity_bounds `{tcp_host} (tp : tcp_sock) (ca : Optimized.ndm_tcp)
    (ack acked : Z) (Hreach : Optimized.reachable ca) (Hacked : acked ≠ 0) :
  let p := Optimized.plasticity ca in
  100 ≤ p ≤ 1024
  ∧ Optimized.plasticity (snd (Optimized.ndm_tcp_cong_avoid tp ca ack acked))
    = Z.max 100 (p * 1018 / 1024)
  ∧ Z.max 100 (p * 1018 / 1024) ≤ p
  ∧ Optimized.plasticity (fst (Optimized.ndm_tcp_ssthresh tp ca)) = Z.min 1024 (p + 100)
  ∧ Optimized.plasticity (Optimized.ndm_tcp_set_state ca TCP_CA_Loss) = Z.min 1024 (p + 150)
  ∧ Optimized.plasticity (Optimized.ndm_tcp_cwnd_event ca CA_EVENT_CWND_RESTART) = 307.
Proof.
  intros p.
  destruct (optimized_reachable_state_ok ca Hreach) as (_ & _ & _ & Hp & Hc & _ & Hhs).
  fold p in Hp. destruct (optimized_decay_bounds p Hp) as [Hd1 Hd2].
  split; [done|]. split.
  { rewrite (optimized_cong_avoid_eq tp ca ack acked Hacked). cbn [snd Optimized.plasticity
      Optimized.set_plasticity].
    destruct (optimized_stage_frame tp ca acked) as (F1 & _ & F2 & F3).
    destruct (optimized_growth_signal_spec
                (Optimized.update_slow_start tp
                   (Optimized.recompute_entropy (Optimized.record_ack tp ca acked)))
                (Optimized.current_rtt_us tp)) as (G1 & _).
    { by rewrite F3. } { by rewrite F2. }
    by rewrite G1, F1. }
  split; [lia|]. cbn. fold p.
  rewrite (u32_small (p + 100)), !u16_small by lia. done.
Qed.

Lemma optimized_plasticity_bounds_witness :
  let tp := fresh_sock 10 80000 in
  let ca := optimized_after_losses 5 tp in
  Optimized.plasticity ca = 807
  ∧ Optimized.plasticity (snd (Optimized.ndm_tcp_cong_avoid (H:=linux_host) tp ca 0 1)) = 802.
Proof.
  intros tp ca.
  destruct (optimized_plasticity_bounds (H:=linux_host) tp ca 0 1
              (optimized_after_losses_reachable 5 tp) ltac:(lia)) as (_ & Hd & _).
  split; [by vm_compute|]. rewrite Hd. by vm_compute.
Defined.

(** X10: the table activations of the optimized tier are bounded:
    [fast_tanh] by 1024 in magnitude and [fast_sigmoid] by 0 and 1024.  Hence
    in every reachable state the four hidden activations lie between -1024
    and 1024 and the cached growth signal between 0 and 1024; and after every
    acknowledgment of at least one segment the cache holds the very signal
    that drove the window growth of that acknowledgment. *)
Theorem optimized_signal_bounds `{tcp_host} (tp : tcp_sock) (ca : Optimized.ndm_tcp)
    (ack acked x : Z) (Hreach : Optimized.reachable ca) (Hacked : acked ≠ 0) :
  let r := Optimized.ndm_tcp_cong_avoid tp ca ack acked in
  -1024 ≤ Optimized.fast_tanh x ≤ 1024
  ∧ 0 ≤ Optimized.fast_sigmoid x ≤ 1024
  ∧ length (Optimized.hidden_state ca) = 4%nat
  ∧ Forall (λ h, -1024 ≤ h ≤ 1024) (Optimized.hidden_state ca)
  ∧ 0 ≤ Optimized.cached_cwnd_delta ca ≤ 1024
  ∧ fst r = Optimized.apply_growth tp (snd r) ack acked (Optimized.cached_cwnd_delta (snd r)).
Proof.
  intros r.
  destruct (optimized_reachable_state_ok ca Hreach) as (_ & _ & _ & _ & Hc & Hl & Hhs).
  split; [apply optimized_fast_tanh_range|]. split; [apply optimized_fast_sigmoid_range|].
  split; [done|]. split; [done|]. split; [done|].
  subst r. rewrite (optimized_cong_avoid_eq tp ca ack acked Hacked). cbn [fst snd].
  destruct (optimized_stage_frame tp ca acked) as (_ & _ & F2 & F3).
  destruct (optimized_growth_signal_spec
              (Optimized.update_slow_start tp
                 (Optimized.recompute_entropy (Optimized.record_ack tp ca acked)))
              (Optimized.current_rtt_us tp)) as (_ & _ & _ & _ & G5 & _).
  { by rewrite F3. } { by rewrite F2. }
  cbn [Optimized.cached_cwnd_delta Optimized.set_plasticity]. rewrite G5. reflexivity.
Qed.

Lemma optimized_signal_bounds_witness :
  let tp := fresh_sock 10 80000 in
  let r := Optimized.ndm_tcp_cong_avoid (H:=linux_host) tp (snd (Optimized.ndm_tcp_init tp)) 0 1 in
  Forall (λ h, -1024 ≤ h ≤ 1024) (Optimized.hidden_state (snd (Optimized.ndm_tcp_init tp)))
  ∧ snd_cwnd (fst r) = 11.
Proof.
  intros tp r.
  destruct (optimized_signal_bounds (H:=linux_host) tp (snd (Optimized.ndm_tcp_init tp)) 0 1 0
              (Optimized.reach_init tp) ltac:(lia)) as (_ & _ & _ & Hh & _ & Hg).
  split; [exact Hh|]. subst r. rewrite Hg. by vm_compute.
Defined.

(** X11: the entropy estimate of the optimized tier is at most 375 per valid
    sample, so at most 3000 on a ring of eight; in every reachable state the
    stored score lies between 0 and 3000 and the batch counter is below 16. *)
Theorem optimized_entropy_range `{tcp_host} (ca c : Optimized.ndm_tcp)
    (Hreach : Optimized.reachable ca)
    (Hn : (length (Optimized.valid_samples c) ≤ 8)%nat) :
  0 ≤ Optimized.calculate_entropy_fast c
      ≤ 375 * Z.of_nat (length (Optimized.valid_samples c))
  ∧ 0 ≤ Optimized.shannon_entropy ca ≤ 3000
  ∧ 0 ≤ Optimized.packets_acked ca < 16
  ∧ length (Optimized.rtt_history ca) = 8%nat.
Proof.
  destruct (optimized_reachable_state_ok ca Hreach) as (Hl & Hp & He & _).
  split; [by apply optimized_entropy_bound|done].
Qed.

Lemma optimized_entropy_range_witness :
  let ca := snd (ack_trace (Optimized.ndm_tcp_ops (H:=linux_host)) 2 rising_rtts
                   (Optimized.ndm_tcp_init (fresh_sock 10 0))) in
  0 ≤ Optimized.shannon_entropy ca ≤ 3000
  ∧ Optimized.calculate_entropy_fast ca ≤ 3000.
Proof.
  intros ca.
  assert (length (Optimized.valid_samples ca) = 8%nat) as Hlen by (by vm_compute).
  destruct (optimized_entropy_range (H:=linux_host) ca ca (optimized_ack_trace_reachable _ _ _)
              ltac:(rewrite Hlen; lia)) as ([_ Hc] & He & _).
  split; [exact He|]. rewrite Hlen in Hc. exact Hc.
Defined.

(** X12: the flag helpers of the optimized tier behave as a bit set.  For
    single-bit flags [2^i] and [2^j] below 256, setting [2^i] makes the test of
    [2^j] true when [i = j] and leaves it as it was otherwise; clearing [2^i]
    makes it false when [i = j] and leaves it otherwise.  [FLAG_HAS_DATA],
    [FLAG_SLOW_START], [FLAG_CONGESTION] and [FLAG_LOSS] are the bits 0 to 3. *)
Theorem optimized_flag_set_clear (ca : Optimized.ndm_tcp) (i j : Z)
    (Hi : 0 ≤ i < 8) (Hj : 0 ≤ j < 8) :
  Optimized.check_flag (Optimized.set_flag ca (2 ^ i)) (2 ^ j)
  = (i =? j) || Optimized.check_flag ca (2 ^ j)
  ∧ Optimized.check_flag (Optimized.clear_flag ca (2 ^ i)) (2 ^ j)
    = negb (i =? j) && Optimized.check_flag ca (2 ^ j)
  ∧ [Optimized.FLAG_HAS_DATA; Optimized.FLAG_SLOW_START; Optimized.FLAG_CONGESTION;
     Optimized.FLAG_LOSS] = [2 ^ 0; 2 ^ 1; 2 ^ 2; 2 ^ 3].
Proof.
  assert (∀ x k, 0 ≤ k → negb (Z.land x (2 ^ k) =? 0) = Z.testbit x k) as Hcheck.
  { intros x k Hk. destruct (Z.testbit x k) eqn:Hb.
    - apply negb_true_iff, Z.eqb_neq. intros H0.
      assert (Z.testbit (Z.land x (2 ^ k)) k = false) as Ht by (by rewrite H0, Z.bits_0).
      rewrite Z.land_spec, Hb, Z.pow2_bits_true in Ht by lia. done.
    - apply negb_false_iff, Z.eqb_eq. apply Z.bits_inj'. intros n Hn.
      rewrite Z.land_spec, Z.bits_0, Z.pow2_bits_eqb by lia.
      destruct (Z.eqb_spec k n) as [->|]; [by rewrite Hb|by rewrite andb_false_r]. }
  unfold Optimized.check_flag, Optimized.set_flag, Optimized.clear_flag. cbn.
  rewrite !Hcheck by lia. unfold u8, wrap_unsigned.
  rewrite !Z.mod_pow2_bits_low by lia.
  rewrite Z.lor_spec, Z.land_spec, Z.lnot_spec, !Z.pow2_bits_eqb by lia.
  split; [by rewrite orb_comm|]. split; [by rewrite andb_comm|done].
Qed.

Lemma optimized_flag_set_clear_witness :
  let ca := snd (Optimized.ndm_tcp_init (fresh_sock 10 80000)) in
  Optimized.check_flag (Optimized.set_flag ca Optimized.FLAG_LOSS) Optimized.FLAG_LOSS = true
  ∧ Optimized.check_flag (Optimized.set_flag ca Optimized.FLAG_LOSS) Optimized.FLAG_SLOW_START
    = true
  ∧ Optimized.check_flag (Optimized.clear_flag ca Optimized.FLAG_SLOW_START)
      Optimized.FLAG_SLOW_START = false.
Proof.
  intros ca.
  destruct (optimized_flag_set_clear ca 3 3 ltac:(lia) ltac:(lia)) as (H1 & _).
  destruct (optimized_flag_set_clear ca 3 1 ltac:(lia) ltac:(lia)) as (H2 & _).
  destruct (optimized_flag_set_clear ca 1 1 ltac:(lia) ltac:(lia)) as (_ & H3 & _).
  split; [exact H1|]. split; [exact H2|exact H3].
Defined.

(** X16: in the optimized tier a history whose valid samples are all the
    same sixteen-bit value, or that has no valid sample yet, has entropy 0. *)
Theorem optimized_uniform_entropy (ca : Optimized.ndm_tcp)
    (Hu16 : Forall (λ x, 0 ≤ x < 65536) (Optimized.valid_samples ca))
    (Hequal : all_equal (Optimized.valid_samples ca) = true) :
  Optimized.calculate_entropy_fast ca = 0.
Proof.
  unfold Optimized.calculate_entropy_fast.
  destruct (Optimized.valid_samples ca) as [|x l]; [by vm_compute|].
  apply Forall_cons in Hu16 as [Hx _]. cbn [all_equal] in Hequal. cbn [foldl].
  assert (Optimized.scan_min 65535 x = x ∧ Optimized.scan_max 0 x = x) as [-> ->].
  { unfold Optimized.scan_min, Optimized.scan_max.
    destruct (Z.ltb_spec x 65535), (Z.ltb_spec 0 x); split; lia. }
  destruct (base_scan_uniform x l Hequal) as [Hmin Hmax].
  change (foldl Optimized.scan_min x l) with (foldl Base.scan_min x l).
  change (foldl Optimized.scan_max x l) with (foldl Base.scan_max x l).
  by rewrite Hmin, Hmax, Z.sub_diag.
Qed.

Lemma optimized_uniform_entropy_witness :
  let ca := snd (repeat_ack (Optimized.ndm_tcp_ops (H:=linux_host)) 8 0 2
                   (Optimized.ndm_tcp_init (fresh_sock 10 80000))) in
  Optimized.valid_samples ca = [10; 10; 10; 10; 10; 10; 10; 10]
  ∧ Optimized.calculate_entropy_fast ca = 0.
Proof.
  intros ca.
  assert (Optimized.valid_samples ca = [10; 10; 10; 10; 10; 10; 10; 10]) as Hs by (by vm_compute).
  split; [exact Hs|].
  apply optimized_uniform_entropy; rewrite Hs; [repeat constructor; lia|reflexivity].
Defined.

(** ** Reachable states of the ultra tier *)

Lemma u8_range x : 0 ≤ u8 x < 256.
Proof. unfold u8, wrap_unsigned. apply Z.mod_pos_bound. lia. Qed.

Lemma ultra_fast_tanh_range x : -127 ≤ Ultra.fast_tanh_s8 x ≤ 127.
Proof.
  unfold Ultra.fast_tanh_s8.
  destruct (Z.ltb_spec (s32 (x + 128)) 0); [lia|].
  destruct (Z.ltb_spec 255 (s32 (x + 128))); [lia|].
  assert (forallb (λ i, (-127 <=? at_index Ultra.TANH_LUT_S8 i)
                        && (at_index Ultra.TANH_LUT_S8 i <=? 127)) (seqZ 0 256) = true)
    as Hall by (by vm_compute).
  rewrite forallb_forall in Hall.
  specialize (Hall (s32 (x + 128)) ltac:(apply list_elem_of_In, elem_of_seqZ; lia)).
  apply andb_prop in Hall as [H1%Z.leb_le H2%Z.leb_le]. lia.
Qed.

Lemma ultra_fast_sigmoid_range x : 0 ≤ Ultra.fast_sigmoid_u32 x ≤ 1024.
Proof.
  unfold Ultra.fast_sigmoid_u32.
  destruct (Z.leb_spec x (-64)); [lia|]. destruct (Z.leb_spec 64 x); [lia|].
  rewrite Z.shiftl_mul_pow2 by lia. change (2 ^ 3) with 8. rewrite u32_small by lia. lia.
Qed.

Lemma ultra_forward_pass_loop (input_vec : list Z) (idxs : list Z) (state : list Z) :
  Forall (λ h, -127 ≤ h ≤ 127) state →
  let r := foldl (λ state i,
                    let val := s32 (Z.shiftr (Ultra.hidden_accum input_vec i) Ultra.FP_SCALE
                                    + Z.shiftr (s32 (at_index state i * Ultra.RECURRENT_WEIGHT))
                                        Ultra.FP_SCALE) in
                    <[Z.to_nat i := Ultra.fast_tanh_s8 val]> state)
                 state idxs in
  Forall (λ h, -127 ≤ h ≤ 127) r ∧ length r = length state.
Proof.
  revert state. induction idxs as [|i idxs IH]; intros state Hst; simpl; [done|].
  match goal with |- context [Ultra.fast_tanh_s8 ?a] =>
    pose proof (ultra_fast_tanh_range a) as Hr; set (h := Ultra.fast_tanh_s8 a) in *
  end.
  destruct (IH (<[Z.to_nat i := h]> state)) as [IH1 IH2].
  - by apply Forall_insert.
  - split; [exact IH1|]. etrans; [exact IH2|apply length_insert].
Qed.

Lemma ultra_forward_pass_spec ca rtt_us :
  Forall (λ h, -127 ≤ h ≤ 127) (Ultra.hidden_state ca) →
  ∃ st, fst (Ultra.ndm_forward_pass_int8 ca rtt_us) = Ultra.set_hidden_state st ca
        ∧ Forall (λ h, -127 ≤ h ≤ 127) st
        ∧ length st = length (Ultra.hidden_state ca)
        ∧ 0 ≤ snd (Ultra.ndm_forward_pass_int8 ca rtt_us) ≤ 1024.
Proof.
  intros Hst. unfold Ultra.ndm_forward_pass_int8.
  pose proof (ultra_forward_pass_loop (Ultra.network_inputs ca rtt_us)
                (indices Ultra.HIDDEN_SIZE) (Ultra.hidden_state ca) Hst) as Hl.
  cbv zeta in Hl. set (st := foldl _ (Ultra.hidden_state ca) _) in *.
  exists st. destruct Hl as [Hl1 Hl2]. cbn [fst snd].
  split; [done|]. split; [done|]. split; [done|].
  case_match; apply ultra_fast_sigmoid_range.
Qed.

Lemma ultra_entropy_accumulate (hist : list Z) e :
  0 ≤ e ≤ 255 →
  0 ≤ foldl (λ entropy h, if h =? 0 then entropy
                          else u8 (entropy + at_index Ultra.ENTROPY_LUT h)) e hist ≤ 255.
Proof.
  revert e. induction hist as [|h hist IH]; intros e He; cbn [foldl]; [done|].
  apply IH. case_match; [done|]. pose proof (u8_range (e + at_index Ultra.ENTROPY_LUT h)). lia.
Qed.

Lemma ultra_entropy_byte ca : 0 ≤ Ultra.calculate_entropy_fast_u8 ca ≤ 255.
Proof.
  unfold Ultra.calculate_entropy_fast_u8. case_match; [lia|].
  apply ultra_entropy_accumulate. lia.
Qed.

Lemma ultra_stage_fields tp ca acked :
  let ca0 := Ultra.record_ack tp ca acked in
  let ca1 := Ultra.update_slow_start tp (Ultra.recompute_entropy ca0) in
  let counter := u16 (Ultra.packets_acked ca + acked) in
  Ultra.shannon_entropy ca1
  = (if 16 <=? counter then Ultra.calculate_entropy_fast_u8 ca0 else Ultra.shannon_entropy ca).
Proof.
  unfold Ultra.update_slow_start, Ultra.recompute_entropy, Ultra.record_ack.
  cbn [Ultra.min_rtt_us Ultra.set_packets_acked].
  destruct (Z.ltb_spec (Ultra.current_rtt_us tp) (Ultra.min_rtt_us ca));
    cbn [Ultra.history_count Ultra.history_index Ultra.rtt_history
         Ultra.set_min_rtt_us Ultra.set_packets_acked Ultra.set_rtt_history
         Ultra.set_history_index];
    (destruct (Z.ltb_spec (Ultra.history_count ca) Ultra.ENTROPY_WINDOW_SIZE);
     cbn [Ultra.packets_acked Ultra.set_history_count Ultra.set_history_index
          Ultra.set_rtt_history Ultra.set_min_rtt_us Ultra.set_packets_acked];
     (destruct (16 <=? u16 (Ultra.packets_acked ca + acked));
      repeat case_match; cbn; done)).
Qed.

Lemma ultra_growth_signal_spec ca rtt_us :
  Forall (λ h, -127 ≤ h ≤ 127) (Ultra.hidden_state ca) →
  0 ≤ Ultra.cached_cwnd_delta ca ≤ 1024 →
  let gs := Ultra.growth_signal ca rtt_us in
  Ultra.plasticity (fst gs) = Ultra.plasticity ca
  ∧ Ultra.shannon_entropy (fst gs) = Ultra.shannon_entropy ca
  ∧ Ultra.cached_cwnd_delta (fst gs) = snd gs
  ∧ 0 ≤ snd gs ≤ 1024
  ∧ length (Ultra.hidden_state (fst gs)) = length (Ultra.hidden_state ca)
  ∧ Forall (λ h, -127 ≤ h ≤ 127) (Ultra.hidden_state (fst gs)).
Proof.
  intros Hst Hc. unfold Ultra.growth_signal.
  destruct (Ultra.may_skip ca); [by cbn|].
  destruct (ultra_forward_pass_spec ca rtt_us Hst) as (st & Hfp & Hst' & Hlen & Hsig).
  destruct (Ultra.ndm_forward_pass_int8 ca rtt_us) as [ca' delta].
  cbn [fst snd] in *. subst ca'. by cbn.
Qed.

Lemma ultra_reachable_state_ok `{tcp_host} ca : Ultra.reachable ca → ultra_state_ok ca.
Proof.
  induction 1 as [tp|tp ca ack acked Hr IH|tp ca Hr IH|tp ca Hr IH|ca ev Hr IH|ca st Hr IH].
  - unfold ultra_state_ok. cbn. unfold Ultra.BASE_PLASTICITY.
    repeat split; try lia; try done. by apply Forall_replicate.
  - destruct (Z.eq_dec acked 0) as [->|Hne]; [done|].
    destruct IH as (Hpl & He & Hc & Hhl & Hhs).
    rewrite (ultra_cong_avoid_eq tp ca ack acked Hne). cbn [snd].
    pose proof (ultra_stage_fields tp ca acked) as E1. cbv zeta in E1.
    destruct (ultra_stage_frame tp ca acked) as (F1 & _ & F2 & F3).
    set (ca0 := Ultra.record_ack tp ca acked) in *.
    set (ca1 := Ultra.update_slow_start tp (Ultra.recompute_entropy ca0)) in *.
    destruct (ultra_growth_signal_spec ca1 (Ultra.current_rtt_us tp))
      as (G1 & G2 & G5 & G6 & G7 & G8).
    { by rewrite F3. } { by rewrite F2. }
    set (gs := Ultra.growth_signal ca1 _) in *.
    unfold ultra_state_ok. cbn. rewrite G1, G2, G5, G7, F1, F3, E1.
    pose proof (ultra_entropy_byte ca0).
    split.
    { unfold Ultra.decay_plasticity. destruct (Z.ltb_spec 25 (Ultra.plasticity ca)); [|lia].
      rewrite u8_small by lia. lia. }
    split; [case_match; lia|]. split; [lia|]. split; [done|done].
  - destruct IH as (Hpl & He & Hc & Hhl & Hhs).
    unfold ultra_state_ok. cbn. rewrite (u32_small (Ultra.plasticity ca + 40)) by lia.
    rewrite u8_small by lia. repeat split; try done; lia.
  - destruct IH as (Hpl & He & Hc & Hhl & Hhs).
    unfold ultra_state_ok, Ultra.ndm_tcp_undo_cwnd. cbn. by case_match.
  - destruct ev; try done. destruct IH as (Hpl & He & Hc & Hhl & Hhs).
    unfold ultra_state_ok, Ultra.BASE_PLASTICITY. cbn. repeat split; try done; lia.
  - destruct st; try done. destruct IH as (Hpl & He & Hc & Hhl & Hhs).
    unfold ultra_state_ok. cbn. rewrite u8_small by lia. repeat split; try done; lia.
Qed.

(** ** Further properties of the ultra tier *)

(** X13: in every reachable state of the ultra tier the plasticity lies
    between 25 and 255, the stored entropy fits a byte, the cached growth
    signal lies between 0 and 1024 and the four hidden activations between
    -127 and 127.  An acknowledgment lowers the plasticity by exactly one
    while it is above 25 and leaves it at 25 otherwise; a reduction request
    adds 40 and a forced loss state adds 50, both capped at 255. *)
Theorem ultra_state_bounds `{tcp_host} (tp : tcp_sock) (ca : Ultra.ndm_tcp)
    (ack acked : Z) (Hreach : Ultra.reachable ca) (Hacked : acked ≠ 0) :
  let p := Ultra.plasticity ca in
  25 ≤ p ≤ 255
  ∧ 0 ≤ Ultra.shannon_entropy ca ≤ 255
  ∧ 0 ≤ Ultra.cached_cwnd_delta ca ≤ 1024
  ∧ length (Ultra.hidden_state ca) = 4%nat
  ∧ Forall (λ h, -127 ≤ h ≤ 127) (Ultra.hidden_state ca)
  ∧ Ultra.plasticity (snd (Ultra.ndm_tcp_cong_avoid tp ca ack acked))
    = (if 25 <? p then p - 1 else p)
  ∧ Ultra.plasticity (fst (Ultra.ndm_tcp_ssthresh tp ca)) = Z.min 255 (p + 40)
  ∧ Ultra.plasticity (Ultra.ndm_tcp_set_state ca TCP_CA_Loss) = Z.min 255 (p + 50).
Proof.
  intros p.
  destruct (ultra_reachable_state_ok ca Hreach) as (Hp & He & Hc & Hl & Hhs). fold p in Hp.
  split; [done|]. split; [done|]. split; [done|]. split; [done|]. split; [done|]. split.
  { rewrite (ultra_cong_avoid_eq tp ca ack acked Hacked).
    cbn [snd Ultra.plasticity Ultra.set_plasticity].
    destruct (ultra_stage_frame tp ca acked) as (F1 & _ & F2 & F3).
    destruct (ultra_growth_signal_spec
                (Ultra.update_slow_start tp (Ultra.recompute_entropy (Ultra.record_ack tp ca acked)))
                (Ultra.current_rtt_us tp)) as (G1 & _).
    { by rewrite F3. } { by rewrite F2. }
    rewrite G1, F1. fold p. unfold Ultra.decay_plasticity.
    destruct (Z.ltb_spec 25 p); [|done]. apply u8_small. lia. }
  cbn. fold p. rewrite (u32_small (p + 40)), !u8_small by lia. done.
Qed.

Lemma ultra_state_bounds_witness :
  let tp := fresh_sock 10 80000 in
  let ca := snd (Ultra.ndm_tcp_init tp) in
  Ultra.plasticity (snd (Ultra.ndm_tcp_cong_avoid (H:=linux_host) tp ca 0 1)) = 75
  ∧ Ultra.plasticity (fst (Ultra.ndm_tcp_ssthresh tp ca)) = 116.
Proof.
  intros tp ca.
  destruct (ultra_state_bounds (H:=linux_host) tp ca 0 1 (Ultra.reach_init tp) ltac:(lia))
    as (_ & _ & _ & _ & _ & Hd & Hb & _).
  rewrite Hd, Hb. by vm_compute.
Defined.

(** ** The trend register of the hyper tier *)

Lemma lor_shift_bit h t : 0 ≤ t ≤ 1 → Z.lor (Z.shiftl h 1) t = 2 * h + t.
Proof.
  intros Ht. rewrite Z.shiftl_mul_pow2 by lia. change (2 ^ 1) with 2.
  replace (h * 2) with (2 * h) by lia.
  assert (t = 0 ∨ t = 1) as [-> | ->] by lia.
  - rewrite Z.lor_0_r. lia.
  - apply Z.bits_inj'. intros n Hn. rewrite Z.lor_spec.
    destruct (Z.eq_dec n 0) as [->|Hne].
    + by rewrite Z.testbit_even_0, Z.testbit_odd_0.
    + assert (n = Z.succ (n - 1)) as Hs by lia. set (m := n - 1) in *.
      assert (0 ≤ m) as Hm by lia. clearbody m. subst n.
      pose proof (Z.testbit_odd_succ 0 m Hm) as H1. change (2 * 0 + 1) with 1 in H1.
      rewrite Z.testbit_even_succ, Z.testbit_odd_succ, H1 by lia.
      by rewrite Z.bits_0, orb_false_r.
Qed.

Lemma hyper_update_entropy_fields ca rtt :
  let ca' := Hyper.update_entropy ca rtt in
  Hyper.entropy_hist ca' = (2 * Hyper.entropy_hist ca + hyper_trend ca rtt) mod 256
  ∧ Hyper.entropy_val ca'
    = Hyper.hweight8 (Z.lxor (Hyper.entropy_hist ca') (Z.shiftr (Hyper.entropy_hist ca') 1))
  ∧ Hyper.rtt_var ca' = u16 rtt
  ∧ Hyper.plasticity ca' = Hyper.plasticity ca
  ∧ Hyper.min_rtt ca' = Hyper.min_rtt ca.
Proof.
  unfold Hyper.update_entropy, hyper_trend. cbn.
  rewrite lor_shift_bit by (case_match; lia). done.
Qed.

Lemma hweight8_fold x (l : list Z) n :
  n ≤ foldl (λ n i, if Z.testbit x i then n + 1 else n) n l ≤ n + Z.of_nat (length l).
Proof.
  revert n. induction l as [|i l IH]; intros n; cbn [foldl length]; [lia|].
  destruct (Z.testbit x i); [specialize (IH (n + 1))|specialize (IH n)]; lia.
Qed.

Lemma hweight8_range x : 0 ≤ Hyper.hweight8 x ≤ 8.
Proof.
  unfold Hyper.hweight8. pose proof (hweight8_fold x (indices 8) 0) as Hf.
  change (Z.of_nat (length (indices 8))) with 8 in Hf. lia.
Qed.

Lemma double_mod_congruence h1 h2 m t :
  0 < m → h1 mod m = h2 mod m → (2 * h1 + t) mod (2 * m) = (2 * h2 + t) mod (2 * m).
Proof.
  intros Hm Heq.
  assert (h1 = h2 + (h1 / m - h2 / m) * m) as ->.
  { pose proof (Z.div_mod h1 m ltac:(lia)). pose proof (Z.div_mod h2 m ltac:(lia)). lia. }
  replace (2 * (h2 + (h1 / m - h2 / m) * m) + t)
    with (2 * h2 + t + (h1 / m - h2 / m) * (2 * m)) by lia.
  apply Z.mod_add. lia.
Qed.

(** Two registers that agree on their low [8 - n] bits agree on all eight
    bits after [n] readings pushed from the same last RTT. *)
Lemma hyper_register_forgets (rtts : list Z) ca1 ca2 :
  Hyper.rtt_var ca1 = Hyper.rtt_var ca2 →
  Hyper.entropy_hist ca1 mod 2 ^ Z.max 0 (8 - Z.of_nat (length rtts))
  = Hyper.entropy_hist ca2 mod 2 ^ Z.max 0 (8 - Z.of_nat (length rtts)) →
  Hyper.entropy_hist (foldl Hyper.update_entropy ca1 rtts) mod 256
  = Hyper.entropy_hist (foldl Hyper.update_entropy ca2 rtts) mod 256
  ∧ Hyper.rtt_var (foldl Hyper.update_entropy ca1 rtts)
    = Hyper.rtt_var (foldl Hyper.update_entropy ca2 rtts).
Proof.
  revert ca1 ca2. induction rtts as [|rtt rtts IH]; intros ca1 ca2 Hvar Hmod.
  - cbn in *. by split.
  - cbn [foldl]. apply IH.
    + destruct (hyper_update_entropy_fields ca1 rtt) as (_ & _ & -> & _).
      by destruct (hyper_update_entropy_fields ca2 rtt) as (_ & _ & -> & _).
    + destruct (hyper_update_entropy_fields ca1 rtt) as (-> & _).
      destruct (hyper_update_entropy_fields ca2 rtt) as (-> & _).
      unfold hyper_trend. rewrite Hvar.
      set (t := if Hyper.rtt_var ca2 <? rtt then 1 else 0).
      cbn [length] in Hmod.
      destruct (Z.le_gt_cases 8 (Z.of_nat (length rtts))) as [Hge|Hlt].
      * rewrite Z.max_l by lia. change (2 ^ 0) with 1. by rewrite !Z.mod_1_r.
      * rewrite Z.max_r in * by lia.
        set (k := 8 - Z.of_nat (S (length rtts))) in *.
        replace (8 - Z.of_nat (length rtts)) with (k + 1) by lia.
        assert (0 ≤ k ≤ 7) as Hk by lia.
        assert (0 < 2 ^ k) as Hpos by (apply Z.pow_pos_nonneg; lia).
        rewrite Z.pow_add_r by lia. change (2 ^ 1) with 2.
        replace (2 ^ k * 2) with (2 * 2 ^ k) by lia.
        assert (256 = 2 ^ (7 - k) * (2 * 2 ^ k)) as H256.
        { rewrite (Z.mul_comm 2 (2 ^ k)), Z.mul_assoc, <- Z.pow_add_r by lia.
          replace (7 - k + k) with 7 by lia. done. }
        assert (∀ a, (a mod 256) mod (2 * 2 ^ k) = a mod (2 * 2 ^ k)) as Hmm.
        { intros a. apply Z.mod_mod_divide. exists (2 ^ (7 - k)). exact H256. }
        rewrite !Hmm. by apply double_mod_congruence.
Qed.

Lemma hyper_register_after_reading (rtts : list Z) ca :
  rtts ≠ [] →
  let r := foldl Hyper.update_entropy ca rtts in
  0 ≤ Hyper.entropy_hist r < 256
  ∧ Hyper.entropy_val r
    = Hyper.hweight8 (Z.lxor (Hyper.entropy_hist r) (Z.shiftr (Hyper.entropy_hist r) 1))
  ∧ 0 ≤ Hyper.rtt_var r < 65536.
Proof.
  destruct rtts as [|rtt rtts _] using rev_ind; [done|]. intros _.
  rewrite foldl_app. cbn [foldl].
  destruct (hyper_update_entropy_fields (foldl Hyper.update_entropy ca rtts) rtt)
    as (Hh & Hv & Hr & _).
  split; [rewrite Hh; apply Z.mod_pos_bound; lia|]. split; [exact Hv|].
  rewrite Hr. apply u16_range.
Qed.

Lemma hyper_cong_avoid_snd `{tcp_host} tp ca ack acked :
  snd (Hyper.ndm_tcp_cong_avoid tp ca ack acked)
  = if negb (tcp_is_cwnd_limited tp) then ca
    else let rtt := Z.shiftr (srtt_us tp) 3 in
         let ca1 := Hyper.update_entropy ca rtt in
         if (rtt <? Hyper.min_rtt ca1) || (Hyper.min_rtt ca1 =? 0)
         then {| Hyper.min_rtt := rtt; Hyper.last_ack := Hyper.last_ack ca1;
                 Hyper.plasticity := Hyper.plasticity ca1;
                 Hyper.entropy_hist := Hyper.entropy_hist ca1;
                 Hyper.entropy_val := Hyper.entropy_val ca1;
                 Hyper.rtt_var := Hyper.rtt_var ca1; Hyper.pad := Hyper.pad ca1 |}
         else ca1.
Proof.
  unfold Hyper.ndm_tcp_cong_avoid. cbv zeta.
  destruct (negb (tcp_is_cwnd_limited tp)); [done|].
  repeat case_match; reflexivity.
Qed.

Lemma hyper_reachable_bounds `{tcp_host} ca :
  hyper_reachable ca →
  75 ≤ Hyper.plasticity ca ≤ 600
  ∧ 0 ≤ Hyper.entropy_val ca ≤ 8
  ∧ 0 ≤ Hyper.entropy_hist ca < 256
  ∧ 0 ≤ Hyper.rtt_var ca < 65536.
Proof.
  induction 1 as [tp|tp ca ack acked Hr IH|tp ca Hr IH|tp ca Hr IH|ca st Hr IH].
  - cbn. lia.
  - rewrite hyper_cong_avoid_snd. destruct (negb (tcp_is_cwnd_limited tp)); [done|].
    cbv zeta. destruct IH as (Hp0 & _).
    destruct (hyper_update_entropy_fields ca (Z.shiftr (srtt_us tp) 3))
      as (Hh & Hv & Hrv & Hp & _).
    set (ca1 := Hyper.update_entropy ca (Z.shiftr (srtt_us tp) 3)) in *.
    assert (0 ≤ Hyper.entropy_hist ca1 < 256) as F1
      by (rewrite Hh; apply Z.mod_pos_bound; lia).
    assert (0 ≤ Hyper.entropy_val ca1 ≤ 8) as F2 by (rewrite Hv; apply hweight8_range).
    assert (0 ≤ Hyper.rtt_var ca1 < 65536) as F3 by (rewrite Hrv; apply u16_range).
    clearbody ca1. case_match; cbn; lia.
  - destruct IH as (Hp & Hrest). unfold Hyper.ndm_tcp_ssthresh. cbn [fst].
    destruct (Z.ltb_spec 100 (Hyper.plasticity ca)); [|done]. cbn. split; [|done].
    rewrite Z.shiftr_div_pow2 by lia. change (2 ^ 2) with 4.
    assert (75 ≤ Hyper.plasticity ca * 3 / 4 ≤ 450).
    { split; [apply Z.div_le_lower_bound; lia|apply Z.div_le_upper_bound; lia]. }
    rewrite u16_small by lia. lia.
  - done.
  - destruct st; try done. destruct IH as (Hp & Hrest). cbn. split; [|done].
    rewrite (u32_small (Hyper.plasticity ca + 50)) by lia.
    unfold Hyper.MAX_P. case_match; rewrite u16_small; lia.
Qed.

(** ** Further properties of the hyper tier *)

(** X14: the trend register of the hyper tier is a window of eight
    readings.  Two connections that last saw the same RTT and then receive the
    same eight or more readings end with the same register, the same entropy
    value and the same last RTT, whatever their registers held before; the
    entropy value is the number of set bits of the register XORed with its
    shift, between 0 and 8. *)
Theorem hyper_entropy_window (ca1 ca2 : Hyper.ndm_tcp) (rtts : list Z)
    (Hlen : (8 ≤ length rtts)%nat)
    (Hvar : Hyper.rtt_var ca1 = Hyper.rtt_var ca2) :
  let r1 := foldl Hyper.update_entropy ca1 rtts in
  let r2 := foldl Hyper.update_entropy ca2 rtts in
  Hyper.entropy_hist r1 = Hyper.entropy_hist r2
  ∧ Hyper.entropy_val r1 = Hyper.entropy_val r2
  ∧ Hyper.rtt_var r1 = Hyper.rtt_var r2
  ∧ Hyper.entropy_val r1
    = Hyper.hweight8 (Z.lxor (Hyper.entropy_hist r1) (Z.shiftr (Hyper.entropy_hist r1) 1))
  ∧ 0 ≤ Hyper.entropy_val r1 ≤ 8.
Proof.
  intros r1 r2.
  assert (rtts ≠ []) as Hne by (intros ->; cbn in Hlen; lia).
  destruct (hyper_register_forgets rtts ca1 ca2 Hvar) as [Hmod Hrv].
  { rewrite Z.max_l by lia. change (2 ^ 0) with 1. by rewrite !Z.mod_1_r. }
  destruct (hyper_register_after_reading rtts ca1 Hne) as (Hb1 & Hv1 & _).
  destruct (hyper_register_after_reading rtts ca2 Hne) as (Hb2 & Hv2 & _).
  fold r1 in Hmod, Hrv, Hb1, Hv1. fold r2 in Hmod, Hrv, Hb2, Hv2.
  rewrite !Z.mod_small in Hmod by lia.
  split; [done|]. split; [by rewrite Hv1, Hv2, Hmod|]. split; [done|]. split; [done|].
  rewrite Hv1. apply hweight8_range.
Qed.

Lemma hyper_entropy_window_witness :
  let ca1 := snd (Hyper.ndm_tcp_init (fresh_sock 10 0)) in
  let ca2 := Hyper.update_entropy (Hyper.update_entropy ca1 500) 0 in
  let rtts := [10; 20; 15; 15; 30; 40; 35; 50] in
  Hyper.entropy_hist ca1 = 0 ∧ Hyper.entropy_hist ca2 = 2
  ∧ Hyper.entropy_hist (foldl Hyper.update_entropy ca1 rtts)
    = Hyper.entropy_hist (foldl Hyper.update_entropy ca2 rtts).
Proof.
  intros ca1 ca2 rtts.
  split; [by vm_compute|]. split; [by vm_compute|].
  exact (proj1 (hyper_entropy_window ca1 ca2 rtts ltac:(cbn; lia) ltac:(by vm_compute))).
Defined.

(** X15: in every reachable state of the hyper tier the plasticity lies
    between 75 and 600, the entropy value between 0 and 8, and register and
    last RTT fit their eight and sixteen bits.  A reduction request returns
    [max 2 (window / 2)], never below 2, and scales a plasticity above 100 by
    three quarters; a forced loss state adds 50, capped at 600; an
    acknowledgment leaves the plasticity alone. *)
Theorem hyper_state_bounds `{tcp_host} (tp : tcp_sock) (ca : Hyper.ndm_tcp) (ack acked : Z)
    (Hreach : hyper_reachable ca) (Hw : 0 ≤ snd_cwnd tp) :
  let p := Hyper.plasticity ca in
  75 ≤ p ≤ 600
  ∧ 0 ≤ Hyper.entropy_val ca ≤ 8
  ∧ 0 ≤ Hyper.entropy_hist ca < 256
  ∧ 0 ≤ Hyper.rtt_var ca < 65536
  ∧ snd (Hyper.ndm_tcp_ssthresh tp ca) = Z.max 2 (snd_cwnd tp / 2)
  ∧ 2 ≤ snd (Hyper.ndm_tcp_ssthresh tp ca)
  ∧ Hyper.plasticity (fst (Hyper.ndm_tcp_ssthresh tp ca)) = (if 100 <? p then p * 3 / 4 else p)
  ∧ Hyper.plasticity (Hyper.ndm_tcp_set_state ca TCP_CA_Loss) = Z.min 600 (p + 50)
  ∧ Hyper.plasticity (snd (Hyper.ndm_tcp_cong_avoid tp ca ack acked)) = p.
Proof.
  intros p.
  destruct (hyper_reachable_bounds ca Hreach) as (Hp & Hv & Hh & Hr). fold p in Hp.
  split; [done|]. split; [done|]. split; [done|]. split; [done|].
  split.
  { cbn. rewrite Z.shiftr_div_pow2 by lia. done. }
  split.
  { cbn. lia. }
  split.
  { unfold Hyper.ndm_tcp_ssthresh. cbn [fst]. fold p.
    destruct (Z.ltb_spec 100 p); [|done]. cbn.
    rewrite Z.shiftr_div_pow2 by lia. change (2 ^ 2) with 4.
    assert (0 ≤ p * 3 / 4 ≤ 450).
    { split; [apply Z.div_pos; lia|apply Z.div_le_upper_bound; lia]. }
    apply u16_small. lia. }
  split.
  { cbn. fold p. rewrite (u32_small (p + 50)) by lia. unfold Hyper.MAX_P.
    case_match; rewrite u16_small; lia. }
  rewrite hyper_cong_avoid_snd. destruct (negb (tcp_is_cwnd_limited tp)); [done|].
  cbv zeta.
  destruct (hyper_update_entropy_fields ca (Z.shiftr (srtt_us tp) 3)) as (_ & _ & _ & Hpl & _).
  by case_match.
Qed.

Lemma hyper_state_bounds_witness :
  let tp := fresh_sock 100 80000 in
  let ca := Hyper.ndm_tcp_set_state (snd (Hyper.ndm_tcp_init tp)) TCP_CA_Loss in
  Hyper.plasticity ca = 150
  ∧ Hyper.plasticity (fst (Hyper.ndm_tcp_ssthresh tp ca)) = 112
  ∧ snd (Hyper.ndm_tcp_ssthresh tp ca) = 50.
Proof.
  intros tp ca.
  destruct (hyper_state_bounds (H:=linux_host) tp ca 0 1
              (hyper_reach_set_state _ _ (hyper_reach_init tp)) ltac:(by vm_compute))
    as (_ & _ & _ & _ & Hs & _ & Hp & _).
  split; [by vm_compute|]. split; [rewrite Hp; by vm_compute|rewrite Hs; by vm_compute].
Defined.
